(** * Container lifecycle orchestration: daemon start / cleanup / create and
      the libcontainerd shadow-container state machine.

    The Go code is embedded shallowly.  Every function of the source becomes
    a computation in a small state monad whose state carries the objects the
    function mutates through pointers and the log of the calls it makes to
    its collaborators (network controller, layer store, containerd RPC,
    event logger, ...).  The collaborators are not part of the embedded
    files: what they answer is read from an environment record, so that
    every theorem holds for all their possible answers. *)

From Stdlib Require Import ZArith String Ascii List Bool Lia DecimalString.
From stdpp Require Import base strings gmap.
Import ListNotations.
Local Open Scope Z_scope.
Local Open Scope string_scope.

(** ** Go runtime pieces *)
Module Go.

(** The [error] interface: the text [Error()] returns and, for the values
    built by [errors.NewErrorWithStatusCode], the HTTP status attached. *)
Record error := mkError { Error : string; StatusCode : option Z }.

(** [fmt.Errorf] applied to an already formatted message. *)
Definition Errorf (msg : string) : error := mkError msg None.

(** Modelled from the spec: [errors.NewErrorWithStatusCode] is declared in
    the errors package, outside the embedded files; it keeps the message and
    attaches the HTTP status (the "not modified" semantics at the boundary). *)
Definition NewErrorWithStatusCode (err : error) (code : Z) : error :=
  mkError (Error err) (Some code).

(** [http.StatusNotModified] *)
Definition StatusNotModified : Z := 304.

(** [syscall.EACCES.Error()] *)
Definition EACCES_Error : string := "permission denied".

(** [strings.Contains s substr]: [substr] occurs at some offset of [s]. *)
Fixpoint Contains (s substr : string) : bool :=
  String.prefix substr s ||
  match s with
  | EmptyString => false
  | String _ rest => Contains rest substr
  end.

(** [fmt.Sprintf("%d", n)] *)
Definition Sprintf_d (n : Z) : string := NilZero.string_of_int (Z.to_int n).

(** A value or an error, for the Go functions returning [(T, error)]. *)
Inductive Result (A : Type) : Type :=
| Ok (a : A)
| Err (e : error).
Arguments Ok {A} a.
Arguments Err {A} e.

End Go.

(** ** State monad shared by the embedded packages *)
Module StateM.

Definition M (S A : Type) : Type := S -> A * S.

Definition ret {S A : Type} (a : A) : M S A := fun s => (a, s).

Definition bind {S A B : Type} (m : M S A) (k : A -> M S B) : M S B :=
  fun s => let (a, s') := m s in k a s'.

Definition get {S : Type} : M S S := fun s => (s, s).

Definition modify {S : Type} (f : S -> S) : M S unit := fun s => (tt, f s).

(** [for _, x := range xs { f x }] *)
Fixpoint forEach {S A : Type} (xs : list A) (f : A -> M S unit) : M S unit :=
  match xs with
  | [] => ret tt
  | x :: rest => bind (f x) (fun _ => forEach rest f)
  end.

(** [if err := m; err != nil { return err }] followed by [k]. *)
Definition orReturn {S : Type} (m : M S (option Go.error))
  (k : M S (option Go.error)) : M S (option Go.error) :=
  bind m (fun r => match r with Some err => ret (Some err) | None => k end).

End StateM.

Declare Scope go_scope.
Delimit Scope go_scope with go.
Notation "'let*' x ':=' m 'in' k" := (StateM.bind m (fun x => k))
  (at level 10, x name, m at level 100, k at level 200) : go_scope.
Notation "m ';;' k" := (StateM.bind m (fun _ => k))
  (at level 100, k at level 200, right associativity) : go_scope.
Notation "'check' m ';;' k" := (StateM.orReturn m k)
  (at level 10, m at level 99, k at level 200) : go_scope.

(** ** Package daemon: src/daemon/start.go and the create functions
       (last file of src/docker/flags.go) *)
Module Daemon.
Import Go StateM.
Local Open Scope go_scope.

(** [containertypes.HostConfig], with the field the embedded code reads. *)
Record HostConfig := mkHostConfig { NetworkMode : string }.

(** [container.Container], with the fields the embedded code reads or
    writes.  [StateError] is [State.Error], [Networks] is
    [NetworkSettings.Networks] ([None] for the nil map), [ExecCommands]
    lists the identifiers [ExecCommands.Commands()] ranges over. *)
Record Container := mkContainer {
  ID : string;
  Path : string;
  ImageID : string;
  MountLabel : string;
  Root : string;
  RWLayer : option string;
  BaseFS : string;
  Running : bool;
  Paused : bool;
  RemovalInProgress : bool;
  Dead : bool;
  ExitCode : Z;
  StateError : string;
  HostConfig_ : HostConfig;
  Networks : option (list string);
  ExecCommands : list string
}.

Definition set_ExitCode (n : Z) (c : Container) : Container :=
  mkContainer (ID c) (Path c) (ImageID c) (MountLabel c) (Root c) (RWLayer c)
    (BaseFS c) (Running c) (Paused c) (RemovalInProgress c) (Dead c) n
    (StateError c) (HostConfig_ c) (Networks c) (ExecCommands c).

Definition set_StateError (msg : string) (c : Container) : Container :=
  mkContainer (ID c) (Path c) (ImageID c) (MountLabel c) (Root c) (RWLayer c)
    (BaseFS c) (Running c) (Paused c) (RemovalInProgress c) (Dead c)
    (ExitCode c) msg (HostConfig_ c) (Networks c) (ExecCommands c).

Definition set_HostConfig (h : HostConfig) (c : Container) : Container :=
  mkContainer (ID c) (Path c) (ImageID c) (MountLabel c) (Root c) (RWLayer c)
    (BaseFS c) (Running c) (Paused c) (RemovalInProgress c) (Dead c)
    (ExitCode c) (StateError c) h (Networks c) (ExecCommands c).

Definition set_Networks (n : option (list string)) (c : Container) : Container :=
  mkContainer (ID c) (Path c) (ImageID c) (MountLabel c) (Root c) (RWLayer c)
    (BaseFS c) (Running c) (Paused c) (RemovalInProgress c) (Dead c)
    (ExitCode c) (StateError c) (HostConfig_ c) n (ExecCommands c).

Definition set_Running (b : bool) (c : Container) : Container :=
  mkContainer (ID c) (Path c) (ImageID c) (MountLabel c) (Root c) (RWLayer c)
    (BaseFS c) b (Paused c) (RemovalInProgress c) (Dead c)
    (ExitCode c) (StateError c) (HostConfig_ c) (Networks c) (ExecCommands c).

Definition set_RWLayer (l : option string) (c : Container) : Container :=
  mkContainer (ID c) (Path c) (ImageID c) (MountLabel c) (Root c) l
    (BaseFS c) (Running c) (Paused c) (RemovalInProgress c) (Dead c)
    (ExitCode c) (StateError c) (HostConfig_ c) (Networks c) (ExecCommands c).

(** [types.ContainerCreateConfig], with the fields [create] reads.
    [NetworkingConfig] is [None] for the nil pointer and otherwise holds the
    names of its [EndpointsConfig]; [params_HostConfig] is the object behind
    [params.HostConfig], which [ContainerCreate] makes non-nil before it
    calls [create]. *)
Record ContainerCreateConfig := mkParams {
  Name : string;
  Config_Image : string;
  params_HostConfig : HostConfig;
  NetworkingConfig : option (list string)
}.

(** The calls the embedded functions make on their collaborators, in the
    order they are made. *)
Inductive Call : Type :=
| Lock
| Unlock
| Warn (msg : string)
| Warnf_umount_volumes (id : string) (err : error)
| Errorf_cannot_destroy (id : string) (err : error)
| Errorf_saving (err : error)
| LogError (err : error)
| setSecurityOptions
| setHostConfig
| ToDisk
| ToDiskLocking
| InitDNSHostConfig
| verifyContainerSettings
| adaptContainerSettings
| conditionalMountOnStart
| initializeNetworking
| createSpec
| RestartManager (reset : bool)
| containerd_Create (id : string)
| Reset (lock : bool)
| SetError (err : error)
| LogContainerEvent (action : string)
| LogContainerEventWithAttributes (action : string)
    (attributes : list (string * string))
| releaseNetwork
| UnmountIpcMounts
| conditionalUnmountOnCleanup
| GetMountID (id : string)
| cleanupMountsByID (mountid : string)
| unregisterExecCommand (eConfig : string)
| UnmountVolumes (forceSyscall : bool)
| CancelAttachContext
| GetImage (ref : string)
| mergeAndVerifyConfig
| newContainer (name : string)
| imageStore_Get (id : string)
| CreateRWLayer (id : string) (parent : string) (mountLabel : string)
| Register (id : string)
| GetRootUIDGID
| MkdirAs (path : string)
| createContainerPlatformSpecificSettings
| updateContainerNetworkSettings (endpoints : option (list string))
| ContainerRm (id : string) (ForceRemove : bool)
| removeMountPoints (id : string) (rm : bool).

(** What the collaborators answer.  An [option error] is the error a call
    returns ([None] is Go's nil). *)
Record Env := mkEnv {
  GOOS : string;
  r_GetContainer : string -> option error;
  r_setSecurityOptions : option error;
  r_setHostConfig : HostConfig -> Result HostConfig;
  r_ToDisk : option error;
  r_verifyContainerSettings : option error;
  r_adaptContainerSettings : HostConfig -> Result HostConfig;
  r_conditionalMountOnStart : option error;
  SetDefaultNetModeIfBlank : HostConfig -> HostConfig;
  r_initializeNetworking : option error;
  r_createSpec : option error;
  r_containerd_Create : option error;
  r_conditionalUnmountOnCleanup : option error;
  r_GetMountID : Result string;
  r_UnmountVolumes : option error;
  r_GetImage : Result string;
  r_mergeAndVerifyConfig : option error;
  r_newContainer : string -> string -> Result Container;
  r_imageStore_Get : Result string;
  r_CreateRWLayer : Result string;
  r_Register : option error;
  r_GetRootUIDGID : option error;
  r_MkdirAs : option error;
  r_createContainerPlatformSpecificSettings : option error;
  r_updateContainerNetworkSettings : option error;
  r_ToDiskLocking : option error;
  r_ContainerRm : option error;
  r_removeMountPoints : option error
}.

(** The daemon as the embedded functions see it: the container they were
    handed (the object behind the [*container.Container] pointer), the
    identifiers in the daemon's container index, and the log of calls.
    What a collaborator declared outside the embedded files does to the
    container is part of the world only where a definition below says so;
    the mount, the network settings and the streams of a container are
    not. *)
Record World := mkWorld {
  container : Container;
  index : gset string;
  calls : list Call
}.

Definition call (c : Call) : M World unit :=
  modify (fun w => mkWorld (container w) (index w) (calls w ++ [c])).

Definition getContainer : M World Container :=
  fun w => (container w, w).

Definition update (f : Container -> Container) : M World unit :=
  modify (fun w => mkWorld (f (container w)) (index w) (calls w)).

Definition updateIndex (f : gset string -> gset string) : M World unit :=
  modify (fun w => mkWorld (container w) (f (index w)) (calls w)).

(** A call whose only modelled outcome is the error it returns. *)
Definition invoke (c : Call) (r : option error) : M World (option error) :=
  call c ;; ret r.

Section WithEnv.
Variable env : Env.

(** [Cleanup] (start.go, lines 189-212).  It has no result: nothing is
    returned to the caller. *)
Definition Cleanup : M World unit :=
  call releaseNetwork ;;
  call UnmountIpcMounts ;;
  let* err := invoke conditionalUnmountOnCleanup
                (r_conditionalUnmountOnCleanup env) in
  match err with
  | Some _ =>
      let* c := getContainer in
      call (GetMountID (ID c)) ;;
      match r_GetMountID env with
      | Ok mountid => call (cleanupMountsByID mountid)
      | Err _ => ret tt
      end
  | None => ret tt
  end ;;
  let* c := getContainer in
  forEach (ExecCommands c)
    (fun eConfig => call (unregisterExecCommand eConfig)) ;;
  let* c := getContainer in
  (if negb (String.eqb (BaseFS c) "") then
     let* err := invoke (UnmountVolumes false) (r_UnmountVolumes env) in
     match err with
     | Some err => call (Warnf_umount_volumes (ID c) err)
     | None => ret tt
     end
   else ret tt) ;;
  call CancelAttachContext.

(** The deferred function of [containerStart] (lines 114-129); [err] is the
    named result at the time the function returns. *)
Definition containerStart_deferred (err : option error) : M World unit :=
  match err with
  | Some err =>
      call (SetError err) ;;
      update (set_StateError (Error err)) ;;
      let* c := getContainer in
      (if Z.eqb (ExitCode c) 0 then update (set_ExitCode 128) else ret tt) ;;
      call ToDisk ;;
      Cleanup ;;
      let* c := getContainer in
      call (LogContainerEventWithAttributes "die"
              [("exitCode", Sprintf_d (ExitCode c))])
  | None => ret tt
  end.

(** The branch of [containerStart] taken when [containerd.Create] returns
    [err] (lines 162-181); the result is the error the branch returns. *)
Definition containerStart_createFailed (err : error) : M World error :=
  let* c := getContainer in
  let* err :=
    (if Contains (Error err) "executable file not found" ||
        Contains (Error err) "no such file or directory" ||
        Contains (Error err) "system cannot find the file specified"
     then
       update (set_ExitCode 127) ;;
       ret (Errorf ("Container command '" +:+ Path c +:+
                    "' not found or does not exist."))
     else ret err) in
  let* err :=
    (if Contains (Error err) EACCES_Error
     then
       update (set_ExitCode 126) ;;
       ret (Errorf ("Container command '" +:+ Path c +:+
                    "' could not be invoked."))
     else ret err) in
  call (Reset false) ;;
  call (LogContainerEvent "start") ;;
  ret err.

(** Modelled from the spec: a create of the Runtime Client that succeeds
    ends, before it returns, in the state-changed callback of the
    Orchestrator, which is declared outside the embedded files; the
    container is then running ("on success, release the lock with
    running=true"). *)
Definition containerd_Create_started : M World unit :=
  update (set_Running true).

(** [containerStart] from the first statement after the [defer] to the end
    (lines 134-184). *)
Definition containerStart_body : M World (option error) :=
  check invoke conditionalMountOnStart (r_conditionalMountOnStart env) ;;
  update (fun c =>
            set_HostConfig (SetDefaultNetModeIfBlank env (HostConfig_ c)) c) ;;
  check invoke initializeNetworking (r_initializeNetworking env) ;;
  check invoke createSpec (r_createSpec env) ;;
  let* c := getContainer in
  call (RestartManager true) ;;
  let* err := invoke (containerd_Create (ID c)) (r_containerd_Create env) in
  match err with
  | Some err =>
      let* err := containerStart_createFailed err in
      ret (Some err)
  | None => containerd_Create_started ;; ret None
  end.

(** [containerStart] (lines 98-185). *)
Definition containerStart : M World (option error) :=
  call Lock ;;
  let* c := getContainer in
  let* err :=
    (if Running c then ret None
     else if RemovalInProgress c || Dead c then
       ret (Some (Errorf
         "Container is marked for removal and cannot be started."))
     else
       let* err := containerStart_body in
       containerStart_deferred err ;;
       ret err) in
  call Unlock ;;
  ret err.

(** [setHostConfig(container, hostConfig)]: on success the container's host
    configuration is the one the collaborator installed. *)
Definition daemon_setHostConfig (hostConfig : HostConfig)
  : M World (option error) :=
  call setHostConfig ;;
  match r_setHostConfig env hostConfig with
  | Ok h => update (set_HostConfig h) ;; ret None
  | Err err => ret (Some err)
  end.

(** [adaptContainerSettings(container.HostConfig, false)], which may adjust
    the host configuration in place. *)
Definition daemon_adaptContainerSettings : M World (option error) :=
  let* c := getContainer in
  call adaptContainerSettings ;;
  match r_adaptContainerSettings env (HostConfig_ c) with
  | Ok h => update (set_HostConfig h) ;; ret None
  | Err err => ret (Some err)
  end.

(** The platform switch of [ContainerStart] (lines 42-69). *)
Definition ContainerStart_hostConfig (hostConfig : option HostConfig)
  : M World (option error) :=
  if negb (String.eqb (GOOS env) "windows") then
    match hostConfig with
    | Some hostConfig =>
        call (Warn "DEPRECATED: Setting host configuration options when the container starts is deprecated and will be removed in Docker 1.12") ;;
        let* c := getContainer in
        let oldNetworkMode := NetworkMode (HostConfig_ c) in
        check invoke setSecurityOptions (r_setSecurityOptions env) ;;
        check daemon_setHostConfig hostConfig ;;
        let* c := getContainer in
        let newNetworkMode := NetworkMode (HostConfig_ c) in
        check (if negb (String.eqb oldNetworkMode newNetworkMode) then
                 update (set_Networks None) ;;
                 invoke ToDisk (r_ToDisk env)
               else ret None) ;;
        call InitDNSHostConfig ;;
        ret None
    | None => ret None
    end
  else
    match hostConfig with
    | Some _ =>
        ret (Some (Errorf "Supplying a hostconfig on start is not supported. It should be supplied on create"))
    | None => ret None
    end.

(** [ContainerStart] (lines 20-86).  [r_GetContainer env name] is the error
    of the lookup; when it is nil the container found is the one of the
    world. *)
Definition ContainerStart (name : string) (hostConfig : option HostConfig)
  : M World (option error) :=
  match r_GetContainer env name with
  | Some err => ret (Some err)
  | None =>
      let* c := getContainer in
      if Paused c then
        ret (Some (Errorf
          "Cannot start a paused container, try unpause instead."))
      else if Running c then
        let err := Errorf "Container already started" in
        ret (Some (NewErrorWithStatusCode err StatusNotModified))
      else
        check ContainerStart_hostConfig hostConfig ;;
        check invoke verifyContainerSettings
                (r_verifyContainerSettings env) ;;
        check daemon_adaptContainerSettings ;;
        containerStart
  end.

(** [Start] (lines 89-91). *)
Definition Start : M World (option error) := containerStart.

(** [setRWLayer] (flags.go, lines 709-728). *)
Definition setRWLayer : M World (option error) :=
  let* c := getContainer in
  let* layerID :=
    (if negb (String.eqb (ImageID c) "") then
       call (imageStore_Get (ImageID c)) ;;
       ret (r_imageStore_Get env)
     else ret (Ok "")) in
  match layerID with
  | Err err => ret (Some err)
  | Ok layerID =>
      call (CreateRWLayer (ID c) layerID (MountLabel c)) ;;
      match r_CreateRWLayer env with
      | Err err => ret (Some err)
      | Ok rwLayer => update (set_RWLayer (Some rwLayer)) ;; ret None
      end
  end.

(** Modelled from the spec: [Register] is declared outside the embedded
    files.  It registers the container in the daemon's container index and
    can fail (duplicate name, duplicate identifier); a failed registration
    leaves the index as it was. *)
Definition daemon_Register : M World (option error) :=
  let* c := getContainer in
  call (Register (ID c)) ;;
  match r_Register env with
  | Some err => ret (Some err)
  | None => updateIndex (fun ix => {[ ID c ]} ∪ ix) ;; ret None
  end.

(** Modelled from the spec: [ContainerRm] is declared outside the embedded
    files.  A removal that succeeds takes the container out of the daemon's
    container index; one that fails is reported by its error. *)
Definition daemon_ContainerRm (name : string) (ForceRemove : bool)
  : M World (option error) :=
  call (ContainerRm name ForceRemove) ;;
  match r_ContainerRm env with
  | Some err => ret (Some err)
  | None => updateIndex (fun ix => ix ∖ {[ name ]}) ;; ret None
  end.

(** The first deferred function of [create] (lines 572-578). *)
Definition create_defer_ContainerRm (retErr : option error) : M World unit :=
  match retErr with
  | Some _ =>
      let* c := getContainer in
      let* err := daemon_ContainerRm (ID c) true in
      match err with
      | Some err => call (Errorf_cannot_destroy (ID c) err)
      | None => ret tt
      end
  | None => ret tt
  end.

(** The second deferred function of [create] (lines 612-618). *)
Definition create_defer_removeMountPoints (retErr : option error)
  : M World unit :=
  match retErr with
  | Some _ =>
      let* c := getContainer in
      let* err := invoke (removeMountPoints (ID c) true)
                    (r_removeMountPoints env) in
      match err with
      | Some err => call (LogError err)
      | None => ret tt
      end
  | None => ret tt
  end.

(** [create] after the second [defer] (lines 667-691). *)
Definition create_afterMounts (params : ContainerCreateConfig)
  : M World (option error) :=
  check invoke createContainerPlatformSpecificSettings
          (r_createContainerPlatformSpecificSettings env) ;;
  let endpointsConfigs :=
    match NetworkingConfig params with
    | Some eps => Some eps
    | None => None
    end in
  check invoke (updateContainerNetworkSettings endpointsConfigs)
          (r_updateContainerNetworkSettings env) ;;
  let* err := invoke ToDiskLocking (r_ToDiskLocking env) in
  match err with
  | Some err => call (Errorf_saving err) ;; ret (Some err)
  | None => call (LogContainerEvent "create") ;; ret None
  end.

(** [create] after the first [defer] (lines 581-691), the second deferred
    function included: it runs when the statements after it return. *)
Definition create_afterNew (params : ContainerCreateConfig)
  : M World (option error) :=
  check invoke setSecurityOptions (r_setSecurityOptions env) ;;
  check setRWLayer ;;
  check daemon_Register ;;
  check invoke GetRootUIDGID (r_GetRootUIDGID env) ;;
  let* c := getContainer in
  check invoke (MkdirAs (Root c)) (r_MkdirAs env) ;;
  check daemon_setHostConfig (params_HostConfig params) ;;
  let* retErr := create_afterMounts params in
  create_defer_removeMountPoints retErr ;;
  ret retErr.

(** [create] (lines 524-692).  The container [newContainer] returns becomes
    the container of the world. *)
Definition create (params : ContainerCreateConfig)
  : M World (Result Container) :=
  let* img :=
    (if negb (String.eqb (Config_Image params) "") then
       call (GetImage (Config_Image params)) ;;
       ret (r_GetImage env)
     else ret (Ok "")) in
  match img with
  | Err err => ret (Err err)
  | Ok imgID =>
      let* err := invoke mergeAndVerifyConfig (r_mergeAndVerifyConfig env) in
      match err with
      | Some err => ret (Err err)
      | None =>
          call (newContainer (Name params)) ;;
          match r_newContainer env (Name params) imgID with
          | Err err => ret (Err err)
          | Ok c0 =>
              update (fun _ => c0) ;;
              let* retErr := create_afterNew params in
              create_defer_ContainerRm retErr ;;
              match retErr with
              | Some err => ret (Err err)
              | None => let* c := getContainer in ret (Ok c)
              end
          end
      end
  end.

End WithEnv.

(** *** Vocabulary of the statements about this package *)

(** The three texts [containerStart] takes for a command that is missing. *)
Definition notFoundText (msg : string) : bool :=
  Contains msg "executable file not found" ||
  Contains msg "no such file or directory" ||
  Contains msg "system cannot find the file specified".

Definition notFoundMessage (path : string) : string :=
  "Container command '" +:+ path +:+ "' not found or does not exist.".

Definition notInvokedMessage (path : string) : string :=
  "Container command '" +:+ path +:+ "' could not be invoked.".

(** The calls of the forced-unmount fallback of [Cleanup]. *)
Definition fallback_calls (env : Env) (c : Container) : list Call :=
  match r_conditionalUnmountOnCleanup env with
  | Some _ =>
      GetMountID (ID c) ::
      match r_GetMountID env with
      | Ok mountid => [cleanupMountsByID mountid]
      | Err _ => []
      end
  | None => []
  end.

(** The calls of the volume step of [Cleanup]. *)
Definition volume_calls (env : Env) (c : Container) : list Call :=
  if String.eqb (BaseFS c) "" then []
  else
    UnmountVolumes false ::
    match r_UnmountVolumes env with
    | Some err => [Warnf_umount_volumes (ID c) err]
    | None => []
    end.

(** All the calls of one [Cleanup] of the container [c]. *)
Definition Cleanup_calls (env : Env) (c : Container) : list Call :=
  [releaseNetwork; UnmountIpcMounts; conditionalUnmountOnCleanup] ++
  fallback_calls env c ++
  map unregisterExecCommand (ExecCommands c) ++
  volume_calls env c ++
  [CancelAttachContext].

(** The container once [containerStart] has normalised its network mode. *)
Definition withDefaultNetMode (env : Env) (c : Container) : Container :=
  set_HostConfig (SetDefaultNetModeIfBlank env (HostConfig_ c)) c.

Definition isOk {A : Type} (r : Result A) : bool :=
  match r with Ok _ => true | Err _ => false end.

Definition isNil (err : option error) : bool :=
  match err with None => true | Some _ => false end.

(** [setRWLayer] succeeds on the container [c]. *)
Definition setRWLayer_ok (env : Env) (c : Container) : bool :=
  (String.eqb (ImageID c) "" || isOk (r_imageStore_Get env)) &&
  isOk (r_CreateRWLayer env).

(** The steps of [create] up to the registration of the new container [c]
    in the index succeed. *)
Definition registers (env : Env) (c : Container) : bool :=
  isNil (r_setSecurityOptions env) && setRWLayer_ok env c &&
  isNil (r_Register env).

(** The steps of [create] up to [setHostConfig], which applies the mounts
    and links of the new container [c], succeed. *)
Definition appliesMounts (env : Env) (params : ContainerCreateConfig)
  (c : Container) : bool :=
  registers env c && isNil (r_GetRootUIDGID env) && isNil (r_MkdirAs env) &&
  isOk (r_setHostConfig env (params_HostConfig params)).

(** The calls of [create] up to the return of [newContainer]. *)
Definition create_prefix (params : ContainerCreateConfig) : list Call :=
  (if String.eqb (Config_Image params) "" then []
   else [GetImage (Config_Image params)]) ++
  [mergeAndVerifyConfig; newContainer (Name params)].

(** The image identifier [create] hands to [newContainer]. *)
Definition imageOf (env : Env) (params : ContainerCreateConfig)
  : Result string :=
  if String.eqb (Config_Image params) "" then Ok "" else r_GetImage env.

(** The container a failed [containerStart] leaves, [err] being the error
    returned and [c] the container when the function returns. *)
Definition failedContainer (err : error) (c : Container) : Container :=
  let c := set_StateError (Error err) c in
  if Z.eqb (ExitCode c) 0 then set_ExitCode 128 c else c.

(** The "die" event of a failed start. *)
Definition dieEvent (c : Container) : Call :=
  LogContainerEventWithAttributes "die"
    [("exitCode", Sprintf_d (ExitCode c))].

(** The calls of the deferred function of [containerStart] on error. *)
Definition deferred_calls (env : Env) (err : error) (c : Container)
  : list Call :=
  [SetError err; ToDisk] ++
  Cleanup_calls env (failedContainer err c) ++
  [dieEvent (failedContainer err c)].

(** The calls that take or release the container lock. *)
Definition isLocking (c : Call) : bool :=
  match c with Lock | Unlock => true | _ => false end.

(** The calls that log a lifecycle event of the container. *)
Definition isLifecycleEvent (c : Call) : bool :=
  match c with
  | LogContainerEvent _ | LogContainerEventWithAttributes _ _ => true
  | _ => false
  end.

(** The calls of a [containerStart] in which every step succeeds. *)
Definition start_calls (c : Container) : list Call :=
  [Lock; conditionalMountOnStart; initializeNetworking; createSpec;
   RestartManager true; containerd_Create (ID c); Unlock].

(** The error of a container that is marked for removal or dead. *)
Definition errMarkedForRemoval : error :=
  Errorf "Container is marked for removal and cannot be started.".

(** The error of a host configuration supplied on start on Windows. *)
Definition errHostConfigOnStart : error :=
  Errorf "Supplying a hostconfig on start is not supported. It should be supplied on create".

(** The deprecation warning of a host configuration supplied on start. *)
Definition warnHostConfigOnStart : Call :=
  Warn "DEPRECATED: Setting host configuration options when the container starts is deprecated and will be removed in Docker 1.12".

(** The calls a computation added to the log [before]. *)
Definition callsSince (before : list Call) (w : World) : list Call :=
  skipn (length before) (calls w).

(** The calls by which [create] undoes what it did. *)
Definition isRollback (c : Call) : bool :=
  match c with
  | ContainerRm _ _ | removeMountPoints _ _ => true
  | _ => false
  end.

(** The step of [create] that fails with [err] once [newContainer] has
    returned the container [c], every step before it having succeeded:
    one case for each step of lines 581-688, in their order. *)
Inductive failsAfterNew (env : Env) (params : ContainerCreateConfig)
  (c : Container) (err : error) : Prop :=
| fails_setSecurityOptions :
    r_setSecurityOptions env = Some err ->
    failsAfterNew env params c err
| fails_imageStore_Get :
    r_setSecurityOptions env = None ->
    String.eqb (ImageID c) "" = false ->
    r_imageStore_Get env = Err err ->
    failsAfterNew env params c err
| fails_CreateRWLayer :
    r_setSecurityOptions env = None ->
    String.eqb (ImageID c) "" || isOk (r_imageStore_Get env) = true ->
    r_CreateRWLayer env = Err err ->
    failsAfterNew env params c err
| fails_Register :
    r_setSecurityOptions env = None ->
    setRWLayer_ok env c = true ->
    r_Register env = Some err ->
    failsAfterNew env params c err
| fails_GetRootUIDGID :
    registers env c = true ->
    r_GetRootUIDGID env = Some err ->
    failsAfterNew env params c err
| fails_MkdirAs :
    registers env c = true ->
    r_GetRootUIDGID env = None ->
    r_MkdirAs env = Some err ->
    failsAfterNew env params c err
| fails_setHostConfig :
    registers env c = true ->
    r_GetRootUIDGID env = None ->
    r_MkdirAs env = None ->
    r_setHostConfig env (params_HostConfig params) = Err err ->
    failsAfterNew env params c err
| fails_createContainerPlatformSpecificSettings :
    appliesMounts env params c = true ->
    r_createContainerPlatformSpecificSettings env = Some err ->
    failsAfterNew env params c err
| fails_updateContainerNetworkSettings :
    appliesMounts env params c = true ->
    r_createContainerPlatformSpecificSettings env = None ->
    r_updateContainerNetworkSettings env = Some err ->
    failsAfterNew env params c err
| fails_ToDiskLocking :
    appliesMounts env params c = true ->
    r_createContainerPlatformSpecificSettings env = None ->
    r_updateContainerNetworkSettings env = None ->
    r_ToDiskLocking env = Some err ->
    failsAfterNew env params c err.

End Daemon.

(** ** Package libcontainerd: the container of the runtime client
       (second file of src/docker/flags.go) *)
Module Libcontainerd.
Import Go StateM.
Local Open Scope go_scope.

(** The state names carried by events and by [StateInfo].  In Go they are
    string constants of the package; [StateOther] stands for any other
    string an event may carry. *)
Inductive state : Type :=
| StateStart
| StatePause
| StateResume
| StateExit
| StateRestart
| StateRestore
| StateStartProcess
| StateExitProcess
| StateOOM
| StateOther (name : string).

Definition isExit (s : state) : bool :=
  match s with StateExit => true | _ => false end.

(** [containerd.Event] *)
Record Event := mkEvent {
  Id : string;
  Pid : string;
  Type_ : state;
  Status : Z
}.

(** [StateInfo]; [StatePid] is its [Pid] field. *)
Record StateInfo := mkStateInfo {
  State : state;
  StatePid : Z;
  ExitCode : Z;
  ProcessID : string;
  OOMKilled : bool
}.

Definition set_State (s : state) (st : StateInfo) : StateInfo :=
  mkStateInfo s (StatePid st) (ExitCode st) (ProcessID st) (OOMKilled st).

Definition set_ProcessID (p : string) (st : StateInfo) : StateInfo :=
  mkStateInfo (State st) (StatePid st) (ExitCode st) p (OOMKilled st).

(** An additional process of a container. *)
Record process := mkProcess { process_dir : string; friendlyName : string }.

(** The [container] struct: [containerCommon] followed by the platform
    fields.  [restartManager] is [None] for the nil interface. *)
Record container := mkCtr {
  containerID : string;
  dir : string;
  processes : gmap string process;
  restartManager : option nat;
  restarting : bool;
  startedAt : Z;
  systemPid : Z;
  oom : bool
}.

Definition set_processes (p : gmap string process) (c : container) :=
  mkCtr (containerID c) (dir c) p (restartManager c) (restarting c)
    (startedAt c) (systemPid c) (oom c).

Definition set_restarting (b : bool) (c : container) :=
  mkCtr (containerID c) (dir c) (processes c) (restartManager c) b
    (startedAt c) (systemPid c) (oom c).

Definition set_startedAt (t : Z) (c : container) :=
  mkCtr (containerID c) (dir c) (processes c) (restartManager c)
    (restarting c) t (systemPid c) (oom c).

Definition set_systemPid (p : Z) (c : container) :=
  mkCtr (containerID c) (dir c) (processes c) (restartManager c)
    (restarting c) (startedAt c) p (oom c).

Definition set_oom (b : bool) (c : container) :=
  mkCtr (containerID c) (dir c) (processes c) (restartManager c)
    (restarting c) (startedAt c) (systemPid c) b.

(** [specs.Spec], with the field [start] reads ([Process.Terminal]). *)
Record Spec := mkSpec { Terminal : bool }.

(** [containerd.CreateContainerRequest] *)
Record CreateContainerRequest := mkRequest {
  req_Id : string;
  BundlePath : string;
  Stdin : string;
  Stdout : string;
  Stderr : string;
  NoPivotRoot : bool
}.

(** The calls made on the operating system, the containerd RPC client, the
    backend (the daemon's side of the bridge) and the restart manager. *)
Inductive Call : Type :=
| client_lock (id : string)
| client_unlock (id : string)
| Lstat (path : string)
| RemoveAll (path : string)
| Remove (path : string)
| Warnf_remove (path : string) (id : string) (err : error)
| ReadFile (path : string)
| openFifos (terminal : bool)
| closeFifos (iopipe : nat)
| CreateContainer (r : CreateContainerRequest)
| AttachStreams (id : string) (iopipe : nat)
| StateChanged (id : string) (st : StateInfo)
| ShouldRestart (exitCode : Z) (hasBeenManuallyStopped : bool)
    (executionDuration : Z)
| Warnf_container (id : string) (err : error)
| LogError (err : error)
| Debugf_unhandled (e : Event)
| pauseMonitor_handle (t : state)
| exitNotifier_close (id : string).

(** A function value handed to [client.q.append].  Both closures of the
    source capture the event and the variable [st]; [st] is captured by
    reference, so the closure holds the variable, not its value. *)
Inductive Callback : Type :=
| notifyEvent (e : Event) (st : nat)
| notifyRestartCanceled (e : Event) (st : nat).

(** The goroutine [handleEvent] starts when a restart is decided: it holds
    the channel it waits on, the event and the variable [st]. *)
Record Waiter := mkWaiter {
  waiter_wait : nat;
  waiter_e : Event;
  waiter_st : nat
}.

(** The error values the channel [wait] of a goroutine delivers.  The test
    of line 207, [err != restartmanager.ErrRestartCanceled], compares error
    values by identity: an error value is either that very value or
    another one, whatever its text. *)
Inductive waitError : Type :=
| ErrRestartCanceled
| otherError (err : error).

(** What the operating system, containerd, the backend and the restart
    manager answer. *)
Record Env := mkEnv {
  os_Getenv : string -> string;
  os_Lstat : string -> option error;
  os_IsNotExist : error -> bool;
  os_RemoveAll : string -> option error;
  os_Remove : string -> option error;
  ioutil_ReadFile : string -> Result string;
  json_Unmarshal : string -> Result Spec;
  r_openFifos : bool -> Result nat;
  r_CreateContainer : CreateContainerRequest -> Result Z;
  r_AttachStreams : option error;
  r_StateChanged : string -> StateInfo -> option error;
  time_Now : Z;
  r_ShouldRestart : Z -> bool -> Z -> bool * nat * option error;
  r_getExitNotifier : string -> bool
}.

(** The runtime client as the container sees it: the container itself,
    the identifiers in [client.containers], the functions queued on
    [client.q] with the identifier they were queued under, the goroutines
    started and not yet run, the [st] variables the closures captured, and
    the log of calls. *)
Record World := mkWorld {
  ctr : container;
  containers : gset string;
  q : list (string * Callback);
  goroutines : list Waiter;
  vars : list StateInfo;
  calls : list Call
}.

Definition call (c : Call) : M World unit :=
  modify (fun w => mkWorld (ctr w) (containers w) (q w) (goroutines w)
                     (vars w) (calls w ++ [c])).

Definition invoke (c : Call) (r : option error) : M World (option error) :=
  call c ;; ret r.

Definition getCtr : M World container := fun w => (ctr w, w).

Definition updateCtr (f : container -> container) : M World unit :=
  modify (fun w => mkWorld (f (ctr w)) (containers w) (q w) (goroutines w)
                     (vars w) (calls w)).

(** [var st StateInfo = v]: a fresh variable, named by its position. *)
Definition newVar (v : StateInfo) : M World nat :=
  fun w => (length (vars w),
            mkWorld (ctr w) (containers w) (q w) (goroutines w)
              (vars w ++ [v]) (calls w)).

Definition zeroStateInfo : StateInfo := mkStateInfo (StateOther "") 0 0 "" false.

Definition readVar (st : nat) : M World StateInfo :=
  fun w => (default zeroStateInfo (vars w !! st), w).

Definition updateVar (st : nat) (f : StateInfo -> StateInfo) : M World unit :=
  modify (fun w => mkWorld (ctr w) (containers w) (q w) (goroutines w)
                     (alter f st (vars w)) (calls w)).

(** [go func() { ... }()] *)
Definition go (g : Waiter) : M World unit :=
  modify (fun w => mkWorld (ctr w) (containers w) (q w) (goroutines w ++ [g])
                     (vars w) (calls w)).

(** [client.q.append(id, f)] *)
Definition q_append (id : string) (f : Callback) : M World unit :=
  modify (fun w => mkWorld (ctr w) (containers w) (q w ++ [(id, f)])
                     (goroutines w) (vars w) (calls w)).

(** Modelled from the spec: [appendContainer] and [deleteContainer] are
    declared outside the embedded files.  The client keeps a registry of
    containers keyed by container identifier; the first adds the container
    under its identifier, the second removes the entry of an identifier. *)
Definition appendContainer : M World unit :=
  modify (fun w => mkWorld (ctr w) ({[ containerID (ctr w) ]} ∪ containers w)
                     (q w) (goroutines w) (vars w) (calls w)).

Definition deleteContainer (id : string) : M World unit :=
  modify (fun w => mkWorld (ctr w) (containers w ∖ {[ id ]})
                     (q w) (goroutines w) (vars w) (calls w)).

Section WithEnv.

(** Constants and helpers of the package declared outside the embedded
    file: the friendly name of a container's init process, the name of the
    bundle's configuration file, the fifo paths of a container and of an
    additional process, and [filepath.Join]. *)
Variable InitFriendlyName : string.
Variable configFilename : string.
Variable container_fifo : container -> Z -> string.
Variable process_fifo : process -> Z -> string.
Variable filepath_Join : string -> string -> string.
Variable env : Env.

(** [syscall.Stdin], [syscall.Stdout], [syscall.Stderr] *)
Definition syscall_Stdin : Z := 0.
Definition syscall_Stdout : Z := 1.
Definition syscall_Stderr : Z := 2.

(** [time.Since(t)] *)
Definition time_Since (t : Z) : Z := time_Now env - t.

(** [clean] (lines 58-73). *)
Definition clean : M World (option error) :=
  if String.eqb (os_Getenv env "LIBCONTAINERD_NOCLEAN") "1" then ret None
  else
    let* c := getCtr in
    let* err := invoke (Lstat (dir c)) (os_Lstat env (dir c)) in
    match err with
    | Some err => if os_IsNotExist env err then ret None else ret (Some err)
    | None =>
        let* err := invoke (RemoveAll (dir c)) (os_RemoveAll env (dir c)) in
        match err with
        | Some err => ret (Some err)
        | None => ret None
        end
    end.

(** [cleanProcess] (lines 77-86). *)
Definition cleanProcess (id : string) : M World unit :=
  let* c := getCtr in
  match processes c !! id with
  | Some p =>
      forEach [syscall_Stdin; syscall_Stdout; syscall_Stderr]
        (fun i =>
           let* err := invoke (Remove (process_fifo p i))
                         (os_Remove env (process_fifo p i)) in
           match err with
           | Some err => call (Warnf_remove (process_fifo p i) id err)
           | None => ret tt
           end)
  | None => ret tt
  end ;;
  updateCtr (fun c => set_processes (delete id (processes c)) c).

(** [spec] (lines 88-98). *)
Definition spec : M World (Result Spec) :=
  let* c := getCtr in
  let path := filepath_Join (dir c) configFilename in
  call (ReadFile path) ;;
  match ioutil_ReadFile env path with
  | Err err => ret (Err err)
  | Ok dt =>
      match json_Unmarshal env dt with
      | Err err => ret (Err err)
      | Ok spec => ret (Ok spec)
      end
  end.

(** [start] (lines 100-156). *)
Definition start : M World (option error) :=
  let* r := spec in
  match r with
  | Err _ => ret None
  | Ok spec =>
      call (openFifos (Terminal spec)) ;;
      match r_openFifos env (Terminal spec) with
      | Err err => ret (Some err)
      | Ok iopipe =>
          let* c := getCtr in
          let r := mkRequest (containerID c) (dir c)
                     (container_fifo c syscall_Stdin)
                     (container_fifo c syscall_Stdout)
                     (container_fifo c syscall_Stderr)
                     (negb (String.eqb (os_Getenv env "DOCKER_RAMDISK") "")) in
          appendContainer ;;
          call (CreateContainer r) ;;
          match r_CreateContainer env r with
          | Err err => call (closeFifos iopipe) ;; ret (Some err)
          | Ok resp =>
              updateCtr (set_startedAt (time_Now env)) ;;
              check invoke (AttachStreams (containerID c) iopipe)
                      (r_AttachStreams env) ;;
              updateCtr (set_systemPid resp) ;;
              let* c := getCtr in
              let st := mkStateInfo StateStart (systemPid c) 0 "" false in
              invoke (StateChanged (containerID c) st)
                (r_StateChanged env (containerID c) st)
          end
      end
  end.

(** The function [handleEvent] queues for every handled event
    (lines 226-238), run by the queue. *)
Definition run_notifyEvent (e : Event) (st : nat) : M World unit :=
  let* s := readVar st in
  let* err := invoke (StateChanged (Id e) s) (r_StateChanged env (Id e) s) in
  match err with
  | Some err => call (LogError err)
  | None => ret tt
  end ;;
  match Type_ e with
  | StatePause | StateResume => call (pauseMonitor_handle (Type_ e))
  | _ => ret tt
  end ;;
  match Type_ e with
  | StateExit =>
      if r_getExitNotifier env (Id e) then call (exitNotifier_close (Id e))
      else ret tt
  | _ => ret tt
  end.

(** The function the waiting goroutine queues when the wait fails
    (lines 202-206), run by the queue. *)
Definition run_notifyRestartCanceled (e : Event) (st : nat) : M World unit :=
  let* s := readVar st in
  let* err := invoke (StateChanged (Id e) s) (r_StateChanged env (Id e) s) in
  match err with
  | Some err => call (LogError err)
  | None => ret tt
  end.

Definition runCallback (f : Callback) : M World unit :=
  match f with
  | notifyEvent e st => run_notifyEvent e st
  | notifyRestartCanceled e st => run_notifyRestartCanceled e st
  end.

(** The goroutine of lines 194-213 once [<-wait] has delivered [err]. *)
Definition runWaiter (g : Waiter) (err : option waitError)
  : M World unit :=
  let e := waiter_e g in
  let st := waiter_st g in
  let* c := getCtr in
  call (client_lock (containerID c)) ;;
  updateCtr (set_restarting false) ;;
  match err with
  | Some err =>
      updateVar st (set_State StateExit) ;;
      clean ;;
      q_append (Id e) (notifyRestartCanceled e st) ;;
      match err with
      | otherError err => call (LogError err)
      | ErrRestartCanceled => ret tt
      end
  | None => start ;; ret tt
  end ;;
  call (client_unlock (containerID c)).

(** [handleEvent] (lines 169-244). *)
Definition handleEvent (e : Event) : M World (option error) :=
  let* c := getCtr in
  call (client_lock (containerID c)) ;;
  match Type_ e with
  | StateExit | StatePause | StateResume | StateOOM =>
      let* c := getCtr in
      let* st := newVar (mkStateInfo (Type_ e) 0 (Status e) ""
                           (isExit (Type_ e) && oom c)) in
      match Type_ e with
      | StateOOM => updateCtr (set_oom true)
      | _ => ret tt
      end ;;
      (if isExit (Type_ e) && negb (String.eqb (Pid e) InitFriendlyName) then
         updateVar st (set_ProcessID (Pid e)) ;;
         updateVar st (set_State StateExitProcess)
       else ret tt) ;;
      let* s := readVar st in
      let* c := getCtr in
      match State s, restartManager c with
      | StateExit, Some _ =>
          let d := time_Since (startedAt c) in
          call (ShouldRestart (Status e) false d) ;;
          match r_ShouldRestart env (Status e) false d with
          | (_, _, Some err) => call (Warnf_container (containerID c) err)
          | (true, wait, None) =>
              updateVar st (set_State StateRestart) ;;
              updateCtr (set_restarting true) ;;
              deleteContainer (Id e) ;;
              go (mkWaiter wait e st)
          | (false, _, None) => ret tt
          end
      | _, _ => ret tt
      end ;;
      let* s := readVar st in
      match State s with
      | StateExit => clean ;; deleteContainer (Id e)
      | StateExitProcess => cleanProcess (ProcessID s)
      | _ => ret tt
      end ;;
      q_append (Id e) (notifyEvent e st)
  | _ => call (Debugf_unhandled e)
  end ;;
  call (client_unlock (containerID c)) ;;
  ret None.

End WithEnv.

(** *** Vocabulary of the statements about this package *)

(** The calls of one [clean] of the container [c]. *)
Definition clean_calls (env : Env) (c : container) : list Call :=
  if String.eqb (os_Getenv env "LIBCONTAINERD_NOCLEAN") "1" then []
  else
    Lstat (dir c) ::
    match os_Lstat env (dir c) with
    | Some _ => []
    | None => [RemoveAll (dir c)]
    end.

(** The calls that remove one fifo of the process [p]. *)
Definition removeFifo_calls (process_fifo : process -> Z -> string)
  (env : Env) (id : string) (p : process) (i : Z) : list Call :=
  Remove (process_fifo p i) ::
  match os_Remove env (process_fifo p i) with
  | Some err => [Warnf_remove (process_fifo p i) id err]
  | None => []
  end.

(** The calls of one [cleanProcess id] on the container [c]. *)
Definition cleanProcess_calls (process_fifo : process -> Z -> string)
  (env : Env) (c : container) (id : string) : list Call :=
  match processes c !! id with
  | Some p =>
      removeFifo_calls process_fifo env id p 0 ++
      removeFifo_calls process_fifo env id p 1 ++
      removeFifo_calls process_fifo env id p 2
  | None => []
  end.

(** The world in which the waiting goroutine runs [start] or [clean]: the
    container lock is taken and the restarting flag cleared. *)
Definition lockedForRestart (w : World) : World :=
  mkWorld (set_restarting false (ctr w)) (containers w) (q w) (goroutines w)
    (vars w) (calls w ++ [client_lock (containerID (ctr w))]).

(** The world once the lock of the container [id] is released. *)
Definition unlocked (id : string) (w : World) : World :=
  mkWorld (ctr w) (containers w) (q w) (goroutines w) (vars w)
    (calls w ++ [client_unlock id]).

(** The calls of the client that consult the restart manager. *)
Definition isShouldRestart (c : Call) : bool :=
  match c with ShouldRestart _ _ _ => true | _ => false end.

(** The calls of the client that remove the directory of a container. *)
Definition isDirectoryCleanup (c : Call) : bool :=
  match c with Lstat _ | RemoveAll _ => true | _ => false end.

(** Whether a state name is that of an OOM event. *)
Definition isOOM (s : state) : bool :=
  match s with StateOOM => true | _ => false end.

(** Every [st] variable of [w] is still there in [w'], with the same
    [OOMKilled]. *)
Definition varsKept (w w' : World) : Prop :=
  forall (i : nat) (v : StateInfo),
    vars w !! i = Some v ->
    exists v', vars w' !! i = Some v' /\ OOMKilled v' = OOMKilled v.

(** [w'] has the [oom] flag of [w] and keeps its variables. *)
Definition sameOom (w w' : World) : Prop :=
  oom (ctr w') = oom (ctr w) /\ varsKept w w'.

(** The computation [m] neither touches the [oom] flag nor the [OOMKilled]
    of a variable. *)
Definition keepsOom {A : Type} (m : M World A) : Prop :=
  forall w : World, sameOom w (snd (m w)).

(** The state names [handleEvent] dispatches on. *)
Definition isHandled (s : state) : bool :=
  match s with
  | StateExit | StatePause | StateResume | StateOOM => true
  | _ => false
  end.

(** The state names of the pause and resume events. *)
Definition isPauseOrResume (s : state) : bool :=
  match s with
  | StatePause | StateResume => true
  | _ => false
  end.

(** The calls of the client that hand a state to the bridge. *)
Definition isStateChanged (c : Call) : bool :=
  match c with StateChanged _ _ => true | _ => false end.

(** A world with another call log. *)
Definition withCalls (w : World) (l : list Call) : World :=
  mkWorld (ctr w) (containers w) (q w) (goroutines w) (vars w) l.

(** Whether the exit [e] of the init process of [c] ends in a restart: the
    container has a restart manager and the manager answers "restart"
    without error. *)
Definition restarts (env : Env) (e : Event) (c : container) : bool :=
  match restartManager c with
  | Some _ =>
      match r_ShouldRestart env (Status e) false
              (time_Now env - startedAt c) with
      | (true, _, None) => true
      | _ => false
      end
  | None => false
  end.

(** The calls that consult the restart manager about the exit [e] of the
    init process of [c], when no restart follows. *)
Definition consult_calls (env : Env) (e : Event) (c : container)
  : list Call :=
  match restartManager c with
  | Some _ =>
      ShouldRestart (Status e) false (time_Now env - startedAt c) ::
      match r_ShouldRestart env (Status e) false
              (time_Now env - startedAt c) with
      | (_, _, Some err) => [Warnf_container (containerID c) err]
      | _ => []
      end
  | None => []
  end.

(** The call by which the waiting goroutine logs the error its wait ended
    with: none for the value [restartmanager.ErrRestartCanceled]. *)
Definition waitError_calls (err : waitError) : list Call :=
  match err with
  | ErrRestartCanceled => []
  | otherError err => [LogError err]
  end.

(** The create request [start] builds for the container [c]. *)
Definition requestOf (container_fifo : container -> Z -> string)
  (env : Env) (c : container) : CreateContainerRequest :=
  mkRequest (containerID c) (dir c) (container_fifo c 0)
    (container_fifo c 1) (container_fifo c 2)
    (negb (String.eqb (os_Getenv env "DOCKER_RAMDISK") "")).

(** The configuration [spec] reads for the container [c]. *)
Definition specOf (configFilename : string)
  (filepath_Join : string -> string -> string) (env : Env) (c : container)
  : Result Spec :=
  match ioutil_ReadFile env (filepath_Join (dir c) configFilename) with
  | Ok dt => json_Unmarshal env dt
  | Err err => Err err
  end.

(** Whenever the restarting flag is set, a goroutine is waiting. *)
Definition restartIsPending (w : World) : Prop :=
  restarting (ctr w) = true -> goroutines w <> [].

End Libcontainerd.

(** ** Executions of the runtime client *)
Module Schedule.
Import Go StateM Libcontainerd.
Local Open Scope go_scope.

(** What can happen next to a shadow container: the backend delivers an
    event, the function at the head of the queue runs, or the wait of one
    of the started goroutines ends with [err]. *)
Inductive Step : Type :=
| Deliver (e : Event)
| RunQueued
| WaitEnds (n : nat) (err : option waitError).

Section WithConsts.
Variable InitFriendlyName : string.
Variable configFilename : string.
Variable container_fifo : container -> Z -> string.
Variable process_fifo : process -> Z -> string.
Variable filepath_Join : string -> string -> string.

Definition dequeue : M World (option Callback) :=
  fun w =>
    match q w with
    | [] => (None, w)
    | (_, f) :: rest =>
        (Some f, mkWorld (ctr w) (containers w) rest (goroutines w)
                   (vars w) (calls w))
    end.

Definition takeGoroutine (n : nat) : M World (option Waiter) :=
  fun w =>
    (goroutines w !! n,
     mkWorld (ctr w) (containers w) (q w) (delete n (goroutines w))
       (vars w) (calls w)).

Definition step (env : Env) (s : Step) : M World unit :=
  match s with
  | Deliver e =>
      handleEvent InitFriendlyName process_fifo env e ;; ret tt
  | RunQueued =>
      let* f := dequeue in
      match f with
      | Some f => runCallback env f
      | None => ret tt
      end
  | WaitEnds n err =>
      let* g := takeGoroutine n in
      match g with
      | Some g =>
          runWaiter configFilename container_fifo
            filepath_Join env g err
      | None => ret tt
      end
  end.

(** A run: each step with the answers the environment gives during it. *)
Fixpoint run (steps : list (Env * Step)) : M World unit :=
  match steps with
  | [] => ret tt
  | (env, s) :: rest => step env s ;; run rest
  end.

End WithConsts.

(** Whether a step delivers an OOM event. *)
Definition deliversOOM (s : Step) : bool :=
  match s with
  | Deliver e => isOOM (Type_ e)
  | _ => false
  end.

End Schedule.

(** ** Package daemon: [ContainerCreate] and [VolumeCreate]
       (last file of src/docker/flags.go) *)
Module DaemonApi.
Import Go StateM Daemon.
Local Open Scope go_scope.

(** [containertypes.Config], with the field the embedded code reads. *)
Record Config := mkConfig { Image : string }.

(** [types.ContainerCreateConfig] as [ContainerCreate] receives it: the
    configuration and the host configuration are pointers that can be nil. *)
Record CreateRequest := mkCreateRequest {
  req_Name : string;
  req_Config : option Config;
  req_HostConfig : option HostConfig;
  req_NetworkingConfig : option (list string);
  AdjustCPUShares : bool
}.

(** [types.ContainerCreateResponse] *)
Record ContainerCreateResponse := mkResponse {
  resp_ID : string;
  Warnings : list string
}.

(** What the collaborators of [ContainerCreate] answer besides those of
    [create]: the warnings of [verifyContainerSettings], the verdict of
    [verifyNetworkingConfig] and the conversion [imageNotExistToErrcode].
    The last two only compute a result and are not logged. *)
Record ApiEnv := mkApiEnv {
  daemonEnv : Env;
  verifyWarnings : list string;
  r_verifyNetworkingConfig : option error;
  imageNotExistToErrcode : error -> error
}.

Definition errConfigEmpty : error :=
  Errorf "Config cannot be empty in order to create a container".

(** [ContainerCreate] (lines 490-521). *)
Definition ContainerCreate (env : ApiEnv) (params : CreateRequest)
  : M World (ContainerCreateResponse * option error) :=
  match req_Config params with
  | None => ret (mkResponse "" [], Some errConfigEmpty)
  | Some config =>
      let warnings := verifyWarnings env in
      let* err := invoke verifyContainerSettings
                    (r_verifyContainerSettings (daemonEnv env)) in
      match err with
      | Some err => ret (mkResponse "" warnings, Some err)
      | None =>
          match r_verifyNetworkingConfig env with
          | Some err => ret (mkResponse "" [], Some err)
          | None =>
              let hostConfig :=
                match req_HostConfig params with
                | Some h => h
                | None => mkHostConfig ""
                end in
              call adaptContainerSettings ;;
              match r_adaptContainerSettings (daemonEnv env) hostConfig with
              | Err err => ret (mkResponse "" warnings, Some err)
              | Ok hostConfig =>
                  let* r := create (daemonEnv env)
                              (mkParams (req_Name params) (Image config)
                                 hostConfig (req_NetworkingConfig params)) in
                  match r with
                  | Err err =>
                      ret (mkResponse "" warnings,
                           Some (imageNotExistToErrcode env err))
                  | Ok container =>
                      ret (mkResponse (ID container) warnings, None)
                  end
              end
          end
      end
  end.

(** The volume store and the event log, as [VolumeCreate] uses them. *)
Inductive VolumeCall : Type :=
| GenerateNonCryptoID
| volumes_Create (name driverName : string)
    (opts labels : list (string * string))
| LogVolumeEvent (name action : string) (attributes : list (string * string)).

(** A stored volume: what [v.Name()] and [v.DriverName()] return. *)
Record Volume := mkVolume { volume_Name : string; volume_DriverName : string }.

Record VolumeEnv := mkVolumeEnv {
  r_GenerateNonCryptoID : string;
  r_volumes_Create : string -> string -> Result Volume;
  IsNameConflict : error -> bool
}.

Definition errVolumeExists (name : string) : error :=
  Errorf ("A volume named " +:+ name +:+
          " already exists. Choose a different volume name.").

Definition volumeCall (c : VolumeCall) : M (list VolumeCall) unit :=
  modify (fun l : list VolumeCall => (l ++ [c])%list).

(** [VolumeCreate] (lines 732-747); the result is the volume handed to
    [volumeToAPIType]. *)
Definition VolumeCreate (env : VolumeEnv) (name driverName : string)
  (opts labels : list (string * string))
  : M (list VolumeCall) (Result Volume) :=
  let* name :=
    (if String.eqb name "" then
       volumeCall GenerateNonCryptoID ;;
       ret (r_GenerateNonCryptoID env)
     else ret name) in
  volumeCall (volumes_Create name driverName opts labels) ;;
  match r_volumes_Create env name driverName with
  | Err err =>
      if IsNameConflict env err then ret (Err (errVolumeExists name))
      else ret (Err err)
  | Ok v =>
      volumeCall (LogVolumeEvent (volume_Name v) "create"
                    [("driver", volume_DriverName v)]) ;;
      ret (Ok v)
  end.

End DaemonApi.

(** ** Package cli (third file of src/docker/flags.go) and the end of
       [main] (src/unnamed/part_000) *)
Module Cli.
Import Go.

(** The errors that travel through the command line: an ordinary error
    with its text, or a [StatusError] with its two fields. *)
Inductive cliError : Type :=
| PlainError (msg : string)
| StatusError (Status : string) (StatusCode : Z).

(** [StatusError.Error] (lines 465-467), and the text of the others. *)
Definition cliError_Error (e : cliError) : string :=
  match e with
  | PlainError msg => msg
  | StatusError status code =>
      "Status: " +:+ status +:+ ", Code: " +:+ Sprintf_d code
  end.

(** What [command] returns besides a function: an ordinary error, or an
    [initErr] wrapping the error of [Initialize]. *)
Inductive Lookup (A : Type) : Type :=
| Found (f : A)
| LookupError (e : cliError)
| initErr (e : cliError).
Arguments Found {A} f.
Arguments LookupError {A} e.
Arguments initErr {A} e.

(** A handler: the [Cli] itself, which [New] registers first, or another
    value, of which reflection sees the names of its methods and whether
    it implements [Initializer]. *)
Inductive Handler : Type :=
| selfHandler
| mkHandler (methods : string -> bool) (initializer : bool).

(** [reflect.ValueOf(c).MethodByName(n).IsValid()], for the names
    [command] asks for: they start with [Cmd], and the only such method of
    a [Cli] is [CmdHelp]. *)
Definition hasMethod (c : Handler) (n : string) : bool :=
  match c with
  | selfHandler => String.eqb n "CmdHelp"
  | mkHandler methods _ => methods n
  end.

(** [_, ok := c.(Initializer)]: a [Cli] has no [Initialize]. *)
Definition isInitializer (c : Handler) : bool :=
  match c with
  | selfHandler => false
  | mkHandler _ initializer => initializer
  end.

(** A method value [command] returns: the method [name] of the handler at
    position [handler]. *)
Record Method := mkMethod { handler : nat; name : string }.

(** How a call ends: it returns, or the process exits with a code. *)
Inductive Outcome (A : Type) : Type :=
| Returns (a : A)
| Exits (code : Z).
Arguments Returns {A} a.
Arguments Exits {A} code.

(** The calls made while a command line runs.  [Invoke] is the call of a
    method obtained by reflection; for a method of a handler other than
    the [Cli] it stands for the whole run of that method. *)
Inductive Call : Type :=
| Initialize (handler : nat)
| Invoke (m : Method) (args : list string)
| Fprintf (w : string) (text : string)
| Fprintln (w : string) (text : string)
| flag_Usage
| cli_Usage.

(** What the handlers other than the [Cli] answer. *)
Record Env := mkEnv {
  r_Initialize : nat -> option cliError;
  r_Invoke : Method -> list string -> Outcome (option cliError)
}.

(** [Cli]: the writer of its error messages (nil at first), its handlers
    (a nil interface is [None]) and whether [Usage] is set. *)
Record Cli := mkCli {
  Stderr : option string;
  handlers : list (option Handler);
  Usage : bool
}.

(** The command line and the log of its calls. *)
Record World := mkWorld { cli : Cli; calls : list Call }.

Definition log (c : Call) (w : World) : World :=
  mkWorld (cli w) (calls w ++ [c]).

(** Whether the method [m] is [CmdHelp] of the [Cli] itself. *)
Definition isOwnHelp (c : Cli) (m : Method) : bool :=
  match handlers c !! handler m with
  | Some (Some selfHandler) => String.eqb (name m) "CmdHelp"
  | _ => false
  end.

(** What a run of the command line comes to: an outcome and the world it
    leaves, or [None] when the fuel of the run is used up. *)
Definition Run_result : Type :=
  option (Outcome (option cliError) * World).

(** [New] (lines 292-298). *)
Definition New (hs : list (option Handler)) : Cli :=
  mkCli None (Some selfHandler :: hs) false.

Section WithStrings.
(** [strings.ToUpper] and [strings.ToLower] *)
Variable ToUpper : string -> string.
Variable ToLower : string -> string.
Variable env : Env.

(** [strings.ToUpper(s[:1]) + strings.ToLower(s[1:])], for a non-empty [s]. *)
Definition camel (s : string) : option string :=
  match s with
  | EmptyString => None
  | String a rest => Some (ToUpper (String a "") +:+ ToLower rest)
  end.

(** The inner loop of [command] (lines 313-319): [None] when it returns
    the "empty command" error. *)
Fixpoint camelArgs (args : list string) : option (list string) :=
  match args with
  | [] => Some []
  | s :: rest =>
      match camel s with
      | None => None
      | Some c =>
          match camelArgs rest with
          | None => None
          | Some cs => Some (c :: cs)
          end
      end
  end.

(** ["Cmd" + strings.Join(camelArgs, "")] *)
Definition methodName (cs : list string) : string :=
  "Cmd" +:+ String.concat "" cs.

(** The loop of [command] over the handlers from position [i] on
    (lines 309-337). *)
Fixpoint command_from (i : nat) (hs : list (option Handler))
  (args : list string) (w : World) : Lookup Method * World :=
  match hs with
  | [] => (LookupError (PlainError "command not found"), w)
  | None :: rest => command_from (S i) rest args w
  | Some c :: rest =>
      match camelArgs args with
      | None => (LookupError (PlainError "empty command"), w)
      | Some cs =>
          if hasMethod c (methodName cs) then
            if isInitializer c then
              match r_Initialize env i with
              | Some err => (initErr err, log (Initialize i) w)
              | None =>
                  (Found (mkMethod i (methodName cs)), log (Initialize i) w)
              end
            else (Found (mkMethod i (methodName cs)), w)
          else command_from (S i) rest args w
      end
  end.

(** [command] (lines 308-338). *)
Definition command (args : list string) (w : World) : Lookup Method * World :=
  command_from 0 (handlers (cli w)) args w.

(** The call of the function [command] returned.  A method of a handler
    is answered by the environment; [CmdHelp] of the [Cli] itself runs
    [help], which stands for the function [CmdHelp] below. *)
Definition invoke (help : list string -> World -> Run_result) (m : Method)
  (args : list string) (w : World) : Run_result :=
  let w := log (Invoke m args) w in
  if isOwnHelp (cli w) m then help args w
  else Some (r_Invoke env m args, w).

(** [noSuchCommand] (lines 365-371): it does not return. *)
Definition noSuchCommand (c : string) (w : World) : Z * World :=
  let stderr :=
    match Stderr (cli w) with
    | Some s => s
    | None => "os.Stderr"
    end in
  (1,
   log (Fprintf stderr
          ("docker: '" +:+ c +:+
           "' is not a docker command." +:+ String "010" "" +:+
           "See 'docker --help'." +:+ String "010" ""))
     (mkWorld (mkCli (Some stderr) (handlers (cli w)) (Usage (cli w)))
        (calls w))).

(** The end of [CmdHelp] (lines 401-407). *)
Definition showUsage (w : World) : Outcome (option cliError) * World :=
  (Returns None, log (if Usage (cli w) then cli_Usage else flag_Usage) w).

(** [command("--help"); return nil] (lines 383-384 and 393-394): what the
    method returns is dropped. *)
Definition returnNil (r : Run_result) : Run_result :=
  match r with
  | Some (Returns _, w) => Some (Returns None, w)
  | Some (Exits code, w) => Some (Exits code, w)
  | None => None
  end.

(** The body of [CmdHelp] (lines 378-408), [help] being [CmdHelp] itself
    wherever the method it calls is its own. *)
Definition CmdHelp_body (help : list string -> World -> Run_result)
  (args : list string) (w : World) : Run_result :=
  let one (w : World) :=
    match args with
    | [] => Some (showUsage w)
    | a :: _ =>
        match command [a] w with
        | (Found f, w) => returnNil (invoke help f ["--help"] w)
        | (initErr err, w) => Some (Returns (Some err), w)
        | (LookupError _, w) =>
            let (code, w) := noSuchCommand a w in Some (Exits code, w)
        end
    end in
  match args with
  | _ :: _ :: _ =>
      match command (firstn 2 args) w with
      | (Found f, w) => returnNil (invoke help f ["--help"] w)
      | (initErr err, w) => Some (Returns (Some err), w)
      | (LookupError _, w) => one w
      end
  | _ => one w
  end.

(** [CmdHelp] (lines 378-408).  The function can call itself through the
    method [command] returns; [fuel] bounds the number of these nested
    calls. *)
Fixpoint CmdHelp (fuel : nat) : list string -> World -> Run_result :=
  CmdHelp_body
    match fuel with
    | O => fun _ _ => None
    | S fuel => CmdHelp fuel
    end.

(** [Run] (lines 342-363). *)
Definition Run (fuel : nat) (args : list string) (w : World) : Run_result :=
  let one (w : World) :=
    match args with
    | [] => CmdHelp fuel [] w
    | a :: _ =>
        match command [a] w with
        | (Found f, w) => invoke (CmdHelp fuel) f (skipn 1 args) w
        | (initErr err, w) => Some (Returns (Some err), w)
        | (LookupError _, w) =>
            let (code, w) := noSuchCommand a w in Some (Exits code, w)
        end
    end in
  match args with
  | _ :: _ :: _ =>
      match command (firstn 2 args) w with
      | (Found f, w) => invoke (CmdHelp fuel) f (skipn 2 args) w
      | (initErr err, w) => Some (Returns (Some err), w)
      | (LookupError _, w) => one w
      end
  | _ => one w
  end.

(** The end of [main] (src/unnamed/part_000, lines 108-118): the exit of
    the process once [Run] is over; returning from [main] is exit code 0. *)
Definition main_exit (stderr : string) (r : Outcome (option cliError))
  (w : World) : Z * World :=
  match r with
  | Exits code => (code, w)
  | Returns None => (0, w)
  | Returns (Some (StatusError status code)) =>
      if negb (String.eqb status "") then
        (1, log (Fprintln stderr status) w)
      else (code, w)
  | Returns (Some err) => (1, log (Fprintln stderr (cliError_Error err)) w)
  end.

(** [c := cli.New(...); c.Run(flag.Args()...)] and what follows in [main]. *)
Definition main_run (fuel : nat) (stderr : string)
  (hs : list (option Handler)) (args : list string) : option (Z * World) :=
  match Run fuel args (mkWorld (New hs) []) with
  | Some (r, w) => Some (main_exit stderr r w)
  | None => None
  end.

(** *** Vocabulary of the statements about the command line *)

(** Whether some handler is not nil. *)
Definition someHandler (hs : list (option Handler)) : bool :=
  existsb (fun h => match h with Some _ => true | None => false end) hs.

(** The text [noSuchCommand] prints for [c]. *)
Definition noSuchCommandText (c : string) : string :=
  "docker: '" +:+ c +:+ "' is not a docker command." +:+ String "010" "" +:+
  "See 'docker --help'." +:+ String "010" "".

(** The writer [noSuchCommand] prints to. *)
Definition errorWriter (c : Cli) : string :=
  match Stderr c with
  | Some s => s
  | None => "os.Stderr"
  end.

(** What [command] returns once it found the method in the handler at
    position [i]. *)
Definition found (i : nat) (h : Handler) (cs : list string) (w : World)
  : Lookup Method * World :=
  if isInitializer h then
    match r_Initialize env i with
    | Some err => (initErr err, log (Initialize i) w)
    | None => (Found (mkMethod i (methodName cs)), log (Initialize i) w)
    end
  else (Found (mkMethod i (methodName cs)), w).

(** The one or two words of the command, the method [command] finds for
    them and the world it leaves: the two words come first, and the first
    word alone is looked up only when the two are not a command. *)
Definition dispatches (args : list string) (w : World) (n : nat)
  (m : Method) (w1 : World) : Prop :=
  (n = 1 \/ n = 2)%nat /\ (n <= length args)%nat /\
  command (firstn n args) w = (Found m, w1) /\
  (n = 1%nat -> (2 <= length args)%nat ->
   exists e, command (firstn 2 args) w = (LookupError e, w)) /\
  (w1 = w \/
   w1 = log (Initialize (handler m)) w /\
   r_Initialize env (handler m) = None).

(** The calls that reach a handler. *)
Definition isHandlerCall (c : Call) : bool :=
  match c with
  | Initialize _ | Invoke _ _ => true
  | _ => false
  end.

End WithStrings.

End Cli.

(** ** The daemon command line: [migrateKey] and [loadDaemonCliConfig]
       (src/docker/daemon.go) *)
Module DaemonCli.
Import Go StateM.
Local Open Scope go_scope.

(** *** [migrateKey] *)

(** The calls of [migrateKey] on the file system and the logger. *)
Inductive FsCall : Type :=
| Stat (path : string)
| currentUserIsOwner (path : string)
| MkdirAll (path : string)
| OpenFile (path : string)
| Open (path : string)
| Copy
| Close (path : string)
| Remove (path : string)
| Warnf (msg : string)
| Infof (msg : string).

(** What the file system answers: whether [os.Stat] of the new key failed
    with a not-exist error, whether the user owns the old key, and the
    errors of the other calls. *)
Record FsEnv := mkFsEnv {
  statNotExist : bool;
  isOwner : bool;
  r_MkdirAll : option error;
  r_OpenFile : option error;
  r_Open : option error;
  r_Copy : option error;
  r_Remove : string -> option error
}.

Definition fs (c : FsCall) : M (list FsCall) unit :=
  modify (fun l : list FsCall => (l ++ [c])%list).

Section WithPaths.
(** [filepath.Join(cliconfig.ConfigDir(), defaultTrustKeyFile)],
    [filepath.Join(getDaemonConfDir(), defaultTrustKeyFile)] and
    [getDaemonConfDir()] *)
Variable oldPath newPath confDir : string.
(** The verb [%q] of [fmt] *)
Variable Quote : string -> string.
Variable env : FsEnv.

(** The deferred function of lines 91-99, run on the error [migrateKey]
    is about to return. *)
Definition migrateKey_deferred (err : option error)
  : M (list FsCall) (option error) :=
  match err with
  | None => fs (Remove oldPath) ;; ret (r_Remove env oldPath)
  | Some e =>
      fs (Warnf ("Key migration failed, key file not removed at "
                 +:+ oldPath)) ;;
      fs (Remove newPath) ;;
      ret (Some e)
  end.

(** Lines 111-121, between the opening of the new file and its deferred
    [Close]. *)
Definition migrateKey_copy : M (list FsCall) (option error) :=
  fs (Open oldPath) ;;
  match r_Open env with
  | Some err =>
      ret (Some (Errorf ("error opening key file " +:+ Quote oldPath +:+
                         ": " +:+ Error err)))
  | None =>
      let* r :=
        (fs Copy ;;
         match r_Copy env with
         | Some err =>
             ret (Some (Errorf ("error copying key: " +:+ Error err)))
         | None =>
             fs (Infof ("Migrated key from " +:+ oldPath +:+ " to "
                        +:+ newPath)) ;;
             ret None
         end) in
      fs (Close oldPath) ;;
      ret r
  end.

(** Lines 101-121: the body of the [if], with the two deferred [Close]. *)
Definition migrateKey_body : M (list FsCall) (option error) :=
  fs (MkdirAll confDir) ;;
  match r_MkdirAll env with
  | Some err =>
      ret (Some (Errorf ("Unable to create daemon configuration directory: "
                         +:+ Error err)))
  | None =>
      fs (OpenFile newPath) ;;
      match r_OpenFile env with
      | Some err =>
          ret (Some (Errorf ("error creating key file " +:+ Quote newPath
                             +:+ ": " +:+ Error err)))
      | None =>
          let* r := migrateKey_copy in
          fs (Close newPath) ;;
          ret r
      end
  end.

(** [migrateKey] (lines 86-125). *)
Definition migrateKey : M (list FsCall) (option error) :=
  fs (Stat newPath) ;;
  if statNotExist env then
    fs (currentUserIsOwner oldPath) ;;
    if isOwner env then
      let* err := migrateKey_body in
      migrateKey_deferred err
    else ret None
  else ret None.

End WithPaths.

(** Vocabulary of the statements about [migrateKey]: the migration is
    attempted, and every step of it succeeds. *)
Definition attempts (env : FsEnv) : bool :=
  statNotExist env && isOwner env.

Definition isNil (e : option error) : bool :=
  match e with
  | None => true
  | Some _ => false
  end.

Definition copies (env : FsEnv) : bool :=
  attempts env && isNil (r_MkdirAll env) && isNil (r_OpenFile env) &&
  isNil (r_Open env) && isNil (r_Copy env).

Definition isRemove (c : FsCall) : bool :=
  match c with
  | Remove _ => true
  | _ => false
  end.

Definition isClose (c : FsCall) : bool :=
  match c with
  | Close _ => true
  | _ => false
  end.

(** The new key file, and the old one, were opened. *)
Definition opensNew (env : FsEnv) : bool :=
  attempts env && isNil (r_MkdirAll env) && isNil (r_OpenFile env).

Definition opensOld (env : FsEnv) : bool :=
  opensNew env && isNil (r_Open env).

(** *** [loadDaemonCliConfig] *)

(** [daemon.CommonTLSOptions] and [tlsconfig.Options], with the three
    fields the embedded code copies. *)
Record TLSOptions := mkTLSOptions {
  CAFile : string;
  CertFile : string;
  KeyFile : string
}.

(** [cli.CommonFlags], with the fields the embedded code reads;
    [cf_TLSOptions] is a pointer that can be nil. *)
Record CommonFlags := mkCommonFlags {
  cf_Debug : bool;
  cf_Hosts : list string;
  cf_LogLevel : string;
  cf_TLS : bool;
  cf_TLSVerify : bool;
  cf_TLSOptions : option TLSOptions
}.

(** [daemon.Config], with the fields the embedded code writes, one it
    leaves alone ([Pidfile]) and the answer of [IsValueSet]. *)
Record Config := mkConfig {
  Debug : bool;
  Hosts : list string;
  LogLevel : string;
  TLS : bool;
  TLSVerify : bool;
  CommonTLSOptions : TLSOptions;
  Pidfile : string;
  IsValueSet : string -> bool
}.

Definition set_TLS (b : bool) (c : Config) : Config :=
  mkConfig (Debug c) (Hosts c) (LogLevel c) b (TLSVerify c)
    (CommonTLSOptions c) (Pidfile c) (IsValueSet c).

Inductive LoadCall : Type :=
| MergeDaemonConfigurations (configFile : string)
| setDaemonLogLevel (level : string).

(** What the collaborators answer: the pair [MergeDaemonConfigurations]
    returns (a nil pointer is [None]; a merged configuration is an object
    of its own), whether the configuration-file flag was set, and
    [os.IsNotExist]. *)
Record LoadEnv := mkLoadEnv {
  r_Merge : Config -> string -> option Config * option error;
  flag_IsSet : bool;
  IsNotExist : error -> bool
}.

(** The object behind the [config] pointer the caller passed, and the log
    of calls. *)
Record LoadWorld := mkLoadWorld {
  config : Config;
  calls : list LoadCall
}.

Definition loadCall (c : LoadCall) : M LoadWorld unit :=
  modify (fun w => mkLoadWorld (config w) (calls w ++ [c])).

Definition updateConfig (f : Config -> Config) : M LoadWorld unit :=
  modify (fun w => mkLoadWorld (f (config w)) (calls w)).

(** Where the local variable [config] points: to the object of the caller
    or to the merged configuration. *)
Inductive Pointer : Type :=
| Given
| Merged (c : Config).

Section WithKey.
(** The constant [tlsVerifyKey] *)
Variable tlsVerifyKey : string.
Variable env : LoadEnv.

(** Lines 447-458. *)
Definition copyCommonFlags (commonConfig : CommonFlags) (c : Config)
  : Config :=
  mkConfig (cf_Debug commonConfig) (cf_Hosts commonConfig)
    (cf_LogLevel commonConfig) (cf_TLS commonConfig)
    (cf_TLSVerify commonConfig)
    (match cf_TLSOptions commonConfig with
     | Some o => mkTLSOptions (CAFile o) (CertFile o) (KeyFile o)
     | None => mkTLSOptions "" "" ""
     end)
    (Pidfile c) (IsValueSet c).

(** Lines 460-472: where [config] points afterwards, or the error. *)
Definition mergeConfigFile (configFile : string)
  : M LoadWorld (Result Pointer) :=
  if String.eqb configFile "" then ret (Ok Given)
  else
    loadCall (MergeDaemonConfigurations configFile) ;;
    let* w := get in
    let (c, err) := r_Merge env (config w) configFile in
    let continue :=
      match c with
      | Some c => ret (Ok (Merged c))
      | None => ret (Ok Given)
      end in
    match err with
    | Some err =>
        if flag_IsSet env || negb (IsNotExist env err) then
          ret (Err (Errorf ("unable to configure the Docker daemon with file "
                            +:+ configFile +:+ ": " +:+ Error err
                            +:+ String "010" "")))
        else continue
    | None => continue
    end.

(** [loadDaemonCliConfig] (lines 446-484); the result is the object the
    returned pointer points to. *)
Definition loadDaemonCliConfig (commonConfig : CommonFlags)
  (configFile : string) : M LoadWorld (Result Config) :=
  updateConfig (copyCommonFlags commonConfig) ;;
  let* r := mergeConfigFile configFile in
  match r with
  | Err err => ret (Err err)
  | Ok Given =>
      let* w := get in
      (if IsValueSet (config w) tlsVerifyKey then updateConfig (set_TLS true)
       else ret tt) ;;
      let* w := get in
      loadCall (setDaemonLogLevel (LogLevel (config w))) ;;
      ret (Ok (config w))
  | Ok (Merged c) =>
      let c := if IsValueSet c tlsVerifyKey then set_TLS true c else c in
      loadCall (setDaemonLogLevel (LogLevel c)) ;;
      ret (Ok c)
  end.

(** Whether [loadDaemonCliConfig] gives up on the configuration file: the
    merge failed, and the file was asked for by its flag or the error is
    not that the file does not exist. *)
Definition refuses (flags : Config) (configFile : string) : bool :=
  negb (String.eqb configFile "") &&
  match snd (r_Merge env flags configFile) with
  | Some err => flag_IsSet env || negb (IsNotExist env err)
  | None => false
  end.

(** The configuration merged from the file, when there is one. *)
Definition mergedConfig (flags : Config) (configFile : string)
  : option Config :=
  if String.eqb configFile "" then None
  else fst (r_Merge env flags configFile).

End WithKey.

End DaemonCli.

(** ** Sample daemons, used to run the embedded functions on concrete inputs *)
Module Samples.
Import Go Daemon.

(** A created, stopped container whose command is [path]. *)
Definition sample_container (path : string) : Container :=
  mkContainer "4fa6e0f0c678" path "sha256:0a1b" "" "/var/lib/docker/containers/4fa6e0f0c678"
    (Some "rw-4fa6e0f0c678") "/var/lib/docker/aufs/mnt/4fa6e0f0c678"
    false false false false 0 "" (mkHostConfig "bridge") None ["exec-1"].

(** A container whose flags are [running] and [paused]. *)
Definition sample_flags (running paused : bool) : Container :=
  mkContainer "4fa6e0f0c678" "/bin/sh" "sha256:0a1b" "" "/var/lib/docker/containers/4fa6e0f0c678"
    (Some "rw-4fa6e0f0c678") "/var/lib/docker/aufs/mnt/4fa6e0f0c678"
    running paused false false 0 "" (mkHostConfig "bridge") None [].

(** A daemon on Linux whose collaborators all succeed, except for the
    answers given as arguments: those of the mount, network, spec and
    create steps of a start, of the unmount and mount-identifier lookup of
    a cleanup, of the writable-layer and metadata-directory steps of a
    create, and of the platform-specific settings of a create. *)
Definition sample_env (mount net spec create unmount : option error)
  (mountID rwLayer : Result string) (mkdir platform : option error) : Env :=
  mkEnv "linux" (fun _ => None) None (fun h => Ok h) None None
    (fun h => Ok h) mount (fun h => h) net spec create unmount mountID None
    (Ok "sha256:0a1b") None (fun _ _ => Ok (sample_container "/bin/sh"))
    (Ok "chain-0a1b") rwLayer None None mkdir platform None None None None.

Definition env_ok : Env :=
  sample_env None None None None None (Ok "mnt-7") (Ok "rw-4fa6e0f0c678")
    None None.

Definition env_createFails (err : error) : Env :=
  sample_env None None None (Some err) None (Ok "mnt-7")
    (Ok "rw-4fa6e0f0c678") None None.

Definition env_mountFails (err : error) : Env :=
  sample_env (Some err) None None None None (Ok "mnt-7")
    (Ok "rw-4fa6e0f0c678") None None.

Definition env_unmountFails (err : error) (mountID : Result string) : Env :=
  sample_env None None None None (Some err) mountID (Ok "rw-4fa6e0f0c678")
    None None.

Definition env_rwLayerFails (err : error) : Env :=
  sample_env None None None None None (Ok "mnt-7") (Err err) None None.

Definition env_mkdirFails (err : error) : Env :=
  sample_env None None None None None (Ok "mnt-7") (Ok "rw-4fa6e0f0c678")
    (Some err) None.

Definition env_platformFails (err : error) : Env :=
  sample_env None None None None None (Ok "mnt-7") (Ok "rw-4fa6e0f0c678")
    None (Some err).

Definition world_of (c : Container) : World := mkWorld c ∅ [].

Definition sample_params : ContainerCreateConfig :=
  mkParams "web" "busybox" (mkHostConfig "bridge") None.

End Samples.

(** ** Sample runtime clients *)
Module RuntimeSamples.
Import Go Libcontainerd.

Definition InitFriendlyName : string := "init".
Definition configFilename : string := "config.json".

Definition fifoName (i : Z) : string :=
  if Z.eqb i 0 then "stdin" else if Z.eqb i 1 then "stdout" else "stderr".

Definition container_fifo (c : container) (i : Z) : string :=
  dir c +:+ "/init-" +:+ fifoName i.

Definition process_fifo (p : process) (i : Z) : string :=
  process_dir p +:+ "/" +:+ friendlyName p +:+ "-" +:+ fifoName i.

Definition filepath_Join (a b : string) : string := a +:+ "/" +:+ b.

(** A started container with one additional process, ["exec-1"]. *)
Definition sample_ctr (restartManager : option nat) (oom : bool) : container :=
  mkCtr "4fa6e0f0c678" "/run/docker/libcontainerd/4fa6e0f0c678"
    {[ "exec-1" := mkProcess "/run/docker/libcontainerd/4fa6e0f0c678" "exec-1" ]}
    restartManager false 1000 4242 oom.

Definition world_of (c : container) : World :=
  mkWorld c {[ containerID c ]} [] [] [] [].

(** An operating system and a backend that answer without error, the
    clock reading [1060]; the arguments are the content of the
    configuration file as read (or the read error) and the answer of the
    restart manager. *)
Definition sample_env (config : Result string)
  (decision : bool * nat * option error) : Env :=
  mkEnv (fun _ => "") (fun _ => None) (fun _ => false) (fun _ => None)
    (fun _ => None) (fun _ => config) (fun _ => Ok (mkSpec false))
    (fun _ => Ok 7%nat) (fun _ => Ok 4343) None (fun _ _ => None) 1060
    (fun _ _ _ => decision) (fun _ => false).

Definition env_ok : Env := sample_env (Ok "{}") (false, 0%nat, None).

Definition env_restart : Env := sample_env (Ok "{}") (true, 3%nat, None).

Definition env_noConfig : Env :=
  sample_env (Err (Errorf "open config.json: no such file or directory"))
    (false, 0%nat, None).

Definition exitOf (pid : string) (status : Z) : Event :=
  mkEvent "4fa6e0f0c678" pid StateExit status.

Definition oomEvent : Event := mkEvent "4fa6e0f0c678" "init" StateOOM 0.

(** As [env_ok], with the given answers to the opening of the fifos, to the
    create RPC and to the attachment of the streams. *)
Definition env_start (fifos : Result nat) (rpc : Result Z)
  (attach : option error) : Env :=
  mkEnv (fun _ => "") (fun _ => None) (fun _ => false) (fun _ => None)
    (fun _ => None) (fun _ => Ok "{}") (fun _ => Ok (mkSpec false))
    (fun _ => fifos) (fun _ => rpc) attach (fun _ _ => None) 1060
    (fun _ _ _ => (false, 0%nat, None)) (fun _ => false).

Definition pauseEvent : Event := mkEvent "4fa6e0f0c678" "init" StatePause 0.

End RuntimeSamples.

(** ** A sample command line *)
Module CliSamples.
Import Go Cli.

(** [strings.ToUpper] and [strings.ToLower] on ASCII text. *)
Definition upper (a : ascii) : ascii :=
  let n := nat_of_ascii a in
  if ((97 <=? n) && (n <=? 122))%nat then ascii_of_nat (n - 32) else a.

Definition lower (a : ascii) : ascii :=
  let n := nat_of_ascii a in
  if ((65 <=? n) && (n <=? 90))%nat then ascii_of_nat (n + 32) else a.

Fixpoint mapString (f : ascii -> ascii) (s : string) : string :=
  match s with
  | EmptyString => EmptyString
  | String a rest => String (f a) (mapString f rest)
  end.

Definition ToUpper : string -> string := mapString upper.
Definition ToLower : string -> string := mapString lower.

(** A client with three commands, which is initialised before each of
    them, and a daemon with one command and no [Initialize]. *)
Definition client : Handler :=
  mkHandler
    (fun n => existsb (String.eqb n) ["CmdPs"; "CmdNetworkCreate"; "CmdRun"])
    true.

Definition daemon : Handler :=
  mkHandler (String.eqb "CmdDaemon") false.

(** Handlers whose methods return what [result] says; the initialisation
    answers [init]. *)
Definition sample_env (init : option cliError)
  (result : Outcome (option cliError)) : Env :=
  mkEnv (fun _ => init) (fun _ _ => result).

Definition env_ok : Env := sample_env None (Returns None).

Definition world_of (hs : list (option Handler)) : World :=
  mkWorld (New hs) [].

End CliSamples.

(** * Properties *)

(** ** Facts on strings *)
Module GoFacts.
Import Go.

Lemma prefix_empty (s : string) : String.prefix "" s = true.
Proof. destruct s; reflexivity. Qed.

Lemma Contains_empty (p : string) :
  Contains "" p = match p with EmptyString => true | _ => false end.
Proof. destruct p; reflexivity. Qed.

Lemma Contains_cons (a : ascii) (s p : string) :
  Contains (String a s) p = String.prefix p (String a s) || Contains s p.
Proof. reflexivity. Qed.

(** A pattern in which the character [q] does not occur cannot be a prefix
    that runs across an occurrence of [q]. *)
Lemma prefix_app_sep (q : ascii) (rest p : string) :
  Contains p (String q "") = false ->
  forall x : string,
    String.prefix p (x +:+ String q rest) = String.prefix p x.
Proof.
  induction p as [|a p IH]; intros Hq x.
  - rewrite !prefix_empty. reflexivity.
  - rewrite Contains_cons in Hq. apply orb_false_iff in Hq as [Ha Hp].
    assert (a <> q) as Hne.
    { intros ->. simpl in Ha. destruct (ascii_dec q q) as [_|n]; [|congruence].
      rewrite prefix_empty in Ha. discriminate. }
    destruct x as [|b x]; simpl.
    + destruct (ascii_dec a q); [congruence|reflexivity].
    + destruct (ascii_dec a b); [apply IH; exact Hp|reflexivity].
Qed.

(** Appending a text that starts with [q] and does not contain the pattern
    adds no occurrence of a non-empty pattern free of [q]. *)
Lemma Contains_app_sep (q : ascii) (rest p : string) :
  Contains p (String q "") = false ->
  Contains (String q rest) p = false ->
  forall x : string, Contains (x +:+ String q rest) p = Contains x p.
Proof.
  intros Hq Hrest x. induction x as [|b x IH].
  - change ("" +:+ String q rest) with (String q rest).
    rewrite Hrest, Contains_empty.
    destruct p; [|reflexivity].
    simpl in Hrest. discriminate.
  - change (String b x +:+ String q rest) with (String b (x +:+ String q rest)).
    rewrite !Contains_cons, IH. f_equal.
    apply (prefix_app_sep q rest p Hq (String b x)).
Qed.

End GoFacts.

(** ** Package daemon *)
Module DaemonFacts.
Import Go StateM Daemon.
Local Open Scope go_scope.

#[local] Arguments Cleanup : simpl never.
#[local] Arguments containerStart_deferred : simpl never.
#[local] Arguments containerStart_createFailed : simpl never.
#[local] Arguments containerStart_body : simpl never.
#[local] Arguments containerStart : simpl never.
#[local] Arguments ContainerStart_hostConfig : simpl never.
#[local] Arguments setRWLayer : simpl never.
#[local] Arguments create_afterMounts : simpl never.
#[local] Arguments create_afterNew : simpl never.
#[local] Arguments create_defer_ContainerRm : simpl never.
#[local] Arguments create_defer_removeMountPoints : simpl never.

Lemma call_run (c : Call) (w : World) :
  call c w = (tt, mkWorld (container w) (index w) (calls w ++ [c])).
Proof. reflexivity. Qed.

Ltac exec :=
  unfold orReturn, invoke, update, updateIndex, getContainer, bind, ret;
  repeat (rewrite call_run; cbn);
  unfold modify; cbn.

Ltac norm_calls :=
  unfold deferred_calls, Cleanup_calls; cbn;
  repeat (rewrite <- app_assoc; cbn).

Lemma forEach_call (f : string -> Call) (xs : list string) (w : World) :
  forEach xs (fun x => call (f x)) w =
  (tt, mkWorld (container w) (index w) (calls w ++ map f xs)).
Proof.
  revert w. induction xs as [|x xs IH]; intros w.
  - cbn. rewrite app_nil_r. destruct w; reflexivity.
  - simpl forEach. unfold bind.
    replace (call (f x) w)
      with (tt, mkWorld (container w) (index w) (calls w ++ [f x]))
      by reflexivity.
    rewrite IH. cbn. norm_calls. reflexivity.
Qed.

Lemma Cleanup_run (env : Env) (w : World) :
  Cleanup env w =
  (tt, mkWorld (container w) (index w)
         (calls w ++ Cleanup_calls env (container w))).
Proof.
  destruct w as [c ix cs].
  unfold Cleanup, Cleanup_calls, fallback_calls, volume_calls. exec.
  destruct (r_conditionalUnmountOnCleanup env) as [e|]; cbn;
    [destruct (r_GetMountID env) as [mid|e']; cbn|];
    exec; rewrite forEach_call; cbn;
    (destruct (String.eqb (BaseFS c) ""); cbn;
     [|destruct (r_UnmountVolumes env); cbn]);
    exec; norm_calls; reflexivity.
Qed.

Lemma containerStart_deferred_run (env : Env) (err : error) (w : World) :
  containerStart_deferred env (Some err) w =
  (tt, mkWorld (failedContainer err (container w)) (index w)
         (calls w ++ deferred_calls env err (container w))).
Proof.
  destruct w as [c ix cs].
  unfold containerStart_deferred, deferred_calls, failedContainer, dieEvent.
  exec.
  destruct (ExitCode c =? 0)%Z; cbn; rewrite Cleanup_run; cbn;
    exec; norm_calls; reflexivity.
Qed.

(** C9.  [Cleanup] returns nothing to its caller, and whatever its
    collaborators answer it goes through every step: network release, IPC
    unmount, filesystem unmount (with, when that unmount fails, the lookup
    of the mount identifier and the forced unmount by that identifier),
    unregistration of every exec command, volume unmount when [BaseFS] is
    not empty (a failure is only logged), and cancellation of the attach
    context.  The container and the index are left as they were. *)
Theorem Cleanup_goes_through_every_step :
  forall (env : Env) (w : World),
    Cleanup env w =
      (tt, mkWorld (container w) (index w)
             (calls w ++ Cleanup_calls env (container w))) /\
    (exists fallback volumes : list Call,
       Cleanup_calls env (container w) =
         ([releaseNetwork; UnmountIpcMounts; conditionalUnmountOnCleanup] ++
          fallback ++
          map unregisterExecCommand (ExecCommands (container w)) ++
          volumes ++ [CancelAttachContext])%list /\
       (forall err mountid,
          r_conditionalUnmountOnCleanup env = Some err ->
          r_GetMountID env = Ok mountid ->
          fallback = [GetMountID (ID (container w));
                      cleanupMountsByID mountid]) /\
       (forall err err',
          r_conditionalUnmountOnCleanup env = Some err ->
          r_GetMountID env = Err err' ->
          fallback = [GetMountID (ID (container w))]) /\
       (r_conditionalUnmountOnCleanup env = None -> fallback = []) /\
       (BaseFS (container w) = "" -> volumes = []) /\
       (BaseFS (container w) <> "" ->
        r_UnmountVolumes env = None -> volumes = [UnmountVolumes false]) /\
       (forall err,
          BaseFS (container w) <> "" ->
          r_UnmountVolumes env = Some err ->
          volumes = [UnmountVolumes false;
                     Warnf_umount_volumes (ID (container w)) err])).
Proof.
  intros env w. split; [apply Cleanup_run|].
  exists (fallback_calls env (container w)), (volume_calls env (container w)).
  split; [reflexivity|].
  unfold fallback_calls, volume_calls.
  repeat split.
  - intros err mountid -> ->. reflexivity.
  - intros err err' -> ->. reflexivity.
  - intros ->. reflexivity.
  - intros ->. reflexivity.
  - intros Hne ->. apply String.eqb_neq in Hne. rewrite Hne. reflexivity.
  - intros err Hne ->. apply String.eqb_neq in Hne. rewrite Hne. reflexivity.
Qed.

(** The "not found" message mentions the permission-denied text exactly
    when the command path does. *)
Lemma notFoundMessage_EACCES (path : string) :
  Contains (notFoundMessage path) EACCES_Error = Contains path EACCES_Error.
Proof.
  unfold notFoundMessage, EACCES_Error.
  cbn -[Contains String.append].
  change ("Container command '" +:+ path +:+ "' not found or does not exist.")
    with (String "C" (String "o" (String "n" (String "t" (String "a"
          (String "i" (String "n" (String "e" (String "r" (String " "
          (String "c" (String "o" (String "m" (String "m" (String "a"
          (String "n" (String "d" (String " " (String "'"
          (path +:+ "' not found or does not exist.")))))))))))))))))))).
  rewrite !GoFacts.Contains_cons. cbn -[Contains String.append].
  apply (GoFacts.Contains_app_sep "'" " not found or does not exist.");
    reflexivity.
Qed.

Lemma containerStart_createFailed_run (err : error) (w : World) :
  containerStart_createFailed err w =
  let c := container w in
  let err1 := if notFoundText (Error err)
              then Errorf (notFoundMessage (Path c)) else err in
  let c1 := if notFoundText (Error err) then set_ExitCode 127 c else c in
  let err2 := if Contains (Error err1) EACCES_Error
              then Errorf (notInvokedMessage (Path c)) else err1 in
  let c2 := if Contains (Error err1) EACCES_Error
            then set_ExitCode 126 c1 else c1 in
  (err2, mkWorld c2 (index w)
           (calls w ++ [Reset false; LogContainerEvent "start"])).
Proof.
  destruct w as [c ix cs].
  unfold containerStart_createFailed, notFoundText. exec.
  fold (notFoundMessage (Path c)). fold (notInvokedMessage (Path c)).
  destruct (Contains (Error err) "executable file not found" ||
            Contains (Error err) "no such file or directory" ||
            Contains (Error err) "system cannot find the file specified");
    cbn -[Contains notFoundMessage notInvokedMessage];
    match goal with
    | |- context [Contains ?m EACCES_Error] =>
        destruct (Contains m EACCES_Error)
    end; cbn; exec; norm_calls; reflexivity.
Qed.

Section ContainerStartRuns.
Variable env : Env.
Variable w : World.
Hypothesis notRunning : Running (container w) = false.
Hypothesis notRemoved : RemovalInProgress (container w) = false.
Hypothesis notDead : Dead (container w) = false.

Lemma containerStart_mount_fails (err : error) :
  r_conditionalMountOnStart env = Some err ->
  containerStart env w =
  (Some err,
   mkWorld (failedContainer err (container w)) (index w)
     (calls w ++ [Lock; conditionalMountOnStart] ++
      deferred_calls env err (container w) ++ [Unlock])).
Proof.
  intros Hm. destruct w as [c ix cs]. cbn in *.
  unfold containerStart, containerStart_body. exec.
  rewrite notRunning, notRemoved, notDead, Hm. cbn.
  rewrite containerStart_deferred_run. cbn. exec.
  repeat (rewrite <- app_assoc; cbn). reflexivity.
Qed.

Lemma containerStart_network_fails (err : error) :
  r_conditionalMountOnStart env = None ->
  r_initializeNetworking env = Some err ->
  containerStart env w =
  (Some err,
   mkWorld (failedContainer err (withDefaultNetMode env (container w)))
     (index w)
     (calls w ++ [Lock; conditionalMountOnStart; initializeNetworking] ++
      deferred_calls env err (withDefaultNetMode env (container w)) ++
      [Unlock])).
Proof.
  intros Hm Hn. destruct w as [c ix cs]. cbn in *.
  unfold containerStart, containerStart_body. exec.
  rewrite notRunning, notRemoved, notDead, Hm. cbn. rewrite Hn. cbn.
  rewrite containerStart_deferred_run. cbn. exec.
  repeat (rewrite <- app_assoc; cbn). reflexivity.
Qed.

Lemma containerStart_spec_fails (err : error) :
  r_conditionalMountOnStart env = None ->
  r_initializeNetworking env = None ->
  r_createSpec env = Some err ->
  containerStart env w =
  (Some err,
   mkWorld (failedContainer err (withDefaultNetMode env (container w)))
     (index w)
     (calls w ++
      [Lock; conditionalMountOnStart; initializeNetworking; createSpec] ++
      deferred_calls env err (withDefaultNetMode env (container w)) ++
      [Unlock])).
Proof.
  intros Hm Hn Hs. destruct w as [c ix cs]. cbn in *.
  unfold containerStart, containerStart_body. exec.
  rewrite notRunning, notRemoved, notDead, Hm. cbn. rewrite Hn. cbn.
  rewrite Hs. cbn.
  rewrite containerStart_deferred_run. cbn. exec.
  repeat (rewrite <- app_assoc; cbn). reflexivity.
Qed.

Lemma containerStart_create_fails (err : error) :
  r_conditionalMountOnStart env = None ->
  r_initializeNetworking env = None ->
  r_createSpec env = None ->
  r_containerd_Create env = Some err ->
  containerStart env w =
  let c := withDefaultNetMode env (container w) in
  let r := containerStart_createFailed err
             (mkWorld c (index w)
                (calls w ++
                 [Lock; conditionalMountOnStart; initializeNetworking;
                  createSpec; RestartManager true;
                  containerd_Create (ID c)])) in
  (Some (fst r),
   mkWorld (failedContainer (fst r) (container (snd r))) (index w)
     (calls (snd r) ++
      deferred_calls env (fst r) (container (snd r)) ++ [Unlock])).
Proof.
  intros Hm Hn Hs Hc. destruct w as [c ix cs]. cbn in *.
  unfold containerStart, containerStart_body. exec.
  rewrite notRunning, notRemoved, notDead, Hm. cbn. rewrite Hn. cbn.
  rewrite Hs. cbn. exec. rewrite Hc. cbn.
  repeat (rewrite <- app_assoc; cbn).
  fold (withDefaultNetMode env c).
  destruct (containerStart_createFailed err _) as [err' w'] eqn:E.
  pose proof (f_equal (fun p => index (snd p)) E) as Hix.
  rewrite containerStart_createFailed_run in Hix. cbn in Hix.
  destruct w' as [c' ix' cs']. cbn in Hix. subst ix'.
  cbn. rewrite containerStart_deferred_run. cbn. exec.
  repeat (rewrite <- app_assoc; cbn). reflexivity.
Qed.

End ContainerStartRuns.

(** C1 (amended).  When the create RPC of [containerStart] fails with
    [err]: if the message of [err] contains one of the three "not found"
    texts and the command path does not itself contain the
    permission-denied text, the exit code is 127 and the error returned
    says the command was not found or does not exist; if the message
    contains the permission-denied text and none of the "not found" texts,
    the exit code is 126 and the error says the command could not be
    invoked; otherwise the error is returned unmodified (the exit code is
    then left alone, or set to 128 when it was zero). *)
Theorem containerStart_classifies_create_error :
  forall (env : Env) (w : World) (err : error),
    Running (container w) = false ->
    RemovalInProgress (container w) = false ->
    Dead (container w) = false ->
    r_conditionalMountOnStart env = None ->
    r_initializeNetworking env = None ->
    r_createSpec env = None ->
    r_containerd_Create env = Some err ->
    (notFoundText (Error err) = true ->
     Contains (Path (container w)) EACCES_Error = false ->
     fst (containerStart env w) =
       Some (Errorf (notFoundMessage (Path (container w)))) /\
     ExitCode (container (snd (containerStart env w))) = 127) /\
    (notFoundText (Error err) = false ->
     Contains (Error err) EACCES_Error = true ->
     fst (containerStart env w) =
       Some (Errorf (notInvokedMessage (Path (container w)))) /\
     ExitCode (container (snd (containerStart env w))) = 126) /\
    (notFoundText (Error err) = false ->
     Contains (Error err) EACCES_Error = false ->
     fst (containerStart env w) = Some err /\
     ExitCode (container (snd (containerStart env w))) =
       if Z.eqb (ExitCode (container w)) 0 then 128
       else ExitCode (container w)).
Proof.
  intros env w err Hr Hp Hd Hm Hn Hs Hc.
  rewrite (containerStart_create_fails env w Hr Hp Hd err Hm Hn Hs Hc).
  cbv zeta. rewrite containerStart_createFailed_run.
  cbn -[Contains notFoundMessage notInvokedMessage notFoundText].
  repeat split.
  - rewrite H. cbn -[Contains notFoundMessage].
    rewrite notFoundMessage_EACCES, H0. reflexivity.
  - rewrite H. cbn -[Contains notFoundMessage].
    rewrite notFoundMessage_EACCES, H0. reflexivity.
  - rewrite H, H0. reflexivity.
  - rewrite H, H0. reflexivity.
  - rewrite H, H0. reflexivity.
  - rewrite H, H0. unfold failedContainer. cbn.
    destruct (Z.eqb (ExitCode (container w)) 0); reflexivity.
Qed.

(** The backend reports "no such file or directory": exit code 127 and the
    "not found or does not exist" message. *)
Lemma containerStart_classifies_create_error_witness :
  fst (containerStart
         (Samples.env_createFails (Errorf "exec: no such file or directory"))
         (Samples.world_of (Samples.sample_container "/bin/app"))) =
    Some (Errorf "Container command '/bin/app' not found or does not exist.")
  /\
  ExitCode (container (snd (containerStart
         (Samples.env_createFails (Errorf "exec: no such file or directory"))
         (Samples.world_of (Samples.sample_container "/bin/app"))))) = 127.
Proof.
  apply (containerStart_classifies_create_error
           (Samples.env_createFails (Errorf "exec: no such file or directory"))
           (Samples.world_of (Samples.sample_container "/bin/app"))
           (Errorf "exec: no such file or directory"));
    reflexivity.
Defined.

(** C1 as stated fails on the code.  An error whose message contains both
    "no such file or directory" and the permission-denied text leaves exit
    code 127 and the "not found" message, not 126; and for a command whose
    path contains the permission-denied text, an error that only says
    "no such file or directory" leaves exit code 126 and the "could not be
    invoked" message, not 127. *)
Lemma containerStart_classification_overlaps :
  (Contains "stat /bin/app: no such file or directory: permission denied"
     EACCES_Error = true /\
   ExitCode (container (snd (containerStart
     (Samples.env_createFails
        (Errorf "stat /bin/app: no such file or directory: permission denied"))
     (Samples.world_of (Samples.sample_container "/bin/app"))))) = 127 /\
   fst (containerStart
     (Samples.env_createFails
        (Errorf "stat /bin/app: no such file or directory: permission denied"))
     (Samples.world_of (Samples.sample_container "/bin/app"))) =
   Some (Errorf "Container command '/bin/app' not found or does not exist."))
  /\
  (notFoundText "exec: no such file or directory" = true /\
   ExitCode (container (snd (containerStart
     (Samples.env_createFails (Errorf "exec: no such file or directory"))
     (Samples.world_of
        (Samples.sample_container "/opt/permission denied/app"))))) = 126 /\
   fst (containerStart
     (Samples.env_createFails (Errorf "exec: no such file or directory"))
     (Samples.world_of
        (Samples.sample_container "/opt/permission denied/app"))) =
   Some (Errorf
     "Container command '/opt/permission denied/app' could not be invoked.")).
Proof. vm_compute. repeat split; reflexivity. Qed.

Lemma start_event_not_in_Cleanup (env : Env) (c : Container) :
  ~ In (LogContainerEvent "start") (Cleanup_calls env c).
Proof.
  unfold Cleanup_calls, fallback_calls, volume_calls.
  rewrite !in_app_iff, in_map_iff. cbn.
  intros [H|[H|[H|[H|H]]]].
  - destruct H as [H|[H|[H|[]]]]; discriminate.
  - destruct (r_conditionalUnmountOnCleanup env); [|destruct H].
    destruct (r_GetMountID env); cbn in H;
      repeat (destruct H as [H|H]; [discriminate|]); destruct H.
  - destruct H as (x & H & _). discriminate.
  - destruct (String.eqb (BaseFS c) ""); [destruct H|].
    destruct (r_UnmountVolumes env); cbn in H;
      repeat (destruct H as [H|H]; [discriminate|]); destruct H.
  - destruct H as [H|[]]; discriminate.
Qed.

Lemma start_event_not_in_deferred (env : Env) (err : error) (c : Container) :
  ~ In (LogContainerEvent "start") (deferred_calls env err c).
Proof.
  unfold deferred_calls, dieEvent. rewrite !in_app_iff. cbn.
  intros [H|[H|H]].
  - destruct H as [H|[H|[]]]; discriminate.
  - exact (start_event_not_in_Cleanup _ _ H).
  - destruct H as [H|[]]; discriminate.
Qed.

Lemma dieEvent_in_deferred (env : Env) (err : error) (c : Container) :
  In (dieEvent (failedContainer err c)) (deferred_calls env err c).
Proof.
  unfold deferred_calls. rewrite !in_app_iff. right. right. left. reflexivity.
Qed.

Lemma no_start_event (env : Env) (err : error) (c : Container)
  (pre : list Call) :
  ~ In (LogContainerEvent "start") pre ->
  ~ In (LogContainerEvent "start")
      (pre ++ deferred_calls env err c ++ [Unlock]).
Proof.
  intros Hpre H. rewrite !in_app_iff in H. destruct H as [H|[H|H]].
  - exact (Hpre H).
  - exact (start_event_not_in_deferred _ _ _ H).
  - destruct H as [H|[]]; discriminate.
Qed.

Lemma dieEvent_logged (env : Env) (err : error) (c : Container)
  (pre : list Call) :
  In (dieEvent (failedContainer err c))
    (pre ++ deferred_calls env err c ++ [Unlock]).
Proof.
  rewrite !in_app_iff. right. left. apply dieEvent_in_deferred.
Qed.

(** C2 (amended).  When the create RPC of [containerStart] fails, a "start"
    event is logged before the error is returned, and the "die" event
    follows it.  When the mount, the network initialisation or the
    construction of the spec fails, the error is returned as it is and the
    "die" event is logged, but no "start" event is. *)
Theorem containerStart_start_event_on_failure :
  forall (env : Env) (w : World),
    Running (container w) = false ->
    RemovalInProgress (container w) = false ->
    Dead (container w) = false ->
    (forall err,
       r_conditionalMountOnStart env = None ->
       r_initializeNetworking env = None ->
       r_createSpec env = None ->
       r_containerd_Create env = Some err ->
       exists err' before after,
         fst (containerStart env w) = Some err' /\
         calls (snd (containerStart env w)) =
           (calls w ++ before ++ LogContainerEvent "start" :: after)%list /\
         ~ In (LogContainerEvent "start") before /\
         In (dieEvent (container (snd (containerStart env w)))) after) /\
    (forall err,
       r_conditionalMountOnStart env = Some err \/
       (r_conditionalMountOnStart env = None /\
        r_initializeNetworking env = Some err) \/
       (r_conditionalMountOnStart env = None /\
        r_initializeNetworking env = None /\
        r_createSpec env = Some err) ->
       exists added,
         fst (containerStart env w) = Some err /\
         calls (snd (containerStart env w)) = (calls w ++ added)%list /\
         ~ In (LogContainerEvent "start") added /\
         In (dieEvent (container (snd (containerStart env w)))) added).
Proof.
  intros env w Hr Hp Hd. split.
  - intros err Hm Hn Hs Hc.
    rewrite (containerStart_create_fails env w Hr Hp Hd err Hm Hn Hs Hc).
    cbv zeta.
    destruct (containerStart_createFailed err _) as [err' w'] eqn:E.
    rewrite containerStart_createFailed_run in E. cbv zeta in E.
    injection E as Herr Hw. cbn [fst snd container calls].
    exists err'.
    exists [Lock; conditionalMountOnStart; initializeNetworking; createSpec;
            RestartManager true;
            containerd_Create (ID (withDefaultNetMode env (container w)));
            Reset false].
    exists (deferred_calls env err' (container w') ++ [Unlock])%list.
    split; [reflexivity|]. split; [|split].
    + rewrite <- Hw. cbn [calls]. repeat (rewrite <- app_assoc; cbn [app]).
      reflexivity.
    + cbn. intros H.
      repeat (destruct H as [H|H]; [discriminate|]). destruct H.
    + rewrite in_app_iff. left. apply dieEvent_in_deferred.
  - intros err [Hm|[[Hm Hn]|(Hm & Hn & Hs)]].
    + rewrite (containerStart_mount_fails env w Hr Hp Hd err Hm).
      cbn [fst snd container calls]. eexists. split; [reflexivity|].
      split; [reflexivity|]. split.
      * apply no_start_event. cbn. intros H.
        repeat (destruct H as [H|H]; [discriminate|]). destruct H.
      * apply dieEvent_logged.
    + rewrite (containerStart_network_fails env w Hr Hp Hd err Hm Hn).
      cbn [fst snd container calls]. eexists. split; [reflexivity|].
      split; [reflexivity|]. split.
      * apply no_start_event. cbn. intros H.
        repeat (destruct H as [H|H]; [discriminate|]). destruct H.
      * apply dieEvent_logged.
    + rewrite (containerStart_spec_fails env w Hr Hp Hd err Hm Hn Hs).
      cbn [fst snd container calls]. eexists. split; [reflexivity|].
      split; [reflexivity|]. split.
      * apply no_start_event. cbn. intros H.
        repeat (destruct H as [H|H]; [discriminate|]). destruct H.
      * apply dieEvent_logged.
Qed.

(** The create RPC fails: the "start" event is in the log. *)
Lemma containerStart_start_event_on_failure_witness :
  exists err' before after,
    fst (containerStart
           (Samples.env_createFails (Errorf "rpc error: connection refused"))
           (Samples.world_of (Samples.sample_container "/bin/app"))) =
      Some err' /\
    calls (snd (containerStart
           (Samples.env_createFails (Errorf "rpc error: connection refused"))
           (Samples.world_of (Samples.sample_container "/bin/app")))) =
      (calls (Samples.world_of (Samples.sample_container "/bin/app")) ++
       before ++ LogContainerEvent "start" :: after)%list /\
    ~ In (LogContainerEvent "start") before /\
    In (dieEvent (container (snd (containerStart
           (Samples.env_createFails (Errorf "rpc error: connection refused"))
           (Samples.world_of (Samples.sample_container "/bin/app"))))))
       after.
Proof.
  exact (proj1 (containerStart_start_event_on_failure
                  (Samples.env_createFails
                     (Errorf "rpc error: connection refused"))
                  (Samples.world_of (Samples.sample_container "/bin/app"))
                  eq_refl eq_refl eq_refl)
           (Errorf "rpc error: connection refused")
           eq_refl eq_refl eq_refl eq_refl).
Defined.

(** C2 as stated fails on the code: when the mount step fails,
    [containerStart] returns the error and logs a "die" event, and no
    "start" event is logged. *)
Lemma containerStart_mount_failure_logs_no_start_event :
  fst (containerStart
         (Samples.env_mountFails (Errorf "mount: device busy"))
         (Samples.world_of (Samples.sample_container "/bin/app"))) =
    Some (Errorf "mount: device busy") /\
  ~ In (LogContainerEvent "start")
      (calls (snd (containerStart
         (Samples.env_mountFails (Errorf "mount: device busy"))
         (Samples.world_of (Samples.sample_container "/bin/app"))))) /\
  In (LogContainerEventWithAttributes "die" [("exitCode", "128")])
      (calls (snd (containerStart
         (Samples.env_mountFails (Errorf "mount: device busy"))
         (Samples.world_of (Samples.sample_container "/bin/app"))))).
Proof.
  split; [reflexivity|]. split.
  - vm_compute. intros H.
    repeat (destruct H as [H|H]; [discriminate|]). destruct H.
  - vm_compute. tauto.
Qed.

(** C3.  For a container whose paused flag is set, [ContainerStart] returns
    the error "Cannot start a paused container, try unpause instead." and
    leaves the world as it found it: no call is made on any collaborator (no
    host-config update, settings verification, mount, network or RPC step)
    and no field of the container changes. *)
Theorem ContainerStart_paused :
  forall (env : Env) (name : string) (hostConfig : option HostConfig)
         (w : World),
    r_GetContainer env name = None ->
    Paused (container w) = true ->
    ContainerStart env name hostConfig w =
      (Some (Errorf "Cannot start a paused container, try unpause instead."),
       w).
Proof.
  intros env name hostConfig w Hget Hpaused.
  unfold ContainerStart. rewrite Hget. exec. rewrite Hpaused. reflexivity.
Qed.

Lemma ContainerStart_paused_witness :
  ContainerStart Samples.env_ok "web" (Some (mkHostConfig "host"))
    (Samples.world_of (Samples.sample_flags true true)) =
  (Some (Errorf "Cannot start a paused container, try unpause instead."),
   Samples.world_of (Samples.sample_flags true true)).
Proof.
  exact (ContainerStart_paused Samples.env_ok "web"
           (Some (mkHostConfig "host"))
           (Samples.world_of (Samples.sample_flags true true))
           eq_refl eq_refl).
Defined.

(** C4 (amended).  For a container whose running flag is set and whose
    paused flag is not, [ContainerStart] returns an error carrying the HTTP
    status "not modified" and leaves the world as it found it; for every
    container whose running flag is set, [containerStart] returns nil at
    once: it takes and releases the container lock, changes no field of the
    container and issues no create RPC. *)
Theorem start_of_running_container_is_noop :
  forall (env : Env) (name : string) (hostConfig : option HostConfig)
         (w : World),
    Running (container w) = true ->
    (r_GetContainer env name = None ->
     Paused (container w) = false ->
     ContainerStart env name hostConfig w =
       (Some (NewErrorWithStatusCode (Errorf "Container already started")
                StatusNotModified), w)) /\
    containerStart env w =
      (None, mkWorld (container w) (index w) (calls w ++ [Lock; Unlock])).
Proof.
  intros env name hostConfig w Hrun. split.
  - intros Hget Hpaused.
    unfold ContainerStart. rewrite Hget. exec. rewrite Hpaused, Hrun.
    reflexivity.
  - unfold containerStart. exec. rewrite Hrun. cbn. exec.
    rewrite <- app_assoc. reflexivity.
Qed.

Lemma start_of_running_container_is_noop_witness :
  ContainerStart Samples.env_ok "web" None
    (Samples.world_of (Samples.sample_flags true false)) =
    (Some (mkError "Container already started" (Some 304)),
     Samples.world_of (Samples.sample_flags true false)) /\
  containerStart Samples.env_ok
    (Samples.world_of (Samples.sample_flags true false)) =
    (None, mkWorld (Samples.sample_flags true false) ∅ [Lock; Unlock]).
Proof.
  split.
  - exact (proj1 (start_of_running_container_is_noop Samples.env_ok "web"
                    None (Samples.world_of (Samples.sample_flags true false))
                    eq_refl) eq_refl eq_refl).
  - exact (proj2 (start_of_running_container_is_noop Samples.env_ok "web"
                    None (Samples.world_of (Samples.sample_flags true false))
                    eq_refl)).
Defined.

(** C4 as stated fails on the code: a container can have both its running
    and its paused flag set, and then [ContainerStart] returns the error of
    a paused container, which carries no HTTP status. *)
Lemma ContainerStart_running_and_paused :
  Running (Samples.sample_flags true true) = true /\
  fst (ContainerStart Samples.env_ok "web" None
         (Samples.world_of (Samples.sample_flags true true))) =
    Some (Errorf "Cannot start a paused container, try unpause instead.") /\
  StatusCode (Errorf "Cannot start a paused container, try unpause instead.")
    <> Some StatusNotModified.
Proof.
  split; [reflexivity|]. split; [reflexivity|]. discriminate.
Qed.

(** *** [create] *)

Ltac case_next :=
  match goal with
  | |- context [match ?x with _ => _ end] =>
      lazymatch x with
      | context [match _ with _ => _ end] => fail
      | registers _ _ => fail
      | negb ?y => destruct y eqn:?
      | _ => destruct x eqn:?
      end
  end.

Ltac use_cases :=
  repeat match goal with
         | H : _ = _ |- _ => rewrite H in *; clear H
         end.

Ltac not_among :=
  let H := fresh in
  intros H; repeat (destruct H as [H|H]; [discriminate|]); destruct H.

#[local] Arguments appliesMounts : simpl never.
#[local] Arguments registers : simpl never.

Lemma create_afterNew_run (env : Env) (params : ContainerCreateConfig)
  (w : World) :
  exists added,
    calls (snd (create_afterNew env params w)) = (calls w ++ added)%list /\
    ID (container (snd (create_afterNew env params w))) = ID (container w) /\
    (forall id force, ~ In (ContainerRm id force) added) /\
    index (snd (create_afterNew env params w)) =
      (if registers env (container w) then {[ ID (container w) ]} ∪ index w
       else index w) /\
    (fst (create_afterNew env params w) <> None ->
     (In (removeMountPoints (ID (container w)) true) added <->
      appliesMounts env params (container w) = true)) /\
    (fst (create_afterNew env params w) = None ->
     appliesMounts env params (container w) = true /\
     ~ In (removeMountPoints (ID (container w)) true) added).
Proof.
  destruct w as [c ix cs].
  unfold create_afterNew, setRWLayer, daemon_Register, daemon_setHostConfig,
    create_afterMounts, create_defer_removeMountPoints.
  exec.
  repeat (case_next; cbn; exec);
    (eexists; split;
     [repeat (rewrite <- app_assoc; cbn); reflexivity|]);
    (split; [reflexivity|]);
    (split; [intros id force; not_among|]);
    unfold appliesMounts, registers, setRWLayer_ok; use_cases; cbn;
    (split; [reflexivity|]);
    (split;
     [intros Hne;
      first [exfalso; apply Hne; reflexivity
            |split; [first [reflexivity|not_among]
                    |first [discriminate|intros _; cbn; tauto]]]
     |first [discriminate|intros _; split; [reflexivity|not_among]]]).
Qed.

#[local] Arguments imageOf : simpl never.
#[local] Arguments create_prefix : simpl never.

(** [create] up to the return of [newContainer]. *)
Lemma create_run (env : Env) (params : ContainerCreateConfig) (w : World) :
  create env params w =
  match imageOf env params with
  | Err err =>
      (Err err,
       mkWorld (container w) (index w)
         (calls w ++ [GetImage (Config_Image params)]))
  | Ok img =>
      match r_mergeAndVerifyConfig env with
      | Some err =>
          (Err err,
           mkWorld (container w) (index w)
             (calls w ++ removelast (create_prefix params)))
      | None =>
          match r_newContainer env (Name params) img with
          | Err err =>
              (Err err,
               mkWorld (container w) (index w)
                 (calls w ++ create_prefix params))
          | Ok c0 =>
              let r := create_afterNew env params
                         (mkWorld c0 (index w)
                            (calls w ++ create_prefix params)) in
              match fst r with
              | Some err =>
                  (Err err,
                   snd (create_defer_ContainerRm env (Some err) (snd r)))
              | None => (Ok (container (snd r)), snd r)
              end
          end
      end
  end.
Proof.
  destruct w as [c ix cs].
  unfold create, imageOf, create_prefix. exec.
  destruct (String.eqb (Config_Image params) ""); cbn; exec.
  - destruct (r_mergeAndVerifyConfig env); cbn; [reflexivity|].
    destruct (r_newContainer env (Name params) ""); cbn;
      repeat (rewrite <- app_assoc; cbn); [|reflexivity].
    destruct (create_afterNew env params _) as [[e|] w2]; cbn;
      [destruct (create_defer_ContainerRm env (Some e) w2)|]; reflexivity.
  - destruct (r_GetImage env) as [img|e]; cbn; [|reflexivity].
    destruct (r_mergeAndVerifyConfig env); cbn;
      repeat (rewrite <- app_assoc; cbn); [reflexivity|].
    destruct (r_newContainer env (Name params) img); cbn;
      repeat (rewrite <- app_assoc; cbn); [|reflexivity].
    destruct (create_afterNew env params _) as [[e|] w2]; cbn;
      [destruct (create_defer_ContainerRm env (Some e) w2)|]; reflexivity.
Qed.

Lemma create_defer_ContainerRm_run (env : Env) (err : error) (w : World) :
  snd (create_defer_ContainerRm env (Some err) w) =
  mkWorld (container w)
    (match r_ContainerRm env with
     | None => index w ∖ {[ ID (container w) ]}
     | Some _ => index w
     end)
    (calls w ++
     ContainerRm (ID (container w)) true ::
     match r_ContainerRm env with
     | None => []
     | Some e => [Errorf_cannot_destroy (ID (container w)) e]
     end).
Proof.
  destruct w as [c ix cs].
  unfold create_defer_ContainerRm, daemon_ContainerRm. exec.
  destruct (r_ContainerRm env); cbn; exec;
    repeat (rewrite <- app_assoc; cbn); reflexivity.
Qed.

Lemma create_prefix_no_rollback (params : ContainerCreateConfig) :
  (forall id force, ~ In (ContainerRm id force) (create_prefix params)) /\
  (forall id rm, ~ In (removeMountPoints id rm) (create_prefix params)) /\
  (forall id force,
     ~ In (ContainerRm id force) (removelast (create_prefix params))) /\
  (forall id rm,
     ~ In (removeMountPoints id rm) (removelast (create_prefix params))).
Proof.
  unfold create_prefix.
  destruct (String.eqb (Config_Image params) ""); cbn;
    repeat split; intros; not_among.
Qed.

Ltac break_steps :=
  unfold appliesMounts, registers, setRWLayer_ok, isNil, isOk in *;
  repeat match goal with
         | H : _ && _ = true |- _ => apply andb_true_iff in H as [? ?]
         | H : _ || _ = true |- _ => apply orb_true_iff in H as [?|?]
         end.

(** [create] after [newContainer] returns the error of the first of its
    steps that fails, and only such an error. *)
Lemma create_afterNew_fails_iff (env : Env) (params : ContainerCreateConfig)
  (w : World) (err : error) :
  failsAfterNew env params (container w) err <->
  fst (create_afterNew env params w) = Some err.
Proof.
  destruct w as [c ix cs]. cbn [container]. split.
  - intros H.
    unfold create_afterNew, setRWLayer, daemon_Register, daemon_setHostConfig,
      create_afterMounts, create_defer_removeMountPoints.
    exec.
    destruct H; break_steps;
      repeat (case_next; cbn; exec); congruence.
  - unfold create_afterNew, setRWLayer, daemon_Register, daemon_setHostConfig,
      create_afterMounts, create_defer_removeMountPoints.
    exec.
    destruct (r_setSecurityOptions env) as [e|] eqn:H1; cbn; exec.
    { intros [= <-]. apply fails_setSecurityOptions. exact H1. }
    destruct (String.eqb (ImageID c) "") eqn:Himg; cbn; exec.
    + destruct (r_CreateRWLayer env) as [rw|e] eqn:H3; cbn; exec.
      2:{ intros [= <-]. apply fails_CreateRWLayer; [exact H1| |exact H3].
          rewrite Himg. reflexivity. }
      assert (setRWLayer_ok env c = true) as Hrw.
      { unfold setRWLayer_ok. rewrite Himg, H3. reflexivity. }
      revert Hrw. generalize (set_RWLayer (Some rw) c). intros c1 Hrw.
      destruct (r_Register env) as [e|] eqn:H4; cbn; exec.
      { intros [= <-]. apply fails_Register; assumption. }
      assert (registers env c = true) as Hreg.
      { unfold registers. rewrite H1, Hrw, H4. reflexivity. }
      destruct (r_GetRootUIDGID env) as [e|] eqn:H5; cbn; exec.
      { intros [= <-]. apply fails_GetRootUIDGID; assumption. }
      destruct (r_MkdirAs env) as [e|] eqn:H6; cbn; exec.
      { intros [= <-]. apply fails_MkdirAs; assumption. }
      destruct (r_setHostConfig env (params_HostConfig params))
        as [h|e] eqn:H7; cbn; exec.
      2:{ intros [= <-]. apply fails_setHostConfig; assumption. }
      assert (appliesMounts env params c = true) as Happ.
      { unfold appliesMounts. rewrite Hreg, H5, H6, H7. reflexivity. }
      destruct (r_createContainerPlatformSpecificSettings env) as [e|] eqn:H8;
        cbn; exec.
      { destruct (r_removeMountPoints env); cbn; exec; intros [= <-];
          apply fails_createContainerPlatformSpecificSettings; assumption. }
      destruct (r_updateContainerNetworkSettings env) as [e|] eqn:H9;
        cbn; exec.
      { destruct (r_removeMountPoints env); cbn; exec; intros [= <-];
          apply fails_updateContainerNetworkSettings; assumption. }
      destruct (r_ToDiskLocking env) as [e|] eqn:H10; cbn; exec.
      { destruct (r_removeMountPoints env); cbn; exec; intros [= <-];
          apply fails_ToDiskLocking; assumption. }
      discriminate.
    + destruct (r_imageStore_Get env) as [chain|e] eqn:H2; cbn; exec.
      2:{ intros [= <-]. apply fails_imageStore_Get; assumption. }
      destruct (r_CreateRWLayer env) as [rw|e] eqn:H3; cbn; exec.
      2:{ intros [= <-]. apply fails_CreateRWLayer; [exact H1| |exact H3].
          rewrite H2. apply orb_true_r. }
      assert (setRWLayer_ok env c = true) as Hrw.
      { unfold setRWLayer_ok. rewrite Himg, H2, H3. reflexivity. }
      revert Hrw. generalize (set_RWLayer (Some rw) c). intros c1 Hrw.
      destruct (r_Register env) as [e|] eqn:H4; cbn; exec.
      { intros [= <-]. apply fails_Register; assumption. }
      assert (registers env c = true) as Hreg.
      { unfold registers. rewrite H1, Hrw, H4. reflexivity. }
      destruct (r_GetRootUIDGID env) as [e|] eqn:H5; cbn; exec.
      { intros [= <-]. apply fails_GetRootUIDGID; assumption. }
      destruct (r_MkdirAs env) as [e|] eqn:H6; cbn; exec.
      { intros [= <-]. apply fails_MkdirAs; assumption. }
      destruct (r_setHostConfig env (params_HostConfig params))
        as [h|e] eqn:H7; cbn; exec.
      2:{ intros [= <-]. apply fails_setHostConfig; assumption. }
      assert (appliesMounts env params c = true) as Happ.
      { unfold appliesMounts. rewrite Hreg, H5, H6, H7. reflexivity. }
      destruct (r_createContainerPlatformSpecificSettings env) as [e|] eqn:H8;
        cbn; exec.
      { destruct (r_removeMountPoints env); cbn; exec; intros [= <-];
          apply fails_createContainerPlatformSpecificSettings; assumption. }
      destruct (r_updateContainerNetworkSettings env) as [e|] eqn:H9;
        cbn; exec.
      { destruct (r_removeMountPoints env); cbn; exec; intros [= <-];
          apply fails_updateContainerNetworkSettings; assumption. }
      destruct (r_ToDiskLocking env) as [e|] eqn:H10; cbn; exec.
      { destruct (r_removeMountPoints env); cbn; exec; intros [= <-];
          apply fails_ToDiskLocking; assumption. }
      discriminate.
Qed.

(** C5 (amended).  In [create], a failure of the image lookup, of the
    configuration merge or of [newContainer] returns the error with no
    attempt at a forced removal.  Once [newContainer] has returned the
    container, [create] returns an error exactly when one of its later
    steps fails, every step before it having succeeded, and the error is
    the one of that step.  Every such failure triggers the forced removal
    of that container ([ContainerRm] with [ForceRemove]); this includes the
    failures of the security-options, writable-layer and registration
    steps, which come before the container is in the index.  [create]
    itself releases the mount points ([removeMountPoints]) exactly when
    the step that fails comes after [setHostConfig] has succeeded, and it
    does so before the forced removal. *)
Theorem create_rolls_back_after_newContainer :
  forall (env : Env) (params : ContainerCreateConfig) (w : World),
    (forall err,
       imageOf env params = Err err \/
       (exists img,
          imageOf env params = Ok img /\
          (r_mergeAndVerifyConfig env = Some err \/
           (r_mergeAndVerifyConfig env = None /\
            r_newContainer env (Name params) img = Err err))) ->
       fst (create env params w) = Err err /\
       index (snd (create env params w)) = index w /\
       exists added,
         calls (snd (create env params w)) = (calls w ++ added)%list /\
         (forall id force, ~ In (ContainerRm id force) added) /\
         (forall id rm, ~ In (removeMountPoints id rm) added)) /\
    (forall img c0 err,
       imageOf env params = Ok img ->
       r_mergeAndVerifyConfig env = None ->
       r_newContainer env (Name params) img = Ok c0 ->
       (failsAfterNew env params c0 err <->
        fst (create env params w) = Err err) /\
       (failsAfterNew env params c0 err ->
        (r_ContainerRm env = None ->
         ID c0 ∉ index (snd (create env params w))) /\
        exists before after,
          calls (snd (create env params w)) =
            (calls w ++ before ++ ContainerRm (ID c0) true :: after)%list /\
          (forall id force, ~ In (ContainerRm id force) before) /\
          (In (removeMountPoints (ID c0) true) before <->
           appliesMounts env params c0 = true) /\
          (forall id rm, ~ In (removeMountPoints id rm) after))).
Proof.
  intros env params w. split.
  - intros err H. rewrite create_run.
    destruct (create_prefix_no_rollback params) as (P1 & P2 & P3 & P4).
    destruct H as [H|(img & Himg & [H|[Hm H]])].
    + rewrite H. cbn. repeat split. eexists. split; [reflexivity|].
      split; intros; not_among.
    + rewrite Himg, H. cbn. repeat split. eexists. split; [reflexivity|].
      split; [apply P3|apply P4].
    + rewrite Himg, Hm, H. cbn. repeat split. eexists.
      split; [reflexivity|]. split; [apply P1|apply P2].
  - intros img c0 err Himg Hm Hnew.
    pose proof (create_afterNew_fails_iff env params
                  (mkWorld c0 (index w) (calls w ++ create_prefix params))
                  err) as Hiff.
    cbn [container] in Hiff.
    rewrite create_run, Himg, Hm, Hnew. cbv zeta.
    destruct (create_afterNew_run env params
                (mkWorld c0 (index w) (calls w ++ create_prefix params)))
      as (added & Hcalls & Hid & Hrm & Hix & Hmp & _).
    destruct (create_afterNew env params _) as [[e|] w2]; cbn in *.
    + split.
      { rewrite Hiff. split; intros [= <-]; reflexivity. }
      intros Hfails. apply Hiff in Hfails. injection Hfails as ->.
      rewrite create_defer_ContainerRm_run. cbn. rewrite Hid.
      split.
      * intros ->. apply not_elem_of_difference. right.
        apply elem_of_singleton. reflexivity.
      * destruct (create_prefix_no_rollback params) as (P1 & P2 & _).
        exists (create_prefix params ++ added)%list.
        exists (match r_ContainerRm env with
                | None => []
                | Some e => [Errorf_cannot_destroy (ID c0) e]
                end).
        rewrite Hcalls. split; [rewrite <- !app_assoc; reflexivity|].
        split; [|split].
        -- intros id force. rewrite in_app_iff. intros [H|H].
           ++ exact (P1 _ _ H).
           ++ exact (Hrm _ _ H).
        -- rewrite in_app_iff. rewrite <- Hmp by discriminate. split.
           ++ intros [H|H]; [destruct (P2 _ _ H)|exact H].
           ++ intros H. right. exact H.
        -- intros id rm. destruct (r_ContainerRm env); not_among.
    + split.
      { rewrite Hiff. split; discriminate. }
      intros Hfails. apply Hiff in Hfails. discriminate.
Qed.

(** The platform-specific settings fail once the container is registered
    and its mounts are applied: the mount points are released, the
    container is removed from the index, the error is returned. *)
Lemma create_rolls_back_after_newContainer_witness :
  failsAfterNew
    (Samples.env_platformFails (Errorf "mkdir /data: read-only file system"))
    Samples.sample_params (Samples.sample_container "/bin/sh")
    (Errorf "mkdir /data: read-only file system") /\
  fst (create
         (Samples.env_platformFails
            (Errorf "mkdir /data: read-only file system"))
         Samples.sample_params
         (Samples.world_of (Samples.sample_container ""))) =
    Err (Errorf "mkdir /data: read-only file system") /\
  ID (Samples.sample_container "/bin/sh") ∉
  index (snd (create
    (Samples.env_platformFails (Errorf "mkdir /data: read-only file system"))
    Samples.sample_params
    (Samples.world_of (Samples.sample_container "")))).
Proof.
  assert (failsAfterNew
            (Samples.env_platformFails
               (Errorf "mkdir /data: read-only file system"))
            Samples.sample_params (Samples.sample_container "/bin/sh")
            (Errorf "mkdir /data: read-only file system")) as Hfails.
  { apply fails_createContainerPlatformSpecificSettings; reflexivity. }
  destruct (proj2 (create_rolls_back_after_newContainer
                     (Samples.env_platformFails
                        (Errorf "mkdir /data: read-only file system"))
                     Samples.sample_params
                     (Samples.world_of (Samples.sample_container "")))
              "sha256:0a1b" (Samples.sample_container "/bin/sh")
              (Errorf "mkdir /data: read-only file system")
              eq_refl eq_refl eq_refl) as [Hiff Hroll].
  split; [exact Hfails|].
  split; [apply Hiff; exact Hfails|].
  apply (Hroll Hfails). reflexivity.
Defined.

(** C5 as stated fails on the code: when the writable layer cannot be
    created, the container has not been registered in the index (no call
    to [Register] was made), and yet [create] attempts the forced removal
    before it returns the error. *)
Lemma create_forces_removal_before_registration :
  fst (create (Samples.env_rwLayerFails (Errorf "no space left on device"))
         Samples.sample_params
         (Samples.world_of (Samples.sample_container ""))) =
    Err (Errorf "no space left on device") /\
  ~ In (Register "4fa6e0f0c678")
      (calls (snd (create
         (Samples.env_rwLayerFails (Errorf "no space left on device"))
         Samples.sample_params
         (Samples.world_of (Samples.sample_container ""))))) /\
  In (ContainerRm "4fa6e0f0c678" true)
      (calls (snd (create
         (Samples.env_rwLayerFails (Errorf "no space left on device"))
         Samples.sample_params
         (Samples.world_of (Samples.sample_container ""))))).
Proof.
  split; [reflexivity|]. split.
  - vm_compute. not_among.
  - vm_compute. tauto.
Qed.

(** A cleanup in which the unmount fails and the mount identifier cannot be
    found still unregisters the exec command, unmounts the volumes and
    cancels the attach context. *)
Example Cleanup_after_failed_unmount :
  calls (snd (Cleanup
    (Samples.env_unmountFails (Errorf "device busy")
       (Err (Errorf "mount does not exist")))
    (Samples.world_of (Samples.sample_container "/bin/app")))) =
  [releaseNetwork; UnmountIpcMounts; conditionalUnmountOnCleanup;
   GetMountID "4fa6e0f0c678"; unregisterExecCommand "exec-1";
   UnmountVolumes false; CancelAttachContext].
Proof. reflexivity. Qed.

(** The metadata directory cannot be made: the container is registered but
    its mounts were not applied; the forced removal runs and the mount
    points are not released by [create]. *)
Example create_fails_at_metadata_directory :
  calls (snd (create (Samples.env_mkdirFails (Errorf "mkdir: read-only"))
                Samples.sample_params
                (Samples.world_of (Samples.sample_container "")))) =
  [GetImage "busybox"; mergeAndVerifyConfig; newContainer "web";
   setSecurityOptions; imageStore_Get "sha256:0a1b";
   CreateRWLayer "4fa6e0f0c678" "chain-0a1b" ""; Register "4fa6e0f0c678";
   GetRootUIDGID; MkdirAs "/var/lib/docker/containers/4fa6e0f0c678";
   ContainerRm "4fa6e0f0c678" true].
Proof. reflexivity. Qed.

(** The backend reports "no such file or directory": the whole log of the
    failed start. *)
Example start_fails_command_not_found :
  calls (snd (containerStart
    (Samples.env_createFails (Errorf "exec: no such file or directory"))
    (Samples.world_of (Samples.sample_container "/bin/app")))) =
  [Lock; conditionalMountOnStart; initializeNetworking; createSpec;
   RestartManager true; containerd_Create "4fa6e0f0c678"; Reset false;
   LogContainerEvent "start";
   SetError
     (Errorf "Container command '/bin/app' not found or does not exist.");
   ToDisk; releaseNetwork; UnmountIpcMounts; conditionalUnmountOnCleanup;
   unregisterExecCommand "exec-1"; UnmountVolumes false; CancelAttachContext;
   LogContainerEventWithAttributes "die" [("exitCode", "127")]; Unlock].
Proof. reflexivity. Qed.

(** *** Further properties of [containerStart] *)

#[local] Arguments deferred_calls : simpl never.
#[local] Arguments Cleanup_calls : simpl never.
#[local] Arguments failedContainer : simpl never.

Lemma containerStart_succeeds_run (env : Env) (w : World) :
  Running (container w) = false ->
  RemovalInProgress (container w) = false ->
  Dead (container w) = false ->
  r_conditionalMountOnStart env = None ->
  r_initializeNetworking env = None ->
  r_createSpec env = None ->
  r_containerd_Create env = None ->
  containerStart env w =
    (None,
     mkWorld (set_Running true (withDefaultNetMode env (container w)))
       (index w) (calls w ++ start_calls (container w))).
Proof.
  intros Hr Hp Hd Hm Hn Hs Hc. destruct w as [c ix cs]. cbn in *.
  unfold containerStart, containerStart_body, start_calls. exec.
  rewrite Hr, Hp, Hd, Hm. cbn. rewrite Hn. cbn. rewrite Hs. cbn. exec.
  rewrite Hc. cbn. exec. repeat (rewrite <- app_assoc; cbn).
  unfold containerStart_deferred. exec.
  repeat (rewrite <- app_assoc; cbn). reflexivity.
Qed.

Lemma Cleanup_calls_not_locking (env : Env) (c : Container) :
  forallb (fun x => negb (isLocking x)) (Cleanup_calls env c) = true.
Proof.
  unfold Cleanup_calls, fallback_calls, volume_calls.
  rewrite !forallb_app. cbn.
  destruct (r_conditionalUnmountOnCleanup env);
    [destruct (r_GetMountID env)|];
    (destruct (String.eqb (BaseFS c) ""); [|destruct (r_UnmountVolumes env)]);
    cbn; rewrite ?andb_true_r;
    (induction (ExecCommands c) as [|x xs IH]; [reflexivity|exact IH]).
Qed.

Lemma deferred_calls_not_locking (env : Env) (err : error) (c : Container) :
  forallb (fun x => negb (isLocking x)) (deferred_calls env err c) = true.
Proof.
  unfold deferred_calls, dieEvent. rewrite !forallb_app. cbn.
  rewrite Cleanup_calls_not_locking. reflexivity.
Qed.

(** What a [containerStart] of a stopped container that is neither marked
    for removal nor dead comes to: either an error that went through the
    deferred function, or the calls of a start without error. *)
Lemma containerStart_outcome (env : Env) (w : World) :
  Running (container w) = false ->
  RemovalInProgress (container w) = false ->
  Dead (container w) = false ->
  (exists err c' pre,
     containerStart env w =
       (Some err,
        mkWorld (failedContainer err c') (index w)
          (calls w ++ [Lock] ++ pre ++ deferred_calls env err c' ++
           [Unlock])) /\
     forallb (fun x => negb (isLocking x)) pre = true) \/
  containerStart env w =
    (None,
     mkWorld (set_Running true (withDefaultNetMode env (container w)))
       (index w) (calls w ++ start_calls (container w))).
Proof.
  intros Hr Hp Hd.
  destruct (r_conditionalMountOnStart env) as [e1|] eqn:Hm.
  { left. exists e1, (container w), [conditionalMountOnStart].
    rewrite (containerStart_mount_fails env w Hr Hp Hd e1 Hm).
    split; reflexivity. }
  destruct (r_initializeNetworking env) as [e2|] eqn:Hn.
  { left. exists e2, (withDefaultNetMode env (container w)),
      [conditionalMountOnStart; initializeNetworking].
    rewrite (containerStart_network_fails env w Hr Hp Hd e2 Hm Hn).
    split; reflexivity. }
  destruct (r_createSpec env) as [e3|] eqn:Hs.
  { left. exists e3, (withDefaultNetMode env (container w)),
      [conditionalMountOnStart; initializeNetworking; createSpec].
    rewrite (containerStart_spec_fails env w Hr Hp Hd e3 Hm Hn Hs).
    split; reflexivity. }
  destruct (r_containerd_Create env) as [e4|] eqn:Hc.
  - left.
    rewrite (containerStart_create_fails env w Hr Hp Hd e4 Hm Hn Hs Hc).
    cbv zeta.
    destruct (containerStart_createFailed e4 _) as [err' w'] eqn:E.
    rewrite containerStart_createFailed_run in E. cbv zeta in E.
    injection E as Herr Hw. cbn [fst snd].
    exists err', (container w'),
      [conditionalMountOnStart; initializeNetworking; createSpec;
       RestartManager true;
       containerd_Create (ID (withDefaultNetMode env (container w)));
       Reset false; LogContainerEvent "start"].
    split; [|reflexivity].
    rewrite <- Hw. cbn [calls container].
    repeat (rewrite <- app_assoc; cbn [app]). reflexivity.
  - right. apply containerStart_succeeds_run; assumption.
Qed.

(** X9.  A [containerStart] that fails.  For a container marked for
    removal or dead it returns its error after taking and releasing the
    lock, and does nothing else.  Every other error goes through the
    deferred function: the exit code of the container is then not zero,
    its error text is the message of the error returned, [Cleanup] ran on
    the container as it is left, and the last calls are the "die" event
    carrying that exit code and the release of the lock. *)
Theorem containerStart_failure :
  forall (env : Env) (w : World) (err : error),
    Running (container w) = false ->
    fst (containerStart env w) = Some err ->
    (RemovalInProgress (container w) || Dead (container w) = true ->
     err = errMarkedForRemoval /\
     snd (containerStart env w) =
       mkWorld (container w) (index w) (calls w ++ [Lock; Unlock])) /\
    (RemovalInProgress (container w) || Dead (container w) = false ->
     ExitCode (container (snd (containerStart env w))) <> 0 /\
     StateError (container (snd (containerStart env w))) = Error err /\
     exists pre,
       calls (snd (containerStart env w)) =
         (calls w ++ pre ++ [SetError err; ToDisk] ++
          Cleanup_calls env (container (snd (containerStart env w))) ++
          [dieEvent (container (snd (containerStart env w))); Unlock])%list).
Proof.
  intros env w err Hr Hres. split.
  - intros Hmarked. revert Hres. destruct w as [c ix cs]. cbn in *.
    unfold containerStart. exec. rewrite Hr, Hmarked. cbn. exec.
    intros [= <-]. split; [reflexivity|].
    rewrite <- app_assoc. reflexivity.
  - intros Hmarked. apply orb_false_iff in Hmarked as [Hp Hd].
    destruct (containerStart_outcome env w Hr Hp Hd)
      as [(err' & c' & pre & Hrun & _)|Hrun];
      rewrite Hrun in *; [|discriminate].
    cbn [fst snd container calls] in *. injection Hres as ->.
    split; [|split].
    + unfold failedContainer. cbn.
      destruct (Z.eqb_spec (ExitCode c') 0); cbn; [discriminate|assumption].
    + unfold failedContainer. cbn.
      destruct (Z.eqb (ExitCode c') 0); reflexivity.
    + exists ([Lock] ++ pre)%list. unfold deferred_calls.
      repeat (rewrite <- app_assoc; cbn [app]). reflexivity.
Qed.


(** X11.  On every path, [containerStart] takes the container lock first
    and releases it last, once each: whatever the flags of the container
    and whatever its collaborators answer, its calls are [Lock], then calls
    that neither take nor release the lock, then [Unlock]. *)
Theorem containerStart_lock_discipline :
  forall (env : Env) (w : World),
    exists middle,
      calls (snd (containerStart env w)) =
        (calls w ++ [Lock] ++ middle ++ [Unlock])%list /\
      forallb (fun x => negb (isLocking x)) middle = true.
Proof.
  intros env w.
  destruct (Running (container w)) eqn:Hr.
  { exists []. split; [|reflexivity].
    destruct w as [c ix cs]. cbn in *.
    unfold containerStart. exec. rewrite Hr. cbn. exec.
    rewrite <- app_assoc. reflexivity. }
  destruct (RemovalInProgress (container w) || Dead (container w)) eqn:Hmarked.
  { exists []. split; [|reflexivity].
    destruct w as [c ix cs]. cbn in *.
    unfold containerStart. exec. rewrite Hr, Hmarked. cbn. exec.
    rewrite <- app_assoc. reflexivity. }
  apply orb_false_iff in Hmarked as [Hp Hd].
  destruct (containerStart_outcome env w Hr Hp Hd)
    as [(err' & c' & pre & Hrun & Hpre)|Hrun]; rewrite Hrun.
  - exists (pre ++ deferred_calls env err' c')%list. cbn [snd calls]. split.
    + repeat (rewrite <- app_assoc; cbn [app]). reflexivity.
    + rewrite forallb_app, Hpre, deferred_calls_not_locking. reflexivity.
  - exists [conditionalMountOnStart; initializeNetworking; createSpec;
            RestartManager true; containerd_Create (ID (container w))].
    split; reflexivity.
Qed.

(** *** Further properties of [ContainerStart] and [create] *)

Lemma callsSince_app (w : World) (l added : list Call) :
  calls w = (l ++ added)%list -> callsSince l w = added.
Proof.
  intros H. unfold callsSince. rewrite H, skipn_app, skipn_all, Nat.sub_diag.
  reflexivity.
Qed.

(** X12.  The host configuration given to [ContainerStart] (lines 42-69).
    Without one nothing happens.  On Windows one is refused with an error,
    before any call.  Elsewhere it is installed after a deprecation
    warning, and the networks of the container are forgotten and the
    container saved exactly when the network mode it installs differs from
    the one the container had; an error of that save is returned before
    the DNS configuration is initialised. *)
Theorem ContainerStart_hostConfig_network_mode :
  forall (env : Env) (w : World),
    ContainerStart_hostConfig env None w = (None, w) /\
    (forall h,
       GOOS env = "windows" ->
       ContainerStart_hostConfig env (Some h) w =
         (Some errHostConfigOnStart, w)) /\
    (forall h h',
       GOOS env <> "windows" ->
       r_setSecurityOptions env = None ->
       r_setHostConfig env h = Ok h' ->
       (NetworkMode h' = NetworkMode (HostConfig_ (container w)) ->
        ContainerStart_hostConfig env (Some h) w =
          (None,
           mkWorld (set_HostConfig h' (container w)) (index w)
             (calls w ++ [warnHostConfigOnStart; setSecurityOptions;
                          setHostConfig; InitDNSHostConfig]))) /\
       (NetworkMode h' <> NetworkMode (HostConfig_ (container w)) ->
        ContainerStart_hostConfig env (Some h) w =
          (r_ToDisk env,
           mkWorld (set_Networks None (set_HostConfig h' (container w)))
             (index w)
             (calls w ++ [warnHostConfigOnStart; setSecurityOptions;
                          setHostConfig; ToDisk] ++
              match r_ToDisk env with
              | Some _ => []
              | None => [InitDNSHostConfig]
              end)))).
Proof.
  intros env w. destruct w as [c ix cs].
  unfold ContainerStart_hostConfig, daemon_setHostConfig,
    warnHostConfigOnStart, errHostConfigOnStart.
  split; [|split].
  - destruct (negb (String.eqb (GOOS env) "windows")); reflexivity.
  - intros h ->. reflexivity.
  - intros h h' Hos Hsec Hset. apply String.eqb_neq in Hos. rewrite Hos.
    cbn [negb]. exec. rewrite Hsec. cbn. exec. rewrite Hset. cbn. exec.
    split.
    + intros Hsame. rewrite Hsame, String.eqb_refl. cbn. exec.
      repeat (rewrite <- app_assoc; cbn). reflexivity.
    + intros Hdiff.
      assert (String.eqb (NetworkMode (HostConfig_ c)) (NetworkMode h') = false)
        as -> by (apply String.eqb_neq; congruence).
      cbn. exec. destruct (r_ToDisk env); cbn; exec;
        repeat (rewrite <- app_assoc; cbn); reflexivity.
Qed.

(** X13.  [setRWLayer] creates the writable layer of the container on top
    of the chain of its image: with an image it asks the image store for
    that image and hands the chain the store answers, the identifier and
    the mount label of the container to [CreateRWLayer]; when the store
    fails, its error is returned and no layer is created.  Without image
    it asks the image store nothing and creates the layer with no parent.
    On success the only field of the container that changes is its
    writable layer; on error the world is left as it was but for the calls
    made. *)
Theorem setRWLayer_effect :
  forall (env : Env) (w : World),
    index (snd (setRWLayer env w)) = index w /\
    (ImageID (container w) = "" ->
     callsSince (calls w) (snd (setRWLayer env w)) =
       [CreateRWLayer (ID (container w)) "" (MountLabel (container w))]) /\
    (ImageID (container w) <> "" ->
     (forall chain,
        r_imageStore_Get env = Ok chain ->
        callsSince (calls w) (snd (setRWLayer env w)) =
          [imageStore_Get (ImageID (container w));
           CreateRWLayer (ID (container w)) chain
             (MountLabel (container w))]) /\
     (forall err,
        r_imageStore_Get env = Err err ->
        fst (setRWLayer env w) = Some err /\
        callsSince (calls w) (snd (setRWLayer env w)) =
          [imageStore_Get (ImageID (container w))])) /\
    (fst (setRWLayer env w) = None ->
     exists rw,
       r_CreateRWLayer env = Ok rw /\
       container (snd (setRWLayer env w)) =
         set_RWLayer (Some rw) (container w)) /\
    (forall err,
       fst (setRWLayer env w) = Some err ->
       container (snd (setRWLayer env w)) = container w /\
       (r_CreateRWLayer env = Err err \/
        ImageID (container w) <> "" /\ r_imageStore_Get env = Err err)).
Proof.
  intros env w. destruct w as [c ix cs]. unfold setRWLayer, callsSince.
  cbn [container calls index]. exec.
  destruct (String.eqb_spec (ImageID c) "") as [Himg|Himg]; cbn; exec.
  - destruct (r_CreateRWLayer env) as [rw|e] eqn:Hrw; cbn; exec.
    + split; [reflexivity|]. split.
      * intros _. rewrite skipn_app, skipn_all, Nat.sub_diag. reflexivity.
      * split; [contradiction|].
        split; [intros _; exists rw; split; reflexivity|discriminate].
    + split; [reflexivity|]. split.
      * intros _. rewrite skipn_app, skipn_all, Nat.sub_diag. reflexivity.
      * split; [contradiction|].
        split; [discriminate|]. intros err [= <-].
        split; [reflexivity|left; reflexivity].
  - destruct (r_imageStore_Get env) as [l|e] eqn:Hget; cbn; exec.
    + destruct (r_CreateRWLayer env) as [rw|e] eqn:Hrw; cbn; exec;
        rewrite <- app_assoc, skipn_app, skipn_all, Nat.sub_diag; cbn.
      * split; [reflexivity|]. split; [contradiction|].
        split; [intros _; split;
                [intros chain [= <-]; reflexivity|discriminate]|].
        split; [intros _; exists rw; split; reflexivity|discriminate].
      * split; [reflexivity|]. split; [contradiction|].
        split; [intros _; split;
                [intros chain [= <-]; reflexivity|discriminate]|].
        split; [discriminate|]. intros err [= <-].
        split; [reflexivity|left; reflexivity].
    + rewrite skipn_app, skipn_all, Nat.sub_diag; cbn.
      split; [reflexivity|]. split; [contradiction|].
      split; [intros _; split;
              [discriminate|intros err [= <-]; split; reflexivity]|].
      split; [discriminate|]. intros err [= <-].
      split; [reflexivity|right; split; [exact Himg|reflexivity]].
Qed.

Ltac since :=
  unfold callsSince; cbn [snd calls];
  rewrite ?skipn_app, ?skipn_all, ?Nat.sub_diag; cbn [skipn app].

Lemma last_app_nonempty (l : list Call) (x : Call) (r : list Call)
  (d : Call) :
  List.last (l ++ x :: r) d = List.last (x :: r) d.
Proof.
  induction l as [|y l IH]; [reflexivity|].
  change ((y :: l) ++ x :: r)%list with (y :: (l ++ x :: r))%list.
  destruct (l ++ x :: r)%list eqn:E; [destruct l; discriminate|].
  exact IH.
Qed.

Lemma create_afterNew_success (env : Env) (params : ContainerCreateConfig)
  (w : World) :
  exists added,
    calls (snd (create_afterNew env params w)) = (calls w ++ added)%list /\
    (fst (create_afterNew env params w) = None <->
     In (LogContainerEvent "create") added) /\
    (fst (create_afterNew env params w) = None ->
     RWLayer (container (snd (create_afterNew env params w))) <> None /\
     List.last added Lock = LogContainerEvent "create" /\
     In (Register (ID (container w))) added /\
     List.filter isRollback added = []).
Proof.
  destruct w as [c ix cs].
  unfold create_afterNew, setRWLayer, daemon_Register, daemon_setHostConfig,
    create_afterMounts, create_defer_removeMountPoints.
  exec.
  repeat (case_next; cbn; exec);
    (eexists; split;
     [repeat (rewrite <- app_assoc; cbn); reflexivity|]);
    (split;
     [split; [first [discriminate|intros _; cbn; tauto]
             |first [reflexivity|not_among]]
     |first [discriminate
            |intros _; split;
             [discriminate
             |split; [reflexivity|split; [cbn; tauto|reflexivity]]]]]).
Qed.

Lemma create_afterNew_container (env : Env) (params : ContainerCreateConfig)
  (w : World) :
  fst (create_afterNew env params w) = None ->
  exists rw h,
    r_CreateRWLayer env = Ok rw /\
    r_setHostConfig env (params_HostConfig params) = Ok h /\
    container (snd (create_afterNew env params w)) =
      set_HostConfig h (set_RWLayer (Some rw) (container w)).
Proof.
  destruct w as [c ix cs].
  unfold create_afterNew, setRWLayer, daemon_Register, daemon_setHostConfig,
    create_afterMounts, create_defer_removeMountPoints.
  exec.
  repeat (case_next; cbn; exec); try discriminate;
    intros _; do 2 eexists; repeat split; reflexivity.
Qed.


(** The network initialisation fails on a container whose exit code was
    zero: the exit code left is 128. *)
Lemma containerStart_failure_witness :
  ExitCode (container (snd (containerStart
    (Samples.sample_env None (Some (Errorf "network not found")) None None
       None (Ok "mnt-7") (Ok "rw-4fa6e0f0c678") None None)
    (Samples.world_of (Samples.sample_container "/bin/app"))))) <> 0 /\
  StateError (container (snd (containerStart
    (Samples.sample_env None (Some (Errorf "network not found")) None None
       None (Ok "mnt-7") (Ok "rw-4fa6e0f0c678") None None)
    (Samples.world_of (Samples.sample_container "/bin/app"))))) =
    "network not found".
Proof.
  destruct (proj2 (containerStart_failure
                     (Samples.sample_env None
                        (Some (Errorf "network not found")) None None None
                        (Ok "mnt-7") (Ok "rw-4fa6e0f0c678") None None)
                     (Samples.world_of (Samples.sample_container "/bin/app"))
                     (Errorf "network not found") eq_refl eq_refl) eq_refl)
    as (Hcode & Herr & _).
  split; [exact Hcode|exact Herr].
Defined.

(** A stopped container started on the sample daemon. *)
Example containerStart_on_sample_daemon :
  containerStart Samples.env_ok
    (Samples.world_of (Samples.sample_container "/bin/app")) =
  (None,
   mkWorld (set_Running true (Samples.sample_container "/bin/app")) ∅
     [Lock; conditionalMountOnStart; initializeNetworking; createSpec;
      RestartManager true; containerd_Create "4fa6e0f0c678"; Unlock]).
Proof. reflexivity. Qed.

(** On the sample daemon [create] returns the new container, registered. *)
Example create_on_sample_daemon :
  fst (create Samples.env_ok Samples.sample_params
         (Samples.world_of (Samples.sample_container ""))) =
    Ok (Samples.sample_container "/bin/sh") /\
  calls (snd (create Samples.env_ok Samples.sample_params
                (Samples.world_of (Samples.sample_container "")))) =
    [GetImage "busybox"; mergeAndVerifyConfig; newContainer "web";
     setSecurityOptions; imageStore_Get "sha256:0a1b";
     CreateRWLayer "4fa6e0f0c678" "chain-0a1b" ""; Register "4fa6e0f0c678";
     GetRootUIDGID; MkdirAs "/var/lib/docker/containers/4fa6e0f0c678";
     setHostConfig; createContainerPlatformSpecificSettings;
     updateContainerNetworkSettings None; ToDiskLocking;
     LogContainerEvent "create"].
Proof. split; reflexivity. Qed.


(** *** [ContainerCreate] and [VolumeCreate] *)

Lemma create_ok_indexed (env : Env) (params : ContainerCreateConfig)
  (w : World) (c : Container) :
  fst (create env params w) = Ok c ->
  c = container (snd (create env params w)) /\
  (ID c ∈ index (snd (create env params w))) /\
  In (newContainer (Name params))
     (callsSince (calls w) (snd (create env params w))).
Proof.
  rewrite create_run.
  assert (In (newContainer (Name params)) (create_prefix params)) as Hnew.
  { unfold create_prefix.
    destruct (String.eqb (Config_Image params) ""); cbn; tauto. }
  destruct (imageOf env params) as [img|e0]; [|discriminate].
  destruct (r_mergeAndVerifyConfig env) as [e1|]; [discriminate|].
  destruct (r_newContainer env (Name params) img) as [c0|e2];
    [|discriminate].
  cbv zeta.
  destruct (create_afterNew_run env params
              (mkWorld c0 (index w) (calls w ++ create_prefix params)))
    as (added & Hcalls & Hid & _ & Hix & _ & Hmp).
  cbn [container calls index] in *.
  destruct (create_afterNew env params _) as [[e|] w2]; cbn [fst snd] in *;
    [discriminate|].
  intros [= <-]. split; [reflexivity|].
  destruct (Hmp eq_refl) as [Happlies _]. split.
  - rewrite Hix.
    assert (registers env c0 = true) as ->.
    { unfold appliesMounts in Happlies.
      do 3 (apply andb_true_iff in Happlies as [Happlies _]).
      exact Happlies. }
    rewrite Hid. apply elem_of_union_l, elem_of_singleton. reflexivity.
  - assert (callsSince (calls w) w2 = (create_prefix params ++ added)%list)
      as ->.
    { apply callsSince_app. rewrite Hcalls.
      rewrite <- app_assoc. reflexivity. }
    apply in_app_iff. left. exact Hnew.
Qed.

Lemma create_appends (env : Env) (params : ContainerCreateConfig)
  (w : World) :
  exists added,
    calls (snd (create env params w)) = (calls w ++ added)%list.
Proof.
  rewrite create_run.
  destruct (imageOf env params) as [img|e0]; [|eexists; reflexivity].
  destruct (r_mergeAndVerifyConfig env) as [e1|]; [eexists; reflexivity|].
  destruct (r_newContainer env (Name params) img) as [c0|e2];
    [|eexists; reflexivity].
  cbv zeta.
  destruct (create_afterNew_run env params
              (mkWorld c0 (index w) (calls w ++ create_prefix params)))
    as (added & Hcalls & _).
  cbn [calls] in Hcalls.
  destruct (create_afterNew env params _) as [[e|] w2]; cbn [fst snd] in *.
  - rewrite create_defer_ContainerRm_run. cbn [calls].
    rewrite Hcalls, <- !app_assoc. eexists; reflexivity.
  - rewrite Hcalls, <- !app_assoc. eexists; reflexivity.
Qed.

Import DaemonApi.

#[local] Arguments create : simpl never.

(** X15.  [ContainerCreate] answers with an identifier only when it
    succeeds, and then with the identifier of a container that is in the
    index of the daemon; every error response has the empty identifier.
    A nil [Config] is refused before anything is called.  When one of the
    two checks of the request fails, [create] is not entered: the only call
    made is [verifyContainerSettings], and neither the container nor the
    index changes.  The warnings of [verifyContainerSettings] are part of
    every response, also of the error responses, except after a nil
    [Config] and after a refused networking configuration, where the
    warnings are dropped. *)
Theorem ContainerCreate_response :
  forall (env : ApiEnv) (params : CreateRequest) (w : World),
    let resp := fst (fst (ContainerCreate env params w)) in
    let err := snd (fst (ContainerCreate env params w)) in
    let w' := snd (ContainerCreate env params w) in
    (err <> None -> resp_ID resp = "") /\
    (err = None ->
     resp_ID resp = ID (container w') /\
     (resp_ID resp ∈ index w') /\
     In (newContainer (req_Name params)) (callsSince (calls w) w')) /\
    (req_Config params = None ->
     err = Some errConfigEmpty /\ Warnings resp = [] /\ w' = w) /\
    (req_Config params <> None ->
     (forall e,
        r_verifyContainerSettings (daemonEnv env) = Some e ->
        err = Some e /\ Warnings resp = verifyWarnings env /\
        w' = mkWorld (container w) (index w)
               (calls w ++ [verifyContainerSettings])) /\
     (r_verifyContainerSettings (daemonEnv env) = None ->
      forall e,
        r_verifyNetworkingConfig env = Some e ->
        err = Some e /\ Warnings resp = [] /\
        w' = mkWorld (container w) (index w)
               (calls w ++ [verifyContainerSettings])) /\
     (r_verifyContainerSettings (daemonEnv env) = None ->
      r_verifyNetworkingConfig env = None ->
      Warnings resp = verifyWarnings env /\
      firstn 2 (callsSince (calls w) w') =
        [verifyContainerSettings; adaptContainerSettings])).
Proof.
  intros env params w. cbv zeta.
  destruct w as [c ix cs].
  unfold ContainerCreate.
  destruct (req_Config params) as [config|].
  2:{ cbn. split; [reflexivity|]. split; [discriminate|].
      split; [tauto|]. intros H. destruct (H eq_refl). }
  unfold invoke. exec.
  destruct (r_verifyContainerSettings (daemonEnv env)) as [e1|] eqn:Hv.
  { cbn. split; [reflexivity|]. split; [discriminate|].
    split; [discriminate|]. intros _.
    split; [intros e [= <-]; tauto|]. split; discriminate. }
  destruct (r_verifyNetworkingConfig env) as [e2|] eqn:Hn.
  { cbn. split; [reflexivity|]. split; [discriminate|].
    split; [discriminate|]. intros _.
    split; [discriminate|].
    split; [intros _ e [= <-]; tauto|discriminate]. }
  exec.
  match goal with
  | |- context [r_adaptContainerSettings _ ?h] =>
      destruct (r_adaptContainerSettings (daemonEnv env) h) as [h'|e3]
  end.
  2:{ cbn. split; [reflexivity|]. split; [discriminate|].
      split; [discriminate|]. intros _.
      split; [discriminate|]. split; [discriminate|].
      intros _ _. split; [reflexivity|].
      rewrite <- ?app_assoc. since. reflexivity. }
  unfold bind.
  match goal with
  | |- context [create ?e ?p ?w0] =>
      pose proof (create_ok_indexed e p w0) as Hok;
      destruct (create_appends e p w0) as [added Hadd];
      destruct (create e p w0) as [[c1|e4] w1] eqn:Hc
  end; cbn [fst snd calls] in *.
  - destruct (Hok c1 eq_refl) as (-> & Hin & Hnew).
    assert (callsSince cs w1 =
            verifyContainerSettings :: adaptContainerSettings :: added)
      as Hsince.
    { apply callsSince_app. rewrite Hadd, <- !app_assoc. reflexivity. }
    assert (callsSince
              ((cs ++ [verifyContainerSettings]) ++ [adaptContainerSettings])
              w1 = added) as Hsince'.
    { apply callsSince_app. exact Hadd. }
    rewrite Hsince' in Hnew.
    cbn [fst snd resp_ID Warnings]. unfold callsSince in Hsince.
    rewrite Hsince.
    split; [intros H; destruct (H eq_refl)|].
    split; [intros _; split; [reflexivity|split; [exact Hin|]];
            right; right; exact Hnew|].
    split; [discriminate|]. intros _.
    split; [discriminate|]. split; [discriminate|].
    intros _ _. split; reflexivity.
  - assert (callsSince cs w1 =
            verifyContainerSettings :: adaptContainerSettings :: added)
      as Hsince.
    { apply callsSince_app. rewrite Hadd, <- !app_assoc. reflexivity. }
    cbn [fst snd resp_ID Warnings]. unfold callsSince in Hsince.
    rewrite Hsince.
    split; [reflexivity|]. split; [discriminate|].
    split; [discriminate|]. intros _.
    split; [discriminate|]. split; [discriminate|].
    intros _ _. split; reflexivity.
Qed.

(** X16.  [VolumeCreate] asks the store for one volume, under the name it
    was given or, when that name is empty, under the identifier
    [GenerateNonCryptoID] returns; so, as long as the generator returns a
    non-empty identifier, the store never sees an empty name.  The
    generator is called only for an empty name.  The "create" event is
    logged exactly when the store made the volume, as the last call, and
    it carries the name and the driver the stored volume reports.  A name
    conflict is reported with the name that was used, the generated one
    included; any other error of the store is returned as it is. *)
Theorem VolumeCreate_outcome :
  forall (env : VolumeEnv) (name driverName : string)
    (opts labels : list (string * string)) (l : list VolumeCall),
    r_GenerateNonCryptoID env <> "" ->
    let r := VolumeCreate env name driverName opts labels l in
    let used :=
      if String.eqb name "" then r_GenerateNonCryptoID env else name in
    used <> "" /\
    snd r =
      (l ++ (if String.eqb name "" then [GenerateNonCryptoID] else []) ++
       volumes_Create used driverName opts labels ::
       match r_volumes_Create env used driverName with
       | Ok v => [LogVolumeEvent (volume_Name v) "create"
                    [("driver", volume_DriverName v)]]
       | Err _ => []
       end)%list /\
    fst r =
      match r_volumes_Create env used driverName with
      | Ok v => Ok v
      | Err err =>
          Err (if IsNameConflict env err then errVolumeExists used else err)
      end.
Proof.
  intros env name driverName opts labels l Hgen. cbv zeta.
  unfold VolumeCreate, volumeCall, bind, modify, ret.
  destruct (String.eqb name "") eqn:Hname.
  - split; [exact Hgen|].
    destruct (r_volumes_Create env (r_GenerateNonCryptoID env) driverName)
      as [v|err]; [|destruct (IsNameConflict env err)]; cbn;
      rewrite <- ?app_assoc; cbn; split; reflexivity.
  - apply String.eqb_neq in Hname. split; [exact Hname|].
    destruct (r_volumes_Create env name driverName)
      as [v|err]; [|destruct (IsNameConflict env err)]; cbn;
      rewrite <- ?app_assoc; cbn; split; reflexivity.
Qed.

(** A volume created without a name, on a store that reports a conflict
    for the generated identifier. *)
Lemma VolumeCreate_outcome_witness :
  "4f2a" <> "" /\
  VolumeCreate
    (mkVolumeEnv "4f2a" (fun _ _ => Err (Errorf "conflict")) (fun _ => true))
    "" "local" [] [] [] =
  (Err (errVolumeExists "4f2a"),
   [GenerateNonCryptoID; volumes_Create "4f2a" "local" [] []]).
Proof.
  destruct (VolumeCreate_outcome
              (mkVolumeEnv "4f2a"
                 (fun _ _ => Err (Errorf "conflict")) (fun _ => true))
              "" "local" [] [] []) as (Hused & Hcalls & Hres).
  - cbn. discriminate.
  - split; [exact Hused|].
    rewrite (surjective_pairing (VolumeCreate _ _ _ _ _ _)).
    rewrite Hcalls, Hres. reflexivity.
Defined.

(** A request without a host configuration on the sample daemon: the
    response carries the identifier of the new container and the warnings
    of the check. *)
Example ContainerCreate_on_sample_daemon :
  fst (ContainerCreate
         (mkApiEnv Samples.env_ok ["no swap limit support"] None (fun e => e))
         (mkCreateRequest "web" (Some (mkConfig "busybox")) None None false)
         (Samples.world_of (Samples.sample_container ""))) =
  (mkResponse "4fa6e0f0c678" ["no swap limit support"], None).
Proof. reflexivity. Qed.
End DaemonFacts.

(** ** Package libcontainerd *)
Module LibcontainerdFacts.
Import Go StateM Libcontainerd.
Local Open Scope go_scope.

#[local] Arguments clean : simpl never.
#[local] Arguments cleanProcess : simpl never.
#[local] Arguments spec : simpl never.
#[local] Arguments start : simpl never.
#[local] Arguments run_notifyEvent : simpl never.
#[local] Arguments run_notifyRestartCanceled : simpl never.
#[local] Arguments runWaiter : simpl never.
#[local] Arguments handleEvent : simpl never.
#[local] Arguments clean_calls : simpl never.
#[local] Arguments cleanProcess_calls : simpl never.

Lemma client_call_run (c : Call) (w : World) :
  call c w =
  (tt, mkWorld (ctr w) (containers w) (q w) (goroutines w) (vars w)
         (calls w ++ [c])).
Proof. reflexivity. Qed.

Lemma lookup_new (l : list StateInfo) (v : StateInfo) :
  ((l ++ [v])%list) !! length l = Some v.
Proof. induction l as [|x l IH]; [reflexivity|exact IH]. Qed.

Lemma alter_new (f : StateInfo -> StateInfo) (l : list StateInfo)
  (v : StateInfo) :
  alter f (length l) (l ++ [v])%list = (l ++ [f v])%list.
Proof.
  induction l as [|x l IH]; [reflexivity|].
  cbn. f_equal. exact IH.
Qed.

Ltac exec1 :=
  unfold orReturn, invoke, getCtr, updateCtr, go, q_append, appendContainer,
    deleteContainer, newVar, readVar, updateVar, bind, ret;
  repeat (rewrite client_call_run; cbn);
  unfold modify; cbn;
  rewrite ?alter_new, ?lookup_new; cbn.

Ltac exec := repeat (progress exec1).

Ltac norm_calls := repeat (rewrite <- app_assoc; cbn).

Section WithConsts.
Variable InitFriendlyName : string.
Variable configFilename : string.
Variable container_fifo : container -> Z -> string.
Variable process_fifo : process -> Z -> string.
Variable filepath_Join : string -> string -> string.

Abbreviation start' := (start configFilename container_fifo filepath_Join).
Abbreviation handleEvent' := (handleEvent InitFriendlyName process_fifo).
Abbreviation runWaiter' :=
  (runWaiter configFilename container_fifo filepath_Join).

Lemma clean_run (env : Env) (w : World) :
  snd (clean env w) =
  mkWorld (ctr w) (containers w) (q w) (goroutines w) (vars w)
    (calls w ++ clean_calls env (ctr w)).
Proof.
  destruct w as [c cs qs gs vs ls].
  unfold clean, clean_calls.
  destruct (String.eqb (os_Getenv env "LIBCONTAINERD_NOCLEAN") "1"); cbn.
  - rewrite app_nil_r. reflexivity.
  - exec. destruct (os_Lstat env (dir c)) as [err|]; cbn.
    + destruct (os_IsNotExist env err); reflexivity.
    + exec. destruct (os_RemoveAll env (dir c)); cbn; norm_calls;
        reflexivity.
Qed.

Lemma cleanProcess_run (env : Env) (id : string) (w : World) :
  cleanProcess process_fifo env id w =
  (tt, mkWorld (set_processes (delete id (processes (ctr w))) (ctr w))
         (containers w) (q w) (goroutines w) (vars w)
         (calls w ++ cleanProcess_calls process_fifo env (ctr w) id)).
Proof.
  destruct w as [c cs qs gs vs ls].
  unfold cleanProcess, cleanProcess_calls, removeFifo_calls,
    syscall_Stdin, syscall_Stdout, syscall_Stderr. exec.
  destruct (processes c !! id) as [p|]; cbn.
  - exec.
    destruct (os_Remove env (process_fifo p 0)); cbn; exec;
      (destruct (os_Remove env (process_fifo p 1)); cbn; exec);
      (destruct (os_Remove env (process_fifo p 2)); cbn; exec);
      norm_calls; reflexivity.
  - rewrite app_nil_r. reflexivity.
Qed.

(** C10.  When the configuration file of the bundle cannot be read or
    decoded ([spec] fails), [start] returns nil: no fifo is opened, no
    create RPC is issued, the container is not added to the registry of the
    client and no [StateInfo] is delivered; the only call made is the read
    of the file.  A start in which every step succeeds returns nil as well,
    so the result does not tell the two apart. *)
Theorem start_ignores_spec_error :
  forall (env : Env) (w : World),
    (forall err,
       ioutil_ReadFile env (filepath_Join (dir (ctr w)) configFilename) =
         Err err \/
       (exists dt,
          ioutil_ReadFile env (filepath_Join (dir (ctr w)) configFilename) =
            Ok dt /\
          json_Unmarshal env dt = Err err) ->
       start' env w =
         (None,
          mkWorld (ctr w) (containers w) (q w) (goroutines w) (vars w)
            (calls w ++
             [ReadFile (filepath_Join (dir (ctr w)) configFilename)]))) /\
    (forall dt s iopipe pid,
       ioutil_ReadFile env (filepath_Join (dir (ctr w)) configFilename) =
         Ok dt ->
       json_Unmarshal env dt = Ok s ->
       r_openFifos env (Terminal s) = Ok iopipe ->
       (forall r, r_CreateContainer env r = Ok pid) ->
       r_AttachStreams env = None ->
       (forall id st, r_StateChanged env id st = None) ->
       fst (start' env w) = None /\
       In (StateChanged (containerID (ctr w))
             (mkStateInfo StateStart pid 0 "" false))
          (calls (snd (start' env w)))).
Proof.
  intros env w. destruct w as [c cs qs gs vs ls]. cbn [ctr containers q
    goroutines vars calls]. split.
  - intros err H. unfold start, spec. exec.
    destruct H as [H|(dt & H & H')].
    + rewrite H. reflexivity.
    + rewrite H, H'. reflexivity.
  - intros dt s iopipe pid Hread Hjson Hfifo Hcreate Hattach Hchanged.
    unfold start, spec. exec. rewrite Hread, Hjson. cbn. exec.
    rewrite Hfifo. cbn. exec. rewrite Hcreate. cbn. exec.
    rewrite Hattach. cbn. exec. rewrite Hchanged. cbn.
    split; [reflexivity|].
    rewrite !in_app_iff. right. left. reflexivity.
Qed.

Lemma cleanProcess_calls_only_remove (env : Env) (c : container)
  (id : string) (x : Call) :
  In x (cleanProcess_calls process_fifo env c id) ->
  (exists path, x = Remove path) \/
  (exists path err, x = Warnf_remove path id err).
Proof.
  unfold cleanProcess_calls, removeFifo_calls.
  destruct (processes c !! id) as [p|]; [|intros []].
  rewrite !in_app_iff. cbn.
  destruct (os_Remove env (process_fifo p 0)),
           (os_Remove env (process_fifo p 1)),
           (os_Remove env (process_fifo p 2)); cbn; intros H;
    repeat (destruct H as [H|H]);
    try (destruct H); subst; eauto.
Qed.

Lemma handleEvent_subprocess_exit_run (env : Env) (e : Event) (w : World) :
  Type_ e = StateExit ->
  Pid e <> InitFriendlyName ->
  handleEvent' env e w =
  (None,
   mkWorld (set_processes (delete (Pid e) (processes (ctr w))) (ctr w))
     (containers w)
     (q w ++ [(Id e, notifyEvent e (length (vars w)))])
     (goroutines w)
     (vars w ++ [mkStateInfo StateExitProcess 0 (Status e) (Pid e)
                   (oom (ctr w))])
     (calls w ++ [client_lock (containerID (ctr w))] ++
      cleanProcess_calls process_fifo env (ctr w) (Pid e) ++
      [client_unlock (containerID (ctr w))])).
Proof.
  intros Htype Hpid. destruct w as [c cs qs gs vs ls].
  apply String.eqb_neq in Hpid.
  unfold handleEvent. exec. rewrite Htype. cbn. exec.
  rewrite Hpid. cbn. exec.
  rewrite cleanProcess_run. cbn. exec. norm_calls. reflexivity.
Qed.

(** C6.  For an Exit event whose process identifier is not the name of the
    init process, [handleEvent] returns nil after queueing one function
    which, when the queue runs it, hands the bridge a [StateInfo] of state
    [StateExitProcess] carrying that process identifier.  The restart
    manager is not consulted, no goroutine is started, the container stays
    in the registry of the client, its directory is not cleaned, and the
    only files removed are the fifos of that process, which is then
    dropped from the processes of the container. *)
Theorem handleEvent_subprocess_exit :
  forall (env : Env) (e : Event) (w : World),
    Type_ e = StateExit ->
    Pid e <> InitFriendlyName ->
    exists st added,
      fst (handleEvent' env e w) = None /\
      q (snd (handleEvent' env e w)) = (q w ++ [(Id e, notifyEvent e st)])%list /\
      fst (readVar st (snd (handleEvent' env e w))) =
        mkStateInfo StateExitProcess 0 (Status e) (Pid e) (oom (ctr w)) /\
      (exists after,
         calls (snd (run_notifyEvent env e st (snd (handleEvent' env e w)))) =
           (calls (snd (handleEvent' env e w)) ++
            StateChanged (Id e)
              (mkStateInfo StateExitProcess 0 (Status e) (Pid e)
                 (oom (ctr w))) :: after)%list) /\
      containers (snd (handleEvent' env e w)) = containers w /\
      goroutines (snd (handleEvent' env e w)) = goroutines w /\
      ctr (snd (handleEvent' env e w)) =
        set_processes (delete (Pid e) (processes (ctr w))) (ctr w) /\
      calls (snd (handleEvent' env e w)) = (calls w ++ added)%list /\
      added =
        ([client_lock (containerID (ctr w))] ++
         cleanProcess_calls process_fifo env (ctr w) (Pid e) ++
         [client_unlock (containerID (ctr w))])%list /\
      (forall x, In x added ->
         isShouldRestart x = false /\ isDirectoryCleanup x = false).
Proof.
  intros env e w Htype Hpid.
  rewrite (handleEvent_subprocess_exit_run env e w Htype Hpid).
  cbn [fst snd q containers goroutines ctr calls].
  eexists. eexists. split; [reflexivity|]. split; [reflexivity|].
  split; [unfold readVar; cbn; rewrite lookup_new; reflexivity|].
  split.
  { unfold run_notifyEvent. exec.
    destruct (r_StateChanged env _ _); cbn; exec; rewrite Htype; cbn;
      (destruct (r_getExitNotifier env (Id e)); cbn; exec);
      eexists; norm_calls; reflexivity. }
  repeat (split; [reflexivity|]).
  intros x. rewrite !in_app_iff. cbn.
  intros [[<-|[]]|[H|[<-|[]]]]; try (split; reflexivity).
  destruct (cleanProcess_calls_only_remove env _ _ _ H)
    as [[path ->]|(path & err & ->)]; split; reflexivity.
Qed.

Lemma handleEvent_restart_run (env : Env) (e : Event) (w : World)
  (rm wait : nat) :
  Type_ e = StateExit ->
  Pid e = InitFriendlyName ->
  restartManager (ctr w) = Some rm ->
  r_ShouldRestart env (Status e) false (time_Now env - startedAt (ctr w)) =
    (true, wait, None) ->
  handleEvent' env e w =
  (None,
   mkWorld (set_restarting true (ctr w))
     (containers w ∖ {[ Id e ]})
     (q w ++ [(Id e, notifyEvent e (length (vars w)))])
     (goroutines w ++ [mkWaiter wait e (length (vars w))])
     (vars w ++ [mkStateInfo StateRestart 0 (Status e) "" (oom (ctr w))])
     (calls w ++
      [client_lock (containerID (ctr w));
       ShouldRestart (Status e) false (time_Now env - startedAt (ctr w));
       client_unlock (containerID (ctr w))])).
Proof.
  intros Htype Hpid Hrm Hdecision. destruct w as [c cs qs gs vs ls].
  cbn in Hrm, Hdecision.
  unfold handleEvent, time_Since. exec. rewrite Htype. cbn. exec.
  rewrite Hpid, String.eqb_refl. cbn. exec.
  rewrite Hrm. cbn. exec. rewrite Hdecision. cbn. exec.
  norm_calls. reflexivity.
Qed.

Lemma run_notifyEvent_delivers (env : Env) (e : Event) (st : nat)
  (w : World) :
  exists after,
    calls (snd (run_notifyEvent env e st w)) =
      (calls w ++ StateChanged (Id e) (fst (readVar st w)) :: after)%list.
Proof.
  destruct w as [c cs qs gs vs ls].
  unfold run_notifyEvent. exec.
  destruct (r_StateChanged env _ _); cbn; exec;
    (destruct (Type_ e); cbn; exec);
    try (destruct (r_getExitNotifier env (Id e)); cbn; exec);
    eexists; norm_calls; reflexivity.
Qed.

Lemma run_notifyRestartCanceled_delivers (env : Env) (e : Event) (st : nat)
  (w : World) :
  exists after,
    calls (snd (run_notifyRestartCanceled env e st w)) =
      (calls w ++ StateChanged (Id e) (fst (readVar st w)) :: after)%list.
Proof.
  destruct w as [c cs qs gs vs ls].
  unfold run_notifyRestartCanceled. exec.
  destruct (r_StateChanged env _ _); cbn; exec;
    eexists; norm_calls; reflexivity.
Qed.

Lemma runWaiter_elapsed (env : Env) (g : Waiter) (w : World) :
  runWaiter' env g None w =
  (tt, unlocked (containerID (ctr w)) (snd (start' env (lockedForRestart w)))).
Proof.
  destruct w as [c cs qs gs vs ls].
  unfold runWaiter, unlocked, lockedForRestart. exec.
  destruct (start' env _) as [r w']. reflexivity.
Qed.

Lemma runWaiter_failed (env : Env) (g : Waiter) (err : waitError)
  (w : World) :
  runWaiter' env g (Some err) w =
  (tt,
   mkWorld (set_restarting false (ctr w)) (containers w)
     (q w ++ [(Id (waiter_e g), notifyRestartCanceled (waiter_e g)
                                  (waiter_st g))])
     (goroutines w)
     (alter (set_State StateExit) (waiter_st g) (vars w))
     (calls w ++ [client_lock (containerID (ctr w))] ++
      clean_calls env (set_restarting false (ctr w)) ++
      waitError_calls err ++
      [client_unlock (containerID (ctr w))])).
Proof.
  destruct w as [c cs qs gs vs ls]. unfold runWaiter. exec.
  pose proof (clean_run env
    (mkWorld (set_restarting false c) cs qs gs
       (alter (set_State StateExit) (waiter_st g) vs)
       (ls ++ [client_lock (containerID c)]))) as Hclean.
  destruct (clean env _) as [r w']. cbn in Hclean. subst w'. cbn.
  destruct err; cbn; exec; norm_calls; reflexivity.
Qed.

Lemma readVar_alter_State (s : state) (st : nat) (w : World) :
  (st < length (vars w))%nat ->
  State (fst (readVar st
    (mkWorld (ctr w) (containers w) (q w) (goroutines w)
       (alter (set_State s) st (vars w)) (calls w)))) = s.
Proof.
  intros Hlt. unfold readVar. cbn. rewrite list_lookup_alter_eq.
  destruct (lookup_lt_is_Some_2 _ _ Hlt) as [v ->]. reflexivity.
Qed.

(** The restart manager of a container is consulted once for the exit of
    its init process, whatever it answers. *)
Lemma handleEvent_init_exit_consults (env : Env) (e : Event) (w : World)
  (rm : nat) :
  Type_ e = StateExit ->
  Pid e = InitFriendlyName ->
  restartManager (ctr w) = Some rm ->
  exists added,
    calls (snd (handleEvent' env e w)) = (calls w ++ added)%list /\
    List.filter isShouldRestart added =
      [ShouldRestart (Status e) false (time_Now env - startedAt (ctr w))].
Proof.
  intros Htype Hpid Hrm. destruct w as [c cs qs gs vs ls]. cbn in Hrm.
  unfold handleEvent, time_Since. exec.
  rewrite Htype. cbn. exec. rewrite Hpid, String.eqb_refl. cbn. exec.
  rewrite Hrm. cbn. exec.
  destruct (r_ShouldRestart env _ _ _) as [[[|] wait] [err|]]; cbn; exec;
    try (match goal with
         | |- context [clean env ?w0] =>
             pose proof (clean_run env w0) as Hclean;
             destruct (clean env w0) as [r w1]; cbn in Hclean; subst w1
         end; cbn; exec);
    norm_calls; (eexists; split; [reflexivity|]);
    unfold clean_calls; cbn;
    repeat (match goal with
            | |- context [if ?b then _ else _] => destruct b
            | |- context [match os_Lstat ?a ?b with _ => _ end] =>
                destruct (os_Lstat a b)
            end; cbn);
    reflexivity.
Qed.


(** *** The [oom] flag along executions *)

Lemma varsKept_refl (w : World) : varsKept w w.
Proof. intros i v H. exists v. split; [exact H|reflexivity]. Qed.

Lemma varsKept_trans (w1 w2 w3 : World) :
  varsKept w1 w2 -> varsKept w2 w3 -> varsKept w1 w3.
Proof.
  intros H12 H23 i v H. destruct (H12 i v H) as (v2 & H2 & E2).
  destruct (H23 i v2 H2) as (v3 & H3 & E3).
  exists v3. split; [exact H3|congruence].
Qed.

Lemma sameOom_refl (w : World) : sameOom w w.
Proof. split; [reflexivity|apply varsKept_refl]. Qed.

Lemma sameOom_trans (w1 w2 w3 : World) :
  sameOom w1 w2 -> sameOom w2 w3 -> sameOom w1 w3.
Proof.
  intros [E12 K12] [E23 K23]. split; [congruence|].
  exact (varsKept_trans _ _ _ K12 K23).
Qed.

Lemma keeps_ret {A : Type} (a : A) : keepsOom (ret a).
Proof. intros w. apply sameOom_refl. Qed.

Lemma keeps_bind {A B : Type} (m : M World A) (k : A -> M World B) :
  keepsOom m -> (forall a, keepsOom (k a)) -> keepsOom (bind m k).
Proof.
  intros Hm Hk w. unfold bind. specialize (Hm w).
  destruct (m w) as [a w1]. cbn in Hm.
  exact (sameOom_trans _ _ _ Hm (Hk a w1)).
Qed.

Lemma keeps_orReturn (m k : M World (option error)) :
  keepsOom m -> keepsOom k -> keepsOom (orReturn m k).
Proof.
  intros Hm Hk. apply keeps_bind; [exact Hm|].
  intros [err|]; [apply keeps_ret|exact Hk].
Qed.

Lemma keeps_frame {A : Type} (m : M World A) :
  (forall w, ctr (snd (m w)) = ctr w /\ vars (snd (m w)) = vars w) ->
  keepsOom m.
Proof.
  intros H w. destruct (H w) as [Hc Hv]. split; [rewrite Hc; reflexivity|].
  intros i v Hi. exists v. rewrite Hv. split; [exact Hi|reflexivity].
Qed.

Lemma keeps_call (c : Call) : keepsOom (call c).
Proof. apply keeps_frame. intros w. split; reflexivity. Qed.

Lemma keeps_invoke (c : Call) (r : option error) : keepsOom (invoke c r).
Proof. apply keeps_frame. intros w. split; reflexivity. Qed.

Lemma keeps_getCtr : keepsOom getCtr.
Proof. apply keeps_frame. intros w. split; reflexivity. Qed.

Lemma keeps_readVar (st : nat) : keepsOom (readVar st).
Proof. apply keeps_frame. intros w. split; reflexivity. Qed.

Lemma keeps_go (g : Waiter) : keepsOom (go g).
Proof. apply keeps_frame. intros w. split; reflexivity. Qed.

Lemma keeps_q_append (id : string) (f : Callback) : keepsOom (q_append id f).
Proof. apply keeps_frame. intros w. split; reflexivity. Qed.

Lemma keeps_appendContainer : keepsOom appendContainer.
Proof. apply keeps_frame. intros w. split; reflexivity. Qed.

Lemma keeps_deleteContainer (id : string) : keepsOom (deleteContainer id).
Proof. apply keeps_frame. intros w. split; reflexivity. Qed.

Lemma keeps_updateCtr (f : container -> container) :
  (forall c, oom (f c) = oom c) -> keepsOom (updateCtr f).
Proof.
  intros Hf w. split; [apply Hf|].
  intros i v Hi. exists v. split; [exact Hi|reflexivity].
Qed.

Lemma keeps_newVar (v : StateInfo) : keepsOom (newVar v).
Proof.
  intros w. split; [reflexivity|]. intros i x Hi. exists x.
  split; [|reflexivity]. cbn. apply lookup_app_l_Some. exact Hi.
Qed.

Lemma keeps_updateVar (st : nat) (f : StateInfo -> StateInfo) :
  (forall v, OOMKilled (f v) = OOMKilled v) -> keepsOom (updateVar st f).
Proof.
  intros Hf w. split; [reflexivity|]. intros i x Hi. cbn.
  destruct (decide (st = i)) as [->|Hne].
  - exists (f x). rewrite list_lookup_alter_eq, Hi. split; [reflexivity|].
    apply Hf.
  - exists x. rewrite list_lookup_alter_ne by exact Hne.
    split; [exact Hi|reflexivity].
Qed.

Lemma keeps_forEach {A : Type} (xs : list A) (f : A -> M World unit) :
  (forall x, keepsOom (f x)) -> keepsOom (forEach xs f).
Proof.
  intros Hf. induction xs as [|x xs IH]; cbn.
  - apply keeps_ret.
  - apply keeps_bind; [apply Hf|]. intros _. exact IH.
Qed.

Ltac keeps_step :=
  first
    [ apply keeps_ret | apply keeps_call | apply keeps_invoke
    | apply keeps_getCtr | apply keeps_readVar | apply keeps_go
    | apply keeps_q_append | apply keeps_appendContainer
    | apply keeps_deleteContainer | apply keeps_newVar
    | apply keeps_updateCtr; intros []; reflexivity
    | apply keeps_updateVar; intros []; reflexivity
    | apply keeps_forEach | apply keeps_orReturn | apply keeps_bind
    | match goal with
      | |- keepsOom (match ?x with _ => _ end) => destruct x
      end
    | progress cbv beta zeta
    | intro ].

Ltac keeps := repeat keeps_step.

Lemma keeps_clean (env : Env) : keepsOom (clean env).
Proof. unfold clean. keeps. Qed.

Lemma keeps_cleanProcess (env : Env) (id : string) :
  keepsOom (cleanProcess process_fifo env id).
Proof. unfold cleanProcess. keeps. Qed.

Lemma keeps_start (env : Env) : keepsOom (start' env).
Proof. unfold start, spec. keeps. Qed.

Lemma keeps_runCallback (env : Env) (f : Callback) :
  keepsOom (runCallback env f).
Proof.
  destruct f; cbn; unfold run_notifyEvent, run_notifyRestartCanceled; keeps.
Qed.

Lemma keeps_runWaiter (env : Env) (g : Waiter) (err : option waitError) :
  keepsOom (runWaiter' env g err).
Proof.
  unfold runWaiter. keeps; first [apply keeps_clean | apply keeps_start].
Qed.

Lemma keeps_handleEvent (env : Env) (e : Event) :
  isOOM (Type_ e) = false -> keepsOom (handleEvent' env e).
Proof.
  intros Htype. unfold handleEvent.
  destruct (Type_ e); try discriminate; clear Htype;
    keeps; first [apply keeps_clean | apply keeps_cleanProcess].
Qed.

Abbreviation step' :=
  (Schedule.step InitFriendlyName configFilename container_fifo process_fifo filepath_Join).
Abbreviation run' :=
  (Schedule.run InitFriendlyName configFilename container_fifo process_fifo filepath_Join).

Lemma handleEvent_oom_run (env : Env) (e : Event) (w : World) :
  Type_ e = StateOOM ->
  handleEvent' env e w =
  (None,
   mkWorld (set_oom true (ctr w)) (containers w)
     (q w ++ [(Id e, notifyEvent e (length (vars w)))])
     (goroutines w)
     (vars w ++ [mkStateInfo StateOOM 0 (Status e) "" false])
     (calls w ++ [client_lock (containerID (ctr w));
                  client_unlock (containerID (ctr w))])).
Proof.
  intros Htype. destruct w as [c cs qs gs vs ls].
  unfold handleEvent. exec. rewrite Htype. cbn. exec.
  norm_calls. reflexivity.
Qed.

(** An event changes the [oom] flag only by setting it, and only when it is
    an OOM event. *)
Lemma handleEvent_oom_flag (env : Env) (e : Event) (w : World) :
  oom (ctr (snd (handleEvent' env e w))) = oom (ctr w) || isOOM (Type_ e) /\
  varsKept w (snd (handleEvent' env e w)).
Proof.
  destruct (isOOM (Type_ e)) eqn:Htype.
  - assert (Type_ e = StateOOM) as H
      by (revert Htype; destruct (Type_ e); cbn; congruence).
    rewrite (handleEvent_oom_run env e w H). cbn. split.
    + rewrite orb_true_r. reflexivity.
    + intros i v Hi. exists v. split; [|reflexivity].
      apply lookup_app_l_Some. exact Hi.
  - destruct (keeps_handleEvent env e Htype w) as [Ho Hv].
    rewrite orb_false_r. split; assumption.
Qed.

Lemma step_oom_flag (env : Env) (s : Schedule.Step) (w : World) :
  oom (ctr (snd (step' env s w))) = oom (ctr w) || Schedule.deliversOOM s /\
  varsKept w (snd (step' env s w)).
Proof.
  destruct s as [e| |n err]; cbn [Schedule.deliversOOM].
  - unfold Schedule.step, bind, ret.
    pose proof (handleEvent_oom_flag env e w) as H.
    destruct (handleEvent' env e w) as [r w']. exact H.
  - rewrite orb_false_r.
    assert (keepsOom (step' env Schedule.RunQueued)) as K.
    { unfold Schedule.step. apply keeps_bind.
      - apply keeps_frame. intros w0. unfold Schedule.dequeue.
        destruct (q w0) as [|[id f] rest]; split; reflexivity.
      - intros [f|]; [apply keeps_runCallback|apply keeps_ret]. }
    exact (K w).
  - rewrite orb_false_r.
    assert (keepsOom (step' env (Schedule.WaitEnds n err))) as K.
    { unfold Schedule.step. apply keeps_bind.
      - apply keeps_frame. intros w0. split; reflexivity.
      - intros [g|]; [apply keeps_runWaiter|apply keeps_ret]. }
    exact (K w).
Qed.

Lemma run_oom_flag (steps : list (Env * Schedule.Step)) (w : World) :
  oom (ctr (snd (run' steps w))) =
    oom (ctr w) || existsb (fun s => Schedule.deliversOOM (snd s)) steps /\
  varsKept w (snd (run' steps w)).
Proof.
  revert w. induction steps as [|[env s] steps IH]; intros w.
  - cbn. rewrite orb_false_r. split; [reflexivity|apply varsKept_refl].
  - cbn [Schedule.run existsb snd]. unfold bind.
    pose proof (step_oom_flag env s w) as [Ho Hv].
    destruct (step' env s w) as [u w1]. cbn [snd] in Ho, Hv.
    destruct (IH w1) as [Ho' Hv']. split.
    + rewrite Ho', Ho, orb_assoc. reflexivity.
    + exact (varsKept_trans _ _ _ Hv Hv').
Qed.

(** What the function queued by [handleEvent] for an Exit event hands to
    the bridge carries the [oom] flag the container had when the event was
    handled, whenever the queue runs it. *)
Lemma handleEvent_exit_reports_oom (env : Env) (e : Event) (w : World) :
  Type_ e = StateExit ->
  exists st,
    q (snd (handleEvent' env e w)) = (q w ++ [(Id e, notifyEvent e st)])%list /\
    forall (steps : list (Env * Schedule.Step)),
      OOMKilled (fst (readVar st
         (snd (run' steps (snd (handleEvent' env e w)))))) = oom (ctr w).
Proof.
  intros Htype. exists (length (vars w)).
  assert (q (snd (handleEvent' env e w)) =
            (q w ++ [(Id e, notifyEvent e (length (vars w)))])%list /\
          exists v, vars (snd (handleEvent' env e w)) !! length (vars w) =
                      Some v /\ OOMKilled v = oom (ctr w)) as [Hq Hv].
  { destruct w as [c cs qs gs vs ls]. unfold handleEvent. exec.
    rewrite Htype. cbn. exec.
    destruct (negb (String.eqb (Pid e) InitFriendlyName)); cbn; exec.
    - rewrite cleanProcess_run. cbn. exec. split; [reflexivity|].
      rewrite ?lookup_new. eexists. split; reflexivity.
    - destruct (restartManager c) as [rm|]; cbn; exec;
        [destruct (r_ShouldRestart env _ _ _) as [[[|] wait] [err|]];
         cbn; exec|];
        try (pose proof (clean_run env) as Hclean;
             match goal with
             | |- context [clean env ?w0] =>
                 specialize (Hclean w0); destruct (clean env w0) as [r w1]
             end;
             cbn in Hclean; subst w1; cbn; exec);
        (split; [reflexivity|]);
        rewrite ?lookup_new; eexists; split; reflexivity. }
  split; [exact Hq|]. intros steps.
  destruct Hv as (v & Hv & Ev).
  destruct (run_oom_flag steps (snd (handleEvent' env e w))) as [_ Hk].
  destruct (Hk _ _ Hv) as (v' & Hv' & Ev').
  unfold readVar. cbn. rewrite Hv'. cbn. congruence.
Qed.

(** C7.  An OOM event sets the [oom] flag of the container, and what is
    delivered for the OOM event itself has [OOMKilled] false.  The flag,
    once set, stays set through every later event, queued delivery and
    restart wait.  What is delivered for an Exit event has [OOMKilled] true
    when an OOM event was handled before it, and [OOMKilled] false when the
    flag was clear and no OOM event was handled before it.  In each case
    the function queued for the event hands the bridge the [StateInfo] held
    by the variable it captured. *)
Theorem oom_flag_is_sticky :
  forall (env : Env) (e : Event) (w : World),
    (Type_ e = StateOOM ->
     oom (ctr (snd (handleEvent' env e w))) = true /\
     exists st,
       q (snd (handleEvent' env e w)) =
         (q w ++ [(Id e, notifyEvent e st)])%list /\
       forall steps,
         OOMKilled (fst (readVar st
           (snd (run' steps (snd (handleEvent' env e w)))))) = false) /\
    (forall steps,
       oom (ctr w) = true -> oom (ctr (snd (run' steps w))) = true) /\
    (Type_ e = StateExit ->
     forall envO eO before between,
       Type_ eO = StateOOM ->
       exists st,
         q (snd (handleEvent' env e
              (snd (run' (before ++ (envO, Schedule.Deliver eO) :: between)
                      w)))) =
           (q (snd (run' (before ++ (envO, Schedule.Deliver eO) :: between)
                      w)) ++ [(Id e, notifyEvent e st)])%list /\
         forall steps,
           OOMKilled (fst (readVar st
             (snd (run' steps (snd (handleEvent' env e
                (snd (run' (before ++ (envO, Schedule.Deliver eO) :: between)
                        w))))))))
           = true) /\
    (Type_ e = StateExit ->
     forall history,
       oom (ctr w) = false ->
       existsb (fun s => Schedule.deliversOOM (snd s)) history = false ->
       exists st,
         q (snd (handleEvent' env e (snd (run' history w)))) =
           (q (snd (run' history w)) ++ [(Id e, notifyEvent e st)])%list /\
         forall steps,
           OOMKilled (fst (readVar st
             (snd (run' steps (snd (handleEvent' env e
                (snd (run' history w))))))))
           = false) /\
    (forall env' st w', exists after,
       calls (snd (run_notifyEvent env' e st w')) =
         (calls w' ++ StateChanged (Id e) (fst (readVar st w')) :: after)%list).
Proof.
  intros env e w. split; [|split; [|split; [|split]]].
  - intros Htype. rewrite (handleEvent_oom_run env e w Htype).
    cbn [fst snd ctr q]. split; [reflexivity|].
    exists (length (vars w)). split; [reflexivity|]. intros steps.
    match goal with
    | |- context [run' steps ?w0] =>
        destruct (run_oom_flag steps w0) as [_ Hk];
        destruct (Hk (length (vars w))
                    (mkStateInfo StateOOM 0 (Status e) "" false))
          as (v' & Hv' & Ev'); [apply lookup_new|]
    end.
    unfold readVar. cbn. rewrite Hv'. exact Ev'.
  - intros steps Hoom. destruct (run_oom_flag steps w) as [Ho _].
    rewrite Ho, Hoom. reflexivity.
  - intros Htype envO eO before between HtypeO.
    destruct (handleEvent_exit_reports_oom env e
                (snd (run' (before ++ (envO, Schedule.Deliver eO) :: between)
                        w)) Htype) as (st & Hq & Hrep).
    exists st. split; [exact Hq|]. intros steps. rewrite Hrep.
    destruct (run_oom_flag (before ++ (envO, Schedule.Deliver eO) :: between)
                w) as [Ho _].
    rewrite Ho, existsb_app. cbn. rewrite HtypeO. cbn.
    rewrite !orb_true_r. reflexivity.
  - intros Htype history Hoom Hnone.
    destruct (handleEvent_exit_reports_oom env e (snd (run' history w)) Htype)
      as (st & Hq & Hrep).
    exists st. split; [exact Hq|]. intros steps. rewrite Hrep.
    destruct (run_oom_flag history w) as [Ho _].
    rewrite Ho, Hoom, Hnone. reflexivity.
  - intros env' st w'. apply run_notifyEvent_delivers.
Qed.

(** *** Further properties of the container *)

Lemma handleEvent_unrecognized_run (env : Env) (e : Event) (w : World) :
  isHandled (Type_ e) = false ->
  handleEvent' env e w =
    (None,
     withCalls w
       (calls w ++ [client_lock (containerID (ctr w)); Debugf_unhandled e;
                    client_unlock (containerID (ctr w))])).
Proof.
  intros Htype. destruct w as [c cs qs gs vs ls].
  unfold handleEvent, withCalls. exec.
  destruct (Type_ e); try discriminate; cbn; exec; norm_calls; reflexivity.
Qed.

Lemma clean_frame (env : Env) (w : World) :
  exists r added,
    clean env w = (r, withCalls w (calls w ++ added)).
Proof.
  exists (fst (clean env w)), (clean_calls env (ctr w)).
  pose proof (clean_run env w) as H.
  destruct (clean env w) as [r w']. cbn in *. rewrite H. reflexivity.
Qed.

(** X1.  [handleEvent] never returns an error.  For an event of type Exit,
    Pause, Resume or OOM it queues exactly one function for the bridge,
    under the identifier of the event, whatever the restart manager and
    the file system answer.  Any other event is dropped: it is logged at
    debug level under the container lock, nothing is queued and neither the
    container, the registry nor the goroutines change. *)
Theorem handleEvent_queues_one_delivery :
  forall (env : Env) (e : Event) (w : World),
    fst (handleEvent' env e w) = None /\
    q (snd (handleEvent' env e w)) =
      (q w ++ if isHandled (Type_ e)
              then [(Id e, notifyEvent e (length (vars w)))]
              else [])%list /\
    (isHandled (Type_ e) = false ->
     snd (handleEvent' env e w) =
       withCalls w
         (calls w ++ [client_lock (containerID (ctr w)); Debugf_unhandled e;
                      client_unlock (containerID (ctr w))])).
Proof.
  intros env e w. destruct (isHandled (Type_ e)) eqn:Htype.
  - destruct w as [c cs qs gs vs ls]. unfold handleEvent. exec.
    destruct (Type_ e); try discriminate; cbn; exec;
      try (repeat split; (reflexivity || discriminate)).
    destruct (negb (String.eqb (Pid e) InitFriendlyName)); cbn; exec.
    + rewrite cleanProcess_run. cbn. exec.
      repeat split; (reflexivity || discriminate).
    + destruct (restartManager c) as [rm|]; cbn; exec;
        [destruct (r_ShouldRestart env _ _ _) as [[[|] wait] [err|]];
         cbn; exec|];
        try (match goal with
             | |- context [clean env ?w0] =>
                 destruct (clean_frame env w0) as (r & added & ->)
             end; cbn; exec);
        repeat split; (reflexivity || discriminate).
  - rewrite (handleEvent_unrecognized_run env e w Htype). cbn.
    rewrite app_nil_r. repeat split.
Qed.

(** X2.  The exit of the init process always takes the container out of
    the registry of the client.  When no restart follows (there is no
    restart manager, or it answers "no restart", or it fails, in which case
    the failure is only logged), the exit is terminal: the state queued for
    the bridge is [StateExit] with the exit status of the event, the
    directory cleanup runs, no goroutine is started and the container
    record is left as it was. *)
Theorem handleEvent_init_exit :
  forall (env : Env) (e : Event) (w : World),
    Type_ e = StateExit ->
    Pid e = InitFriendlyName ->
    (Id e ∉ containers (snd (handleEvent' env e w))) /\
    (restarts env e (ctr w) = false ->
     snd (handleEvent' env e w) =
       mkWorld (ctr w) (containers w ∖ {[ Id e ]})
         (q w ++ [(Id e, notifyEvent e (length (vars w)))])
         (goroutines w)
         (vars w ++ [mkStateInfo StateExit 0 (Status e) "" (oom (ctr w))])
         (calls w ++ [client_lock (containerID (ctr w))] ++
          consult_calls env e (ctr w) ++ clean_calls env (ctr w) ++
          [client_unlock (containerID (ctr w))])).
Proof.
  intros env e w Htype Hpid.
  assert (forall (X : gset string) (x : string), x ∉ X ∖ {[ x ]}) as Hnot.
  { intros X x. apply not_elem_of_difference. right.
    apply elem_of_singleton. reflexivity. }
  destruct w as [c cs qs gs vs ls].
  unfold restarts, consult_calls, handleEvent, time_Since. exec.
  rewrite Htype. cbn. exec. rewrite Hpid, String.eqb_refl. cbn. exec.
  destruct (restartManager c) as [rm|]; cbn; exec;
    [destruct (r_ShouldRestart env _ _ _) as [[[|] wait] [err|]];
     cbn; exec|];
    try (match goal with
         | |- context [clean env ?w0] =>
             pose proof (clean_run env w0) as Hclean;
             destruct (clean env w0) as [r w1]; cbn in Hclean; subst w1
         end; cbn; exec);
    (split; [apply Hnot|]);
    first [discriminate|intros _; norm_calls; reflexivity].
Qed.

(** X3.  A Pause or Resume event neither changes the container nor the
    registry and touches no file: [handleEvent] only queues one function.
    When the queue runs it, the bridge is handed the state of the event
    with its status and [OOMKilled] false, an error of the bridge is only
    logged, and then the pause monitor is told about the event; the exit
    notifier is not consulted. *)
Theorem handleEvent_pause_resume :
  forall (env : Env) (e : Event) (w : World),
    isPauseOrResume (Type_ e) = true ->
    snd (handleEvent' env e w) =
      mkWorld (ctr w) (containers w)
        (q w ++ [(Id e, notifyEvent e (length (vars w)))])
        (goroutines w)
        (vars w ++ [mkStateInfo (Type_ e) 0 (Status e) "" false])
        (calls w ++ [client_lock (containerID (ctr w));
                     client_unlock (containerID (ctr w))]) /\
    forall env2,
      calls (snd (run_notifyEvent env2 e (length (vars w))
                    (snd (handleEvent' env e w)))) =
        (calls (snd (handleEvent' env e w)) ++
         [StateChanged (Id e)
            (mkStateInfo (Type_ e) 0 (Status e) "" false)] ++
         match r_StateChanged env2 (Id e)
                 (mkStateInfo (Type_ e) 0 (Status e) "" false) with
         | Some err => [LogError err]
         | None => []
         end ++
         [pauseMonitor_handle (Type_ e)])%list.
Proof.
  intros env e w Htype. destruct w as [c cs qs gs vs ls].
  unfold handleEvent, run_notifyEvent. exec.
  destruct (Type_ e); try discriminate; cbn; exec;
    (split; [norm_calls; reflexivity|]); intros env2;
    destruct (r_StateChanged env2 _ _); cbn; exec; norm_calls; reflexivity.
Qed.

(** X4.  [clean] leaves the world alone when LIBCONTAINERD_NOCLEAN is "1";
    otherwise it removes the directory only when [Lstat] found it.  It
    returns an error exactly when [Lstat] fails for another reason than a
    missing directory, or when the removal fails; a directory that is
    already gone is not an error. *)
Theorem clean_errors :
  forall (env : Env) (w : World),
    (os_Getenv env "LIBCONTAINERD_NOCLEAN" = "1" ->
     clean env w = (None, w)) /\
    (In (RemoveAll (dir (ctr w))) (calls (snd (clean env w))) ->
     In (RemoveAll (dir (ctr w))) (calls w) \/
     (os_Getenv env "LIBCONTAINERD_NOCLEAN" <> "1" /\
      os_Lstat env (dir (ctr w)) = None)) /\
    (forall err,
       fst (clean env w) = Some err <->
       os_Getenv env "LIBCONTAINERD_NOCLEAN" <> "1" /\
       ((os_Lstat env (dir (ctr w)) = Some err /\
         os_IsNotExist env err = false) \/
        (os_Lstat env (dir (ctr w)) = None /\
         os_RemoveAll env (dir (ctr w)) = Some err))).
Proof.
  intros env w. destruct w as [c cs qs gs vs ls]. unfold clean. cbn [ctr].
  destruct (String.eqb_spec (os_Getenv env "LIBCONTAINERD_NOCLEAN") "1")
    as [Heq|Hne].
  - split; [reflexivity|]. split.
    + cbn. intros H. left. exact H.
    + intros err. cbn. split; [discriminate|]. intros [H _]. contradiction.
  - split; [contradiction|]. exec.
    destruct (os_Lstat env (dir c)) as [e1|] eqn:Hl; cbn.
    + destruct (os_IsNotExist env e1) eqn:Hn; cbn.
      * split.
        -- rewrite in_app_iff. cbn. intros [H|[H|[]]];
             [left; exact H|discriminate].
        -- intros err. split; [discriminate|].
           intros [_ [[H1 H2]|[H1 _]]]; congruence.
      * split.
        -- rewrite in_app_iff. cbn. intros [H|[H|[]]];
             [left; exact H|discriminate].
        -- intros err. split.
           ++ intros [= <-]. split; [exact Hne|]. left.
              split; [reflexivity|exact Hn].
           ++ intros [_ [[H1 H2]|[H1 _]]]; congruence.
    + exec. destruct (os_RemoveAll env (dir c)) as [e2|] eqn:Hr; cbn.
      * split; [intros _; right; split; [exact Hne|reflexivity]|].
        intros err. split.
        -- intros [= <-]. split; [exact Hne|]. right. split; reflexivity.
        -- intros [_ [[H1 _]|[_ H2]]]; congruence.
      * split; [intros _; right; split; [exact Hne|reflexivity]|].
        intros err. split; [discriminate|].
        intros [_ [[H1 _]|[_ H2]]]; congruence.
Qed.

(** X5.  [cleanProcess id] forgets the process [id] and no other: after it
    the process map has no entry for [id] and the same entries as before
    for every other identifier.  The only files it removes are the three
    fifos of that process; for an identifier that is not in the map it
    makes no call and changes nothing, so that cleaning the same process a
    second time is a no-op. *)
Theorem cleanProcess_forgets_the_process :
  forall (env : Env) (id : string) (w : World),
    processes (ctr (snd (cleanProcess process_fifo env id w))) !! id = None /\
    (forall id', id' <> id ->
       processes (ctr (snd (cleanProcess process_fifo env id w))) !! id' =
       processes (ctr w) !! id') /\
    (processes (ctr w) !! id = None ->
     cleanProcess process_fifo env id w = (tt, w)) /\
    (forall env2,
       cleanProcess process_fifo env2 id
         (snd (cleanProcess process_fifo env id w)) =
       (tt, snd (cleanProcess process_fifo env id w))) /\
    (forall p,
       processes (ctr w) !! id = Some p ->
       List.filter (fun c => match c with Remove _ => true | _ => false end)
         (skipn (length (calls w))
            (calls (snd (cleanProcess process_fifo env id w)))) =
       [Remove (process_fifo p 0); Remove (process_fifo p 1);
        Remove (process_fifo p 2)]).
Proof.
  intros env id w.
  assert (forall env0 w0, processes (ctr w0) !! id = None ->
            cleanProcess process_fifo env0 id w0 = (tt, w0)) as Hmissing.
  { intros env0 [c cs qs gs vs ls] Hnone. rewrite cleanProcess_run.
    unfold cleanProcess_calls. cbn in *. rewrite Hnone, app_nil_r.
    rewrite delete_id by exact Hnone. destruct c; reflexivity. }
  split; [|split; [|split; [|split]]].
  - rewrite cleanProcess_run. cbn. apply lookup_delete_eq.
  - intros id' Hne. rewrite cleanProcess_run. cbn.
    apply lookup_delete_ne. congruence.
  - apply Hmissing.
  - intros env2. apply Hmissing. rewrite cleanProcess_run. cbn.
    apply lookup_delete_eq.
  - intros p Hp. rewrite cleanProcess_run. cbn [snd calls].
    rewrite skipn_app, skipn_all, Nat.sub_diag. cbn [skipn app].
    unfold cleanProcess_calls, removeFifo_calls. rewrite Hp.
    destruct (os_Remove env (process_fifo p 0)),
             (os_Remove env (process_fifo p 1)),
             (os_Remove env (process_fifo p 2)); reflexivity.
Qed.

Abbreviation specOf' := (specOf configFilename filepath_Join).
Abbreviation requestOf' := (requestOf container_fifo).

(** X6.  [start] reports the failures of its steps after the read of the
    configuration, and registers the container before the create RPC.
    When the fifos cannot be opened the error is returned and neither the
    registry nor the container changes.  When the create RPC fails the
    fifos are closed and the error is returned, the start time is not
    set, nothing is handed to the bridge, and the container is in the
    registry.  When the attachment of the streams fails the error is
    returned after the start time was set, and nothing is handed to the
    bridge. *)
Theorem start_failures :
  forall (env : Env) (w : World) (s : Spec),
    specOf' env (ctr w) = Ok s ->
    (forall err,
       r_openFifos env (Terminal s) = Err err ->
       start' env w =
         (Some err,
          withCalls w
            (calls w ++
             [ReadFile (filepath_Join (dir (ctr w)) configFilename);
              openFifos (Terminal s)]))) /\
    (forall iopipe err,
       r_openFifos env (Terminal s) = Ok iopipe ->
       r_CreateContainer env (requestOf' env (ctr w)) = Err err ->
       start' env w =
         (Some err,
          mkWorld (ctr w) ({[ containerID (ctr w) ]} ∪ containers w) (q w)
            (goroutines w) (vars w)
            (calls w ++
             [ReadFile (filepath_Join (dir (ctr w)) configFilename);
              openFifos (Terminal s);
              CreateContainer (requestOf' env (ctr w));
              closeFifos iopipe]))) /\
    (forall iopipe pid err,
       r_openFifos env (Terminal s) = Ok iopipe ->
       r_CreateContainer env (requestOf' env (ctr w)) = Ok pid ->
       r_AttachStreams env = Some err ->
       start' env w =
         (Some err,
          mkWorld (set_startedAt (time_Now env) (ctr w))
            ({[ containerID (ctr w) ]} ∪ containers w) (q w)
            (goroutines w) (vars w)
            (calls w ++
             [ReadFile (filepath_Join (dir (ctr w)) configFilename);
              openFifos (Terminal s);
              CreateContainer (requestOf' env (ctr w));
              AttachStreams (containerID (ctr w)) iopipe]))).
Proof.
  intros env w s Hspec. destruct w as [c cs qs gs vs ls].
  unfold specOf in Hspec. cbn in Hspec.
  destruct (ioutil_ReadFile env _) as [dt|] eqn:Hread; [|discriminate].
  unfold start, spec, requestOf, withCalls, syscall_Stdin, syscall_Stdout,
    syscall_Stderr.
  exec. rewrite Hread, Hspec. cbn. exec.
  split; [|split].
  - intros err ->. cbn. norm_calls. reflexivity.
  - intros iopipe err -> Hcreate. cbn. exec. rewrite Hcreate. cbn. exec.
    norm_calls. reflexivity.
  - intros iopipe pid err -> Hcreate Hattach. cbn. exec.
    rewrite Hcreate. cbn. exec. rewrite Hattach. cbn. norm_calls.
    reflexivity.
Qed.

Lemma start_success_run :
  forall (env : Env) (w : World) (s : Spec) (iopipe : nat) (pid : Z),
    specOf' env (ctr w) = Ok s ->
    r_openFifos env (Terminal s) = Ok iopipe ->
    r_CreateContainer env (requestOf' env (ctr w)) = Ok pid ->
    r_AttachStreams env = None ->
    start' env w =
      (r_StateChanged env (containerID (ctr w))
         (mkStateInfo StateStart pid 0 "" false),
       mkWorld (set_systemPid pid (set_startedAt (time_Now env) (ctr w)))
         ({[ containerID (ctr w) ]} ∪ containers w) (q w)
         (goroutines w) (vars w)
         (calls w ++
          [ReadFile (filepath_Join (dir (ctr w)) configFilename);
           openFifos (Terminal s);
           CreateContainer (requestOf' env (ctr w));
           AttachStreams (containerID (ctr w)) iopipe;
           StateChanged (containerID (ctr w))
             (mkStateInfo StateStart pid 0 "" false)])).
Proof.
  intros env w s iopipe pid Hspec Hfifo Hcreate Hattach.
  destruct w as [c cs qs gs vs ls].
  unfold specOf in Hspec. cbn in Hspec, Hcreate.
  destruct (ioutil_ReadFile env _) as [dt|] eqn:Hread; [|discriminate].
  unfold requestOf in Hcreate.
  unfold start, spec, requestOf, syscall_Stdin, syscall_Stdout,
    syscall_Stderr.
  exec. rewrite Hread, Hspec. cbn. exec. rewrite Hfifo. cbn. exec.
  rewrite Hcreate. cbn. exec. rewrite Hattach. cbn. exec.
  norm_calls. reflexivity.
Qed.

Lemma goroutine_lookup_new (l : list Waiter) (g : Waiter) :
  ((l ++ [g])%list) !! length l = Some g.
Proof. induction l as [|x l IH]; [reflexivity|exact IH]. Qed.

Lemma goroutine_delete_new (l : list Waiter) (g : Waiter) :
  delete (length l) (l ++ [g])%list = l.
Proof.
  induction l as [|x l IH]; [reflexivity|]. cbn. f_equal. exact IH.
Qed.

(** X7.  A restart cycle.  When the exit of the init process is answered
    by "restart", and the wait of the goroutine then ends without error
    and every step of the new [start] succeeds, the container is back in
    the registry under its own identifier, its restarting flag is clear,
    its start time and system process identifier are those of the new
    start, its [oom] flag is the one it had, and no goroutine is left.
    The bridge was handed [StateStart] with the new process identifier. *)
Theorem restart_cycle :
  forall (env env2 : Env) (e : Event) (w : World) (rm wait : nat)
         (s : Spec) (iopipe : nat) (pid : Z),
    Type_ e = StateExit ->
    Pid e = InitFriendlyName ->
    restartManager (ctr w) = Some rm ->
    r_ShouldRestart env (Status e) false (time_Now env - startedAt (ctr w)) =
      (true, wait, None) ->
    specOf' env2 (ctr w) = Ok s ->
    r_openFifos env2 (Terminal s) = Ok iopipe ->
    r_CreateContainer env2
      (requestOf' env2 (set_restarting false (ctr w))) = Ok pid ->
    r_AttachStreams env2 = None ->
    ctr (snd (run' [(env, Schedule.Deliver e);
                    (env2, Schedule.WaitEnds (length (goroutines w)) None)]
                w)) =
      set_systemPid pid
        (set_startedAt (time_Now env2) (set_restarting false (ctr w))) /\
    containers (snd (run' [(env, Schedule.Deliver e);
                           (env2, Schedule.WaitEnds (length (goroutines w))
                                    None)] w)) =
      {[ containerID (ctr w) ]} ∪ (containers w ∖ {[ Id e ]}) /\
    goroutines (snd (run' [(env, Schedule.Deliver e);
                           (env2, Schedule.WaitEnds (length (goroutines w))
                                    None)] w)) = goroutines w /\
    In (StateChanged (containerID (ctr w))
          (mkStateInfo StateStart pid 0 "" false))
       (calls (snd (run' [(env, Schedule.Deliver e);
                          (env2, Schedule.WaitEnds (length (goroutines w))
                                   None)] w))).
Proof.
  intros env env2 e w rm wait s iopipe pid Htype Hpid Hrm Hdecision
    Hspec Hfifo Hcreate Hattach.
  cbn [Schedule.run]. unfold bind, ret. cbn [Schedule.step]. unfold bind, ret.
  rewrite (handleEvent_restart_run env e w rm wait Htype Hpid Hrm Hdecision).
  unfold Schedule.takeGoroutine. cbn [goroutines ctr containers q vars calls].
  rewrite goroutine_lookup_new, goroutine_delete_new.
  rewrite runWaiter_elapsed. unfold lockedForRestart, unlocked.
  cbn [goroutines ctr containers q vars calls].
  destruct w as [c cs qs gs vs ls].
  cbn [goroutines ctr containers q vars calls] in *.
  match goal with
  | |- context [start _ _ _ env2 ?w0] =>
      rewrite (start_success_run env2 w0 s iopipe pid Hspec Hfifo Hcreate
                 Hattach)
  end.
  cbn. repeat split; try (destruct c; reflexivity).
  rewrite !in_app_iff. left. right. cbn. tauto.
Qed.

(** *** The restarting flag along executions *)

Ltac case_first :=
  match goal with
  | |- context [match ?x with _ => _ end] =>
      lazymatch x with
      | context [match _ with _ => _ end] => fail
      | _ => destruct x
      end
  end.

Lemma start_keeps_restarting (env : Env) (w : World) :
  restarting (ctr (snd (start' env w))) = restarting (ctr w) /\
  goroutines (snd (start' env w)) = goroutines w.
Proof.
  destruct w as [c cs qs gs vs ls]. unfold start, spec. exec.
  repeat (case_first; cbn; exec); split; reflexivity.
Qed.

Lemma runCallback_keeps_restarting (env : Env) (f : Callback) (w : World) :
  restarting (ctr (snd (runCallback env f w))) = restarting (ctr w) /\
  goroutines (snd (runCallback env f w)) = goroutines w.
Proof.
  destruct w as [c cs qs gs vs ls].
  destruct f; cbn; unfold run_notifyEvent, run_notifyRestartCanceled; exec;
    repeat (case_first; cbn; exec); split; reflexivity.
Qed.

(** An event either leaves the restarting flag and the goroutines alone or
    sets the flag and starts one goroutine. *)
Lemma handleEvent_restarting (env : Env) (e : Event) (w : World) :
  (restarting (ctr (snd (handleEvent' env e w))) = restarting (ctr w) /\
   goroutines (snd (handleEvent' env e w)) = goroutines w) \/
  (restarting (ctr (snd (handleEvent' env e w))) = true /\
   exists g, goroutines (snd (handleEvent' env e w)) =
               (goroutines w ++ [g])%list).
Proof.
  destruct w as [c cs qs gs vs ls]. unfold handleEvent. exec.
  destruct (Type_ e); cbn; exec; try (left; split; reflexivity).
  destruct (negb (String.eqb (Pid e) InitFriendlyName)); cbn; exec.
  - rewrite cleanProcess_run. cbn. exec. left. split; reflexivity.
  - destruct (restartManager c) as [rm|]; cbn; exec;
      [destruct (r_ShouldRestart env _ _ _) as [[[|] wait] [err|]];
       cbn; exec|];
      try (match goal with
           | |- context [clean env ?w0] =>
               destruct (clean_frame env w0) as (r & added & ->)
           end; cbn; exec);
      first [left; split; reflexivity
            |right; split; [reflexivity|eexists; reflexivity]].
Qed.

Lemma goroutine_delete_none (l : list Waiter) (n : nat) :
  l !! n = None -> delete n l = l.
Proof.
  revert n. induction l as [|x l IH]; intros [|n] H; try reflexivity.
  - discriminate.
  - cbn. f_equal. apply IH. exact H.
Qed.

Lemma step_restartIsPending (env : Env) (s : Schedule.Step) (w : World) :
  restartIsPending w -> restartIsPending (snd (step' env s w)).
Proof.
  unfold restartIsPending. intros Inv. destruct s as [e| |n err].
  - unfold Schedule.step, bind, ret.
    pose proof (handleEvent_restarting env e w) as H.
    destruct (handleEvent' env e w) as [r w']. cbn in *.
    destruct H as [[Hr Hg]|[Hr [g Hg]]]; rewrite Hg.
    + rewrite Hr. exact Inv.
    + intros _ Hnil. destruct (goroutines w); discriminate.
  - unfold Schedule.step, bind, ret, Schedule.dequeue.
    destruct w as [c cs qs gs vs ls]. cbn in *.
    destruct qs as [|[id f] rest]; cbn; [exact Inv|].
    pose proof (runCallback_keeps_restarting env f
                  (mkWorld c cs rest gs vs ls)) as [Hr Hg].
    rewrite Hr, Hg. exact Inv.
  - unfold Schedule.step, bind, ret, Schedule.takeGoroutine.
    destruct w as [c cs qs gs vs ls]. cbn in *.
    destruct (gs !! n) as [g|] eqn:Hn; cbn.
    + destruct err as [err|].
      * rewrite runWaiter_failed. cbn. discriminate.
      * rewrite runWaiter_elapsed. unfold unlocked. cbn [snd ctr goroutines].
        match goal with
        | |- context [start _ _ _ env ?w0] =>
            pose proof (start_keeps_restarting env w0) as [Hr Hg]
        end.
        rewrite Hr. cbn. discriminate.
    + rewrite (goroutine_delete_none _ _ Hn). exact Inv.
Qed.

(** X8.  Along every run of events, queued deliveries and ends of restart
    waits, the restarting flag of the container is never set without a
    goroutine waiting to clear it: the flag is set only together with the
    start of its goroutine, and every goroutine that runs clears it. *)
Theorem restarting_has_pending_wait :
  forall (steps : list (Env * Schedule.Step)) (w : World),
    restartIsPending w -> restartIsPending (snd (run' steps w)).
Proof.
  intros steps. induction steps as [|[env s] steps IH]; intros w Inv.
  - exact Inv.
  - cbn [Schedule.run]. unfold bind.
    pose proof (step_restartIsPending env s w Inv) as H.
    destruct (step' env s w) as [u w1]. apply IH. exact H.
Qed.

End WithConsts.

(** *** The statements on sample clients *)

Import RuntimeSamples.

(** The exit of ["exec-1"] on the sample container: an exit-process state
    is queued, the container stays registered, no goroutine is started. *)
Lemma handleEvent_subprocess_exit_witness :
  exists st,
    q (snd (handleEvent InitFriendlyName process_fifo env_ok
              (exitOf "exec-1" 137) (world_of (sample_ctr (Some 1%nat) false))))
      = [("4fa6e0f0c678", notifyEvent (exitOf "exec-1" 137) st)] /\
    fst (readVar st
           (snd (handleEvent InitFriendlyName process_fifo env_ok
                   (exitOf "exec-1" 137)
                   (world_of (sample_ctr (Some 1%nat) false))))) =
      mkStateInfo StateExitProcess 0 137 "exec-1" false /\
    containers (snd (handleEvent InitFriendlyName process_fifo env_ok
                       (exitOf "exec-1" 137)
                       (world_of (sample_ctr (Some 1%nat) false)))) =
      {[ "4fa6e0f0c678" ]}.
Proof.
  destruct (handleEvent_subprocess_exit InitFriendlyName process_fifo env_ok
              (exitOf "exec-1" 137) (world_of (sample_ctr (Some 1%nat) false))
              eq_refl ltac:(discriminate))
    as (st & added & _ & Hq & Hst & _ & Hc & _).
  exists st. split; [exact Hq|]. split; [exact Hst|exact Hc].
Defined.

(** An OOM event and then the exit of the init process on a container
    without restart manager: the exit reports [OOMKilled] true. *)
Lemma oom_flag_is_sticky_witness :
  exists st,
    q (snd (handleEvent InitFriendlyName process_fifo env_ok (exitOf "init" 137)
         (snd (Schedule.run InitFriendlyName configFilename
                 container_fifo process_fifo filepath_Join
                 ([] ++ (env_ok, Schedule.Deliver oomEvent) ::
                  [(env_ok, Schedule.RunQueued)])
                 (world_of (sample_ctr None false)))))) =
      (q (snd (Schedule.run InitFriendlyName configFilename
                 container_fifo process_fifo filepath_Join
                 ([] ++ (env_ok, Schedule.Deliver oomEvent) ::
                  [(env_ok, Schedule.RunQueued)])
                 (world_of (sample_ctr None false)))) ++
       [("4fa6e0f0c678", notifyEvent (exitOf "init" 137) st)])%list /\
    OOMKilled (fst (readVar st
      (snd (Schedule.run InitFriendlyName configFilename
              container_fifo process_fifo filepath_Join []
              (snd (handleEvent InitFriendlyName process_fifo env_ok
                      (exitOf "init" 137)
                      (snd (Schedule.run InitFriendlyName configFilename
                              container_fifo process_fifo
                              filepath_Join
                              ([] ++ (env_ok, Schedule.Deliver oomEvent) ::
                               [(env_ok, Schedule.RunQueued)])
                              (world_of (sample_ctr None false)))))))))) =
      true.
Proof.
  destruct (proj1 (proj2 (proj2
              (oom_flag_is_sticky InitFriendlyName configFilename
                 container_fifo process_fifo filepath_Join
                 env_ok (exitOf "init" 137)
                 (world_of (sample_ctr None false)))))
              eq_refl env_ok oomEvent [] [(env_ok, Schedule.RunQueued)]
              eq_refl)
    as (st & Hq & Hrep).
  exists st. split; [exact Hq|exact (Hrep [])].
Defined.



(** The configuration file is missing: [start] returns nil after the read
    and nothing else happened. *)
Lemma start_ignores_spec_error_witness :
  start configFilename container_fifo filepath_Join env_noConfig
    (world_of (sample_ctr None false)) =
  (None,
   mkWorld (sample_ctr None false) {[ "4fa6e0f0c678" ]} [] [] []
     [ReadFile "/run/docker/libcontainerd/4fa6e0f0c678/config.json"]).
Proof.
  exact (proj1 (start_ignores_spec_error configFilename container_fifo
                  filepath_Join env_noConfig
                  (world_of (sample_ctr None false)))
           (Errorf "open config.json: no such file or directory")
           (or_introl eq_refl)).
Defined.

(** On the same container a start in which every step succeeds returns nil
    too, after the create RPC and the delivery of the start state. *)
Example start_succeeds :
  fst (start configFilename container_fifo filepath_Join env_ok
         (world_of (sample_ctr None false))) = None /\
  In (StateChanged "4fa6e0f0c678" (mkStateInfo StateStart 4343 0 "" false))
    (calls (snd (start configFilename container_fifo filepath_Join env_ok
                   (world_of (sample_ctr None false))))).
Proof.
  split; [reflexivity|]. vm_compute. tauto.
Qed.


(** A restart decided, delivered, and then cancelled: the bridge is told
    [StateRestart], then, after the directory cleanup, [StateExit]. *)
Example restart_then_cancel :
  calls (snd (Schedule.run InitFriendlyName configFilename container_fifo process_fifo filepath_Join
                [(env_restart, Schedule.Deliver (exitOf "init" 1));
                 (env_restart, Schedule.RunQueued);
                 (env_restart, Schedule.WaitEnds 0 (Some ErrRestartCanceled));
                 (env_restart, Schedule.RunQueued)]
                (world_of (sample_ctr (Some 1%nat) false)))) =
  [client_lock "4fa6e0f0c678"; ShouldRestart 1 false 60;
   client_unlock "4fa6e0f0c678";
   StateChanged "4fa6e0f0c678" (mkStateInfo StateRestart 0 1 "" false);
   client_lock "4fa6e0f0c678";
   Lstat "/run/docker/libcontainerd/4fa6e0f0c678";
   RemoveAll "/run/docker/libcontainerd/4fa6e0f0c678";
   client_unlock "4fa6e0f0c678";
   StateChanged "4fa6e0f0c678" (mkStateInfo StateExit 0 1 "" false)].
Proof. vm_compute. reflexivity. Qed.

(** A restart decided and its wait elapsed: [start] runs again. *)
Example restart_then_start :
  calls (snd (Schedule.run InitFriendlyName configFilename container_fifo process_fifo filepath_Join
                [(env_restart, Schedule.Deliver (exitOf "init" 1));
                 (env_restart, Schedule.RunQueued);
                 (env_ok, Schedule.WaitEnds 0 None)]
                (world_of (sample_ctr (Some 1%nat) false)))) =
  [client_lock "4fa6e0f0c678"; ShouldRestart 1 false 60;
   client_unlock "4fa6e0f0c678";
   StateChanged "4fa6e0f0c678" (mkStateInfo StateRestart 0 1 "" false);
   client_lock "4fa6e0f0c678";
   ReadFile "/run/docker/libcontainerd/4fa6e0f0c678/config.json";
   openFifos false;
   CreateContainer
     (mkRequest "4fa6e0f0c678" "/run/docker/libcontainerd/4fa6e0f0c678"
        "/run/docker/libcontainerd/4fa6e0f0c678/init-stdin"
        "/run/docker/libcontainerd/4fa6e0f0c678/init-stdout"
        "/run/docker/libcontainerd/4fa6e0f0c678/init-stderr" false);
   AttachStreams "4fa6e0f0c678" 7;
   StateChanged "4fa6e0f0c678" (mkStateInfo StateStart 4343 0 "" false);
   client_unlock "4fa6e0f0c678"].
Proof. vm_compute. reflexivity. Qed.


(** A wait that ends with an error value other than
    [ErrRestartCanceled] is logged, also when its text is that of the
    cancellation. *)
Example restart_wait_fails :
  calls (snd (Schedule.run InitFriendlyName configFilename
                container_fifo process_fifo filepath_Join
                [(env_restart, Schedule.Deliver (exitOf "init" 1));
                 (env_restart,
                  Schedule.WaitEnds 0
                    (Some (otherError (Errorf "restart canceled"))))]
                (world_of (sample_ctr (Some 1%nat) false)))) =
  [client_lock "4fa6e0f0c678"; ShouldRestart 1 false 60;
   client_unlock "4fa6e0f0c678"; client_lock "4fa6e0f0c678";
   Lstat "/run/docker/libcontainerd/4fa6e0f0c678";
   RemoveAll "/run/docker/libcontainerd/4fa6e0f0c678";
   LogError (Errorf "restart canceled");
   client_unlock "4fa6e0f0c678"].
Proof. vm_compute. reflexivity. Qed.

(** The exit of the init process with status 0 on a container without
    restart manager: a terminal exit. *)
Lemma handleEvent_init_exit_witness :
  ("4fa6e0f0c678" ∉
    containers (snd (handleEvent InitFriendlyName process_fifo env_ok
                       (exitOf "init" 0) (world_of (sample_ctr None false)))))
  /\
  snd (handleEvent InitFriendlyName process_fifo env_ok (exitOf "init" 0)
         (world_of (sample_ctr None false))) =
    mkWorld (sample_ctr None false) ({[ "4fa6e0f0c678" ]} ∖ {[ "4fa6e0f0c678" ]})
      [("4fa6e0f0c678", notifyEvent (exitOf "init" 0) 0)] []
      [mkStateInfo StateExit 0 0 "" false]
      [client_lock "4fa6e0f0c678";
       Lstat "/run/docker/libcontainerd/4fa6e0f0c678";
       RemoveAll "/run/docker/libcontainerd/4fa6e0f0c678";
       client_unlock "4fa6e0f0c678"].
Proof.
  destruct (handleEvent_init_exit InitFriendlyName process_fifo env_ok
              (exitOf "init" 0) (world_of (sample_ctr None false))
              eq_refl eq_refl) as [Hout Hterminal].
  split; [exact Hout|exact (Hterminal eq_refl)].
Defined.

Lemma handleEvent_pause_resume_witness :
  snd (handleEvent InitFriendlyName process_fifo env_ok pauseEvent
         (world_of (sample_ctr None false))) =
    mkWorld (sample_ctr None false) {[ "4fa6e0f0c678" ]}
      [("4fa6e0f0c678", notifyEvent pauseEvent 0)] []
      [mkStateInfo StatePause 0 0 "" false]
      [client_lock "4fa6e0f0c678"; client_unlock "4fa6e0f0c678"].
Proof.
  exact (proj1 (handleEvent_pause_resume InitFriendlyName process_fifo env_ok
                  pauseEvent (world_of (sample_ctr None false)) eq_refl)).
Defined.

(** The create RPC is refused: the fifos are closed and the container is
    in the registry all the same. *)
Lemma start_failures_witness :
  start configFilename container_fifo filepath_Join
    (env_start (Ok 7%nat) (Err (Errorf "rpc error: oci runtime error")) None)
    (mkWorld (sample_ctr None false) ∅ [] [] [] []) =
  (Some (Errorf "rpc error: oci runtime error"),
   mkWorld (sample_ctr None false) ({[ "4fa6e0f0c678" ]} ∪ ∅) [] [] []
     [ReadFile "/run/docker/libcontainerd/4fa6e0f0c678/config.json";
      openFifos false;
      CreateContainer
        (mkRequest "4fa6e0f0c678" "/run/docker/libcontainerd/4fa6e0f0c678"
           "/run/docker/libcontainerd/4fa6e0f0c678/init-stdin"
           "/run/docker/libcontainerd/4fa6e0f0c678/init-stdout"
           "/run/docker/libcontainerd/4fa6e0f0c678/init-stderr" false);
      closeFifos 7]).
Proof.
  exact (proj1 (proj2
           (start_failures configFilename container_fifo filepath_Join
              (env_start (Ok 7%nat)
                 (Err (Errorf "rpc error: oci runtime error")) None)
              (mkWorld (sample_ctr None false) ∅ [] [] [] [])
              (mkSpec false) eq_refl))
           7%nat (Errorf "rpc error: oci runtime error") eq_refl eq_refl).
Defined.

Lemma restart_cycle_witness :
  ctr (snd (Schedule.run InitFriendlyName configFilename container_fifo process_fifo filepath_Join
              [(env_restart, Schedule.Deliver (exitOf "init" 1));
               (env_ok, Schedule.WaitEnds 0 None)]
              (world_of (sample_ctr (Some 1%nat) true)))) =
    mkCtr "4fa6e0f0c678" "/run/docker/libcontainerd/4fa6e0f0c678"
      (processes (sample_ctr (Some 1%nat) true)) (Some 1%nat) false 1060 4343
      true.
Proof.
  exact (proj1 (restart_cycle InitFriendlyName configFilename
                  container_fifo process_fifo filepath_Join
                  env_restart env_ok (exitOf "init" 1)
                  (world_of (sample_ctr (Some 1%nat) true)) 1%nat 3%nat
                  (mkSpec false) 7%nat 4343
                  eq_refl eq_refl eq_refl eq_refl eq_refl eq_refl eq_refl
                  eq_refl)).
Defined.

Lemma restarting_has_pending_wait_witness :
  restartIsPending
    (snd (Schedule.run InitFriendlyName configFilename container_fifo process_fifo filepath_Join
            [(env_restart, Schedule.Deliver (exitOf "init" 1));
             (env_restart, Schedule.RunQueued);
             (env_restart, Schedule.Deliver (exitOf "exec-1" 0))]
            (world_of (sample_ctr (Some 1%nat) false)))).
Proof.
  apply (restarting_has_pending_wait InitFriendlyName configFilename
           container_fifo process_fifo filepath_Join).
  unfold restartIsPending. cbn. discriminate.
Defined.

End LibcontainerdFacts.

(** ** The command line (package cli) *)
Module CliFacts.
Import Go Cli.

Section WithStrings.
Variable ToUpper : string -> string.
Variable ToLower : string -> string.
Variable env : Env.

Local Abbreviation camelArgs := (camelArgs ToUpper ToLower).
Local Abbreviation command_from := (command_from ToUpper ToLower env).
Local Abbreviation command := (command ToUpper ToLower env).
Local Abbreviation Run := (Run ToUpper ToLower env).
Local Abbreviation CmdHelp := (CmdHelp ToUpper ToLower env).
Local Abbreviation found := (found env).
Local Abbreviation dispatches := (dispatches ToUpper ToLower env).

Lemma command_from_first (hs : list (option Handler)) :
  forall (i0 i : nat) (args cs : list string) (h : Handler) (w : World),
    camelArgs args = Some cs ->
    hs !! i = Some (Some h) ->
    hasMethod h (methodName cs) = true ->
    (forall j h', (j < i)%nat -> hs !! j = Some (Some h') ->
                  hasMethod h' (methodName cs) = false) ->
    command_from i0 hs args w = found (i0 + i) h cs w.
Proof.
  induction hs as [|x hs IH]; intros i0 i args cs h w Hcs Hi Hm Hfirst.
  - discriminate.
  - destruct i as [|i].
    + injection Hi as ->. cbn. rewrite Hcs, Hm, Nat.add_0_r. reflexivity.
    + cbn in Hi. destruct x as [h0|]; cbn.
      * rewrite Hcs.
        rewrite (Hfirst 0%nat h0 (Nat.lt_0_succ i) eq_refl).
        rewrite (IH (S i0) i args cs h w Hcs Hi Hm).
        -- rewrite Nat.add_succ_r. reflexivity.
        -- intros j h' Hj Hl. apply (Hfirst (S j) h'); [lia|exact Hl].
      * rewrite (IH (S i0) i args cs h w Hcs Hi Hm).
        -- rewrite Nat.add_succ_r. reflexivity.
        -- intros j h' Hj Hl. apply (Hfirst (S j) h'); [lia|exact Hl].
Qed.

Lemma command_from_none (hs : list (option Handler)) :
  forall (i0 : nat) (args : list string) (w : World),
    (forall cs h, camelArgs args = Some cs -> In (Some h) hs ->
                  hasMethod h (methodName cs) = false) ->
    command_from i0 hs args w =
    (LookupError
       (PlainError
          (match camelArgs args with
           | None => if someHandler hs then "empty command"
                     else "command not found"
           | Some _ => "command not found"
           end)), w).
Proof.
  induction hs as [|x hs IH]; intros i0 args w Hnone.
  - cbn. destruct (camelArgs args); reflexivity.
  - destruct x as [h0|]; cbn.
    + destruct (camelArgs args) as [cs|] eqn:Hcs; [|reflexivity].
      rewrite (Hnone cs h0 eq_refl (or_introl eq_refl)).
      rewrite IH, Hcs; [reflexivity|].
      intros cs' h Hcs' Hin. rewrite Hcs in Hcs'.
      apply Hnone; [exact Hcs'|right; exact Hin].
    + rewrite IH; [reflexivity|].
      intros cs' h Hcs' Hin. apply Hnone; [exact Hcs'|right; exact Hin].
Qed.

(** What a lookup leaves behind, whatever the handlers are. *)
Lemma command_from_shape (hs : list (option Handler)) :
  forall (i0 : nat) (args : list string) (w : World),
    (exists e, command_from i0 hs args w = (LookupError e, w)) \/
    (exists m, command_from i0 hs args w = (Found m, w)) \/
    (exists i err,
       r_Initialize env i = Some err /\
       command_from i0 hs args w = (initErr err, log (Initialize i) w)) \/
    (exists m,
       r_Initialize env (handler m) = None /\
       command_from i0 hs args w = (Found m, log (Initialize (handler m)) w)).
Proof.
  induction hs as [|x hs IH]; intros i0 args w.
  - left. eexists. reflexivity.
  - destruct x as [h0|]; cbn; [|apply IH].
    destruct (camelArgs args) as [cs|]; [|left; eexists; reflexivity].
    destruct (hasMethod h0 (methodName cs)); [|apply IH].
    destruct (isInitializer h0); [|right; left; eexists; reflexivity].
    destruct (r_Initialize env i0) as [err|] eqn:Hinit.
    + right. right. left. exists i0, err. split; [exact Hinit|reflexivity].
    + right. right. right. exists (mkMethod i0 (methodName cs)).
      split; [exact Hinit|reflexivity].
Qed.

(** X17.  [command] answers with the method of the first handler, in the
    order of registration, that is not nil and has a method of the name
    built from the arguments.  That handler is the only one initialised,
    and it is initialised before the method is handed out; when its
    initialisation fails the error comes back wrapped as an [initErr] and
    no later handler is tried.  A handler without [Initialize] is not
    called at all by the lookup. *)
Theorem command_first_handler :
  forall (args cs : list string) (i : nat) (h : Handler) (w : World),
    camelArgs args = Some cs ->
    handlers (cli w) !! i = Some (Some h) ->
    hasMethod h (methodName cs) = true ->
    (forall j h', (j < i)%nat -> handlers (cli w) !! j = Some (Some h') ->
                  hasMethod h' (methodName cs) = false) ->
    cli (snd (command args w)) = cli w /\
    (isInitializer h = false ->
     command args w = (Found (mkMethod i (methodName cs)), w)) /\
    (isInitializer h = true ->
     calls (snd (command args w)) = (calls w ++ [Initialize i])%list /\
     fst (command args w) =
       match r_Initialize env i with
       | Some err => initErr err
       | None => Found (mkMethod i (methodName cs))
       end).
Proof.
  intros args cs i h w Hcs Hi Hm Hfirst. unfold command.
  rewrite (command_from_first _ 0 i args cs h w Hcs Hi Hm Hfirst).
  unfold found. cbn [Nat.add].
  destruct (isInitializer h).
  - destruct (r_Initialize env i); cbn;
      (split; [reflexivity|]); (split; [discriminate|]);
      intros _; split; reflexivity.
  - cbn. split; [reflexivity|]. split; [reflexivity|discriminate].
Qed.

(** X18.  When no handler has the method, [command] fails without a call
    and without a change.  Its error is "empty command" exactly when one
    of the arguments is the empty string and some handler is not nil; it
    is "command not found" otherwise, also for an empty argument when every
    handler is nil. *)
Theorem command_without_method :
  forall (args : list string) (w : World),
    (forall cs h, camelArgs args = Some cs ->
                  In (Some h) (handlers (cli w)) ->
                  hasMethod h (methodName cs) = false) ->
    exists msg,
      command args w = (LookupError (PlainError msg), w) /\
      (msg = "empty command" \/ msg = "command not found") /\
      (msg = "empty command" <->
       In "" args /\ someHandler (handlers (cli w)) = true).
Proof.
  intros args w Hnone. unfold command.
  rewrite (command_from_none _ 0 args w Hnone).
  assert (camelArgs args = None <-> In "" args) as Hempty.
  { clear. induction args as [|s args IH]; cbn.
    - split; [discriminate|tauto].
    - destruct s as [|a s]; cbn; [split; [tauto|reflexivity]|].
      destruct (camelArgs args) as [cs|].
      + split; [discriminate|]. intros [H|H]; [discriminate|].
        apply IH in H. discriminate.
      + split; [|reflexivity]. intros _. right. apply IH. reflexivity. }
  eexists. split; [reflexivity|].
  destruct (camelArgs args) as [cs|].
  - split; [right; reflexivity|]. split; [discriminate|].
    intros [H _]. apply Hempty in H. discriminate.
  - destruct (someHandler (handlers (cli w))).
    + split; [left; reflexivity|]. split; [|reflexivity].
      intros _. split; [apply Hempty|]; reflexivity.
    + split; [right; reflexivity|]. split; [discriminate|].
      intros [_ H]. discriminate.
Qed.


(** What a lookup leaves behind, and the handler it initialised. *)
Lemma command_shape (args : list string) (w : World) :
  (exists e, command args w = (LookupError e, w)) \/
  (exists m, command args w = (Found m, w)) \/
  (exists i err,
     r_Initialize env i = Some err /\
     command args w = (initErr err, log (Initialize i) w)) \/
  (exists m,
     r_Initialize env (handler m) = None /\
     command args w = (Found m, log (Initialize (handler m)) w)).
Proof. apply command_from_shape. Qed.

Lemma command_none (args : list string) (w : World) :
  (forall cs h, camelArgs args = Some cs ->
                In (Some h) (handlers (cli w)) ->
                hasMethod h (methodName cs) = false) ->
  exists e, command args w = (LookupError e, w).
Proof.
  intros H. eexists. unfold command. rewrite command_from_none by exact H.
  reflexivity.
Qed.

(** X19.  A command no handler knows, neither as the first argument alone
    nor together with the second, ends the process with exit code 1, in
    [Run] and in [CmdHelp] alike: the message names the first argument
    only, it is the only call made, no handler is initialised or invoked,
    and it goes to the writer of the [Cli], which is set to [os.Stderr]
    when it was nil.  An empty first argument is such a command. *)
Theorem unknown_command_exits :
  forall (fuel : nat) (a : string) (rest : list string) (w : World),
    (forall cs h,
       camelArgs [a] = Some cs \/
       camelArgs (firstn 2 (a :: rest)) = Some cs ->
       In (Some h) (handlers (cli w)) ->
       hasMethod h (methodName cs) = false) ->
    Run fuel (a :: rest) w =
      Some (Exits 1,
            mkWorld (mkCli (Some (errorWriter (cli w))) (handlers (cli w))
                       (Usage (cli w)))
              (calls w ++
               [Fprintf (errorWriter (cli w)) (noSuchCommandText a)])) /\
    CmdHelp fuel (a :: rest) w = Run fuel (a :: rest) w.
Proof.
  intros fuel a rest w Hnone.
  destruct (command_none [a] w) as [e1 H1].
  { intros cs h Hcs. apply Hnone. left. exact Hcs. }
  destruct fuel as [|fuel]; unfold Cli.Run; cbn [Cli.CmdHelp];
    unfold CmdHelp_body;
    (destruct rest as [|b rest];
     [rewrite H1; cbn; split; reflexivity|]);
    (destruct (command_none (firstn 2 (a :: b :: rest)) w) as [e2 H2];
     [intros cs h Hcs; apply Hnone; right; exact Hcs|]);
    rewrite H2, H1; cbn; split; reflexivity.
Qed.

(** The calls of a method through [invoke]. *)
Lemma invoke_run (help : list string -> World -> Run_result) (m : Method)
  (args : list string) (w : World) :
  invoke env help m args w =
    if isOwnHelp (cli w) m then help args (log (Invoke m args) w)
    else Some (r_Invoke env m args, log (Invoke m args) w).
Proof. reflexivity. Qed.

(** The cases of a command line with arguments, for [Run] and [CmdHelp]
    alike: a method is found, the initialisation of its handler fails, or
    no handler knows the command. *)
Lemma dispatch_cases (a : string) (rest : list string) (w : World)
  (P : Run_result -> Prop)
  (call : Method -> list string -> World -> Run_result) :
  let args := a :: rest in
  let result (n : nat) (l : Lookup Method * World) : Run_result :=
    match l with
    | (Found f, w) => call f (skipn n args) w
    | (initErr err, w) => Some (Returns (Some err), w)
    | (LookupError _, w) =>
        let (code, w) := noSuchCommand a w in Some (Exits code, w)
    end in
  (forall n m w1,
     dispatches args w n m w1 -> P (call m (skipn n args) w1)) ->
  (forall i err,
     r_Initialize env i = Some err ->
     P (Some (Returns (Some err), log (Initialize i) w))) ->
  P (Some (Exits 1,
           mkWorld (mkCli (Some (errorWriter (cli w))) (handlers (cli w))
                      (Usage (cli w)))
             (calls w ++
              [Fprintf (errorWriter (cli w)) (noSuchCommandText a)]))) ->
  P (match rest with
     | _ :: _ =>
         match command (firstn 2 args) w with
         | (LookupError _, w) => result 1%nat (command [a] w)
         | l => result 2%nat l
         end
     | [] => result 1%nat (command [a] w)
     end).
Proof.
  cbv zeta. intros Hfound Hinit Hnone.
  assert (forall (two : (2 <= length (a :: rest))%nat ->
                        exists e, command (firstn 2 (a :: rest)) w =
                                  (LookupError e, w)),
            P (match command [a] w with
               | (Found f, w) => call f (skipn 1 (a :: rest)) w
               | (initErr err, w) => Some (Returns (Some err), w)
               | (LookupError _, w) =>
                   let (code, w) := noSuchCommand a w in Some (Exits code, w)
               end)) as Hone.
  { intros two.
    destruct (command_shape [a] w)
      as [[e H]|[[m H]|[(i & err & Hi & H)|(m & Hm & H)]]]; rewrite H.
    - exact Hnone.
    - apply (Hfound 1%nat m w). unfold dispatches.
      split; [left; reflexivity|]. split; [cbn; lia|].
      split; [exact H|]. split; [intros _; exact two|left; reflexivity].
    - apply Hinit. exact Hi.
    - apply (Hfound 1%nat m). unfold dispatches.
      split; [left; reflexivity|]. split; [cbn; lia|].
      split; [exact H|]. split; [intros _; exact two|].
      right. split; [reflexivity|exact Hm]. }
  destruct rest as [|b rest].
  - apply Hone. cbn. lia.
  - destruct (command_shape (firstn 2 (a :: b :: rest)) w)
      as [[e H]|[[m H]|[(i & err & Hi & H)|(m & Hm & H)]]]; rewrite H.
    + apply Hone. intros _. exists e. exact H.
    + apply (Hfound 2%nat m w). unfold dispatches.
      split; [right; reflexivity|]. split; [cbn; lia|].
      split; [exact H|]. split; [discriminate|left; reflexivity].
    + apply Hinit. exact Hi.
    + apply (Hfound 2%nat m). unfold dispatches.
      split; [right; reflexivity|]. split; [cbn; lia|].
      split; [exact H|]. split; [discriminate|].
      right. split; [reflexivity|exact Hm].
Qed.



(** X22.  The exit code of [main] once [Run] is over.  The process ends
    with code 0 exactly when [Run] returned nil, when a command ended the
    process with code 0, or when the error is a [StatusError] with an empty
    status and the code 0.  [main] prints at most one line, on its own
    error stream, and whenever it prints the exit code is 1; a
    [StatusError] with an empty status prints nothing and its code is the
    exit code, while one with a status prints the status alone. *)
Theorem main_exit_code :
  forall (stderr : string) (r : Outcome (option cliError)) (w : World),
    (fst (main_exit stderr r w) = 0 <->
     r = Exits 0 \/ r = Returns None \/
     r = Returns (Some (StatusError "" 0))) /\
    (snd (main_exit stderr r w) = w \/
     fst (main_exit stderr r w) = 1 /\
     exists err,
       r = Returns (Some err) /\
       snd (main_exit stderr r w) =
         log (Fprintln stderr
                match err with
                | StatusError status _ => status
                | PlainError msg => msg
                end) w) /\
    (forall code,
       r = Returns (Some (StatusError "" code)) ->
       main_exit stderr r w = (code, w)).
Proof.
  intros stderr r w. split; [|split].
  - destruct r as [[[msg|status code]|]|code]; cbn.
    + split; [discriminate|]. intros [H|[H|H]]; discriminate.
    + destruct (String.eqb status "") eqn:Hs; cbn.
      * apply String.eqb_eq in Hs. subst status. split.
        -- intros ->. right. right. reflexivity.
        -- intros [H|[H|H]]; try discriminate. injection H as ->.
           reflexivity.
      * split; [discriminate|]. intros [H|[H|H]]; try discriminate.
        injection H as -> _. discriminate.
    + split; [intros _; right; left; reflexivity|reflexivity].
    + split; [intros ->; left; reflexivity|].
      intros [H|[H|H]]; try discriminate. injection H as ->. reflexivity.
  - destruct r as [[[msg|status code]|]|code]; cbn.
    + right. split; [reflexivity|]. eexists. split; reflexivity.
    + destruct (String.eqb status ""); cbn; [left; reflexivity|].
      right. split; [reflexivity|]. eexists. split; reflexivity.
    + left. reflexivity.
    + left. reflexivity.
  - intros code ->. reflexivity.
Qed.

(** X23.  [main] on a command that is not the help command and that none
    of its handlers knows, alone or with the second argument: the process
    exits with code 1, no handler is initialised or invoked, and the one
    line written goes to [os.Stderr], the writer [noSuchCommand] installs
    in the new [Cli], not to the error stream [main] prints its own
    errors on. *)
Theorem main_unknown_command :
  forall (fuel : nat) (stderr a : string) (rest : list string)
    (hs : list (option Handler)),
    (forall cs,
       camelArgs [a] = Some cs \/
       camelArgs (firstn 2 (a :: rest)) = Some cs ->
       methodName cs <> "CmdHelp" /\
       forall h, In (Some h) hs -> hasMethod h (methodName cs) = false) ->
    main_run ToUpper ToLower env fuel stderr hs (a :: rest) =
      Some (1,
            mkWorld (mkCli (Some "os.Stderr") (Some selfHandler :: hs) false)
              [Fprintf "os.Stderr" (noSuchCommandText a)]).
Proof.
  intros fuel stderr a rest hs Hnone.
  assert (forall cs h,
            camelArgs [a] = Some cs \/
            camelArgs (firstn 2 (a :: rest)) = Some cs ->
            In (Some h) (handlers (cli (mkWorld (New hs) []))) ->
            hasMethod h (methodName cs) = false) as Hall.
  { intros cs h Hcs [[= <-]|Hin].
    - cbn. apply String.eqb_neq. apply (Hnone cs Hcs).
    - apply (Hnone cs Hcs). exact Hin. }
  destruct (command_none [a] (mkWorld (New hs) [])) as [e1 H1].
  { intros cs h Hcs. apply Hall. left. exact Hcs. }
  unfold main_run, Cli.Run.
  destruct rest as [|b rest].
  - rewrite H1. reflexivity.
  - destruct (command_none (firstn 2 (a :: b :: rest)) (mkWorld (New hs) []))
      as [e2 H2].
    { intros cs h Hcs. apply Hall. right. exact Hcs. }
    rewrite H2, H1. reflexivity.
Qed.

End WithStrings.

(** *** The statements on the sample command line *)

Import CliSamples.

(** [docker network create]: the client is the second handler, after the
    [Cli] itself, and it is initialised. *)
Lemma command_first_handler_witness :
  cli (snd (command ToUpper ToLower env_ok ["network"; "create"]
              (world_of [Some client; Some daemon]))) =
    New [Some client; Some daemon] /\
  (isInitializer client = false ->
   command ToUpper ToLower env_ok ["network"; "create"]
     (world_of [Some client; Some daemon]) =
     (Found (mkMethod 1 (methodName ["Network"; "Create"])),
      world_of [Some client; Some daemon])) /\
  (isInitializer client = true ->
   calls (snd (command ToUpper ToLower env_ok ["network"; "create"]
                 (world_of [Some client; Some daemon]))) =
     ([] ++ [Initialize 1])%list /\
   fst (command ToUpper ToLower env_ok ["network"; "create"]
          (world_of [Some client; Some daemon])) =
     Found (mkMethod 1 "CmdNetworkCreate")).
Proof.
  apply (command_first_handler ToUpper ToLower env_ok
           ["network"; "create"] ["Network"; "Create"] 1 client
           (world_of [Some client; Some daemon])).
  - reflexivity.
  - reflexivity.
  - reflexivity.
  - intros j h' Hj. destruct j as [|j]; [|lia].
    intros [= <-]. reflexivity.
Defined.

(** An empty argument after a command that exists. *)
Lemma command_without_method_witness :
  exists msg,
    command ToUpper ToLower env_ok ["ps"; ""]
      (world_of [Some client; Some daemon]) =
      (LookupError (PlainError msg), world_of [Some client; Some daemon]) /\
    (msg = "empty command" \/ msg = "command not found") /\
    (msg = "empty command" <->
     In "" ["ps"; ""] /\
     someHandler (Some selfHandler :: [Some client; Some daemon]) = true).
Proof.
  apply (command_without_method ToUpper ToLower env_ok ["ps"; ""]
           (world_of [Some client; Some daemon])).
  intros cs h Hcs. discriminate Hcs.
Defined.

(** [docker frobnicate now] on the sample handlers. *)
Lemma unknown_command_exits_witness :
  Run ToUpper ToLower env_ok 0 ["frobnicate"; "now"]
    (world_of [Some client; Some daemon]) =
    Some (Exits 1,
          mkWorld (mkCli (Some "os.Stderr")
                     (Some selfHandler :: [Some client; Some daemon]) false)
            ([] ++ [Fprintf "os.Stderr" (noSuchCommandText "frobnicate")])) /\
  CmdHelp ToUpper ToLower env_ok 0 ["frobnicate"; "now"]
    (world_of [Some client; Some daemon]) =
  Run ToUpper ToLower env_ok 0 ["frobnicate"; "now"]
    (world_of [Some client; Some daemon]).
Proof.
  apply (unknown_command_exits ToUpper ToLower env_ok 0 "frobnicate" ["now"]
           (world_of [Some client; Some daemon])).
  intros cs h [Hcs|Hcs] Hin; injection Hcs as <-;
    (destruct Hin as [[= <-]|[[= <-]|[[= <-]|[]]]]; reflexivity).
Defined.

Lemma main_unknown_command_witness :
  main_run ToUpper ToLower env_ok 0 "stderr" [Some client; Some daemon]
    ["frobnicate"; "now"] =
    Some (1,
          mkWorld (mkCli (Some "os.Stderr")
                     (Some selfHandler :: [Some client; Some daemon]) false)
            [Fprintf "os.Stderr" (noSuchCommandText "frobnicate")]).
Proof.
  apply (main_unknown_command ToUpper ToLower env_ok 0 "stderr" "frobnicate"
           ["now"] [Some client; Some daemon]).
  intros cs [Hcs|Hcs]; injection Hcs as <-;
    (split; [discriminate|]);
    intros h [[= <-]|[[= <-]|[]]]; reflexivity.
Defined.

(** [docker ps -a]: the client is initialised, then its method gets the
    remaining argument. *)
Example Run_ps :
  Run ToUpper ToLower env_ok 0 ["ps"; "-a"]
    (world_of [Some client; Some daemon]) =
  Some (Returns None,
        mkWorld (New [Some client; Some daemon])
          [Initialize 1; Invoke (mkMethod 1 "CmdPs") ["-a"]]).
Proof. reflexivity. Qed.

(** [docker help ps]: the help method of the [Cli] itself is found before
    any handler and needs no initialisation; it looks [ps] up, so that the
    client is initialised and its method invoked with [--help].  The error
    that method returns is dropped. *)
Example Run_help :
  Run ToUpper ToLower
    (sample_env None (Returns (Some (PlainError "no such container")))) 0
    ["help"; "ps"] (world_of [Some client; Some daemon]) =
  Some (Returns None,
        mkWorld (New [Some client; Some daemon])
          [Invoke (mkMethod 0 "CmdHelp") ["ps"]; Initialize 1;
           Invoke (mkMethod 1 "CmdPs") ["--help"]]).
Proof. reflexivity. Qed.

(** [docker help help]: the help method calls itself on [--help], which is
    not a command. *)
Example Run_help_help :
  Run ToUpper ToLower env_ok 1 ["help"; "help"]
    (world_of [Some client; Some daemon]) =
  Some (Exits 1,
        mkWorld (mkCli (Some "os.Stderr")
                   (Some selfHandler :: [Some client; Some daemon]) false)
          [Invoke (mkMethod 0 "CmdHelp") ["help"];
           Invoke (mkMethod 0 "CmdHelp") ["--help"];
           Fprintf "os.Stderr" (noSuchCommandText "--help")]).
Proof. reflexivity. Qed.

(** A command whose handler fails to initialise with a [StatusError]
    without status: [main] exits with the code of the error and prints
    nothing. *)
Example main_init_error :
  main_run ToUpper ToLower
    (sample_env (Some (StatusError "" 125)) (Returns None)) 0 "stderr"
    [Some client; Some daemon] ["run"; "busybox"] =
  Some (125, mkWorld (New [Some client; Some daemon]) [Initialize 1]).
Proof. reflexivity. Qed.

End CliFacts.

(** ** The daemon command line (src/docker/daemon.go) *)
Module DaemonCliFacts.
Import Go StateM DaemonCli.
Local Open Scope go_scope.

Section WithPaths.
Variable oldPath newPath confDir : string.
Variable Quote : string -> string.

Local Abbreviation migrateKey := (migrateKey oldPath newPath confDir Quote).

(** X24.  Unless the new key is missing and the user owns the old one,
    [migrateKey] only asks these two questions and returns nil: it creates,
    opens and removes nothing.  Once it attempts the
    migration it removes exactly one file, as its last call: the old key
    when every step up to the copy succeeded, the new key otherwise, also
    when the new key was never created.  After a complete copy its result
    is the result of removing the old key, so a failed removal is reported
    as an error of the migration; after a failed step its result is an
    error.  Each file it opened is closed before the removal, the old one
    first. *)
Theorem migrateKey_outcome :
  forall (env : FsEnv) (l : list FsCall),
    exists added,
      snd (migrateKey env l) = (l ++ added)%list /\
      (attempts env = false ->
       fst (migrateKey env l) = None /\
       added = Stat newPath ::
               (if statNotExist env then [currentUserIsOwner oldPath]
                else [])) /\
      (attempts env = true ->
       List.filter isRemove added =
         [Remove (if copies env then oldPath else newPath)] /\
       List.last added Copy =
         Remove (if copies env then oldPath else newPath) /\
       (copies env = true ->
        fst (migrateKey env l) = r_Remove env oldPath /\ In Copy added) /\
       (copies env = false -> fst (migrateKey env l) <> None)) /\
      List.filter isClose added =
        ((if opensOld env then [Close oldPath] else []) ++
         (if opensNew env then [Close newPath] else []))%list.
Proof.
  intros [notExist owner mkdir openFile open copy remove] l.
  unfold DaemonCli.migrateKey, migrateKey_body, migrateKey_copy,
    migrateKey_deferred, attempts, copies, opensOld, opensNew, fs, bind,
    modify, ret.
  cbn [statNotExist isOwner r_MkdirAll r_OpenFile r_Open r_Copy r_Remove].
  destruct notExist, owner; cbn;
    try (eexists; split; [rewrite <- ?app_assoc; reflexivity|];
         split; [intros _; split; reflexivity|];
         split; [discriminate|reflexivity]).
  destruct mkdir as [e1|]; cbn;
    [|destruct openFile as [e2|]; cbn;
      [|destruct open as [e3|]; cbn;
        [|destruct copy as [e4|]; cbn]]];
    rewrite <- ?app_assoc; cbn;
    (eexists; split; [reflexivity|]);
    (split; [discriminate|]);
    (split; [|reflexivity]);
    intros _; (split; [reflexivity|]); (split; [reflexivity|]);
    (split; [first [discriminate|intros _; split; [reflexivity|cbn; tauto]]
            |first [discriminate|intros _; discriminate]]).
Qed.

End WithPaths.

Section WithKey.
Variable tlsVerifyKey : string.
Variable env : LoadEnv.

Local Abbreviation loadDaemonCliConfig :=
  (loadDaemonCliConfig tlsVerifyKey env).
Local Abbreviation refuses := (refuses env).
Local Abbreviation mergedConfig := (mergedConfig env).

(** X25.  [loadDaemonCliConfig] first writes the common flags into the
    configuration of the caller, which keeps them also when the function
    fails.  It fails exactly when the merge with the configuration file
    fails and either the file was named by the flag or the error is not
    that the file is missing; an empty file name skips the merge.  When it
    succeeds, the configuration it returns is the merged one if the merge
    returned one, and the configuration of the caller otherwise; in the
    first case the common flags are not written into it again.  The
    returned configuration has TLS on whenever the TLS verification value
    is set in it, and the log level of the daemon is set, as the last
    call, to the level of the returned configuration. *)
Theorem loadDaemonCliConfig_outcome :
  forall (commonConfig : CommonFlags) (configFile : string) (w : LoadWorld),
    let r := fst (loadDaemonCliConfig commonConfig configFile w) in
    let w' := snd (loadDaemonCliConfig commonConfig configFile w) in
    let flags := copyCommonFlags commonConfig (config w) in
    (refuses flags configFile = true ->
     (exists err, r = Err err) /\
     w' = mkLoadWorld flags
            (calls w ++ [MergeDaemonConfigurations configFile])) /\
    (refuses flags configFile = false ->
     exists cfg,
       r = Ok cfg /\
       (IsValueSet cfg tlsVerifyKey = true -> TLS cfg = true) /\
       calls w' =
         (calls w ++
          (if String.eqb configFile "" then []
           else [MergeDaemonConfigurations configFile]) ++
          [setDaemonLogLevel (LogLevel cfg)])%list /\
       match mergedConfig flags configFile with
       | Some c =>
           cfg = (if IsValueSet c tlsVerifyKey then set_TLS true c else c) /\
           config w' = flags
       | None =>
           cfg = config w' /\
           config w' =
             (if IsValueSet (config w) tlsVerifyKey then set_TLS true flags
              else flags) /\
           Pidfile cfg = Pidfile (config w)
       end).
Proof.
  intros commonConfig configFile [c0 cs]. cbv zeta.
  unfold DaemonCli.loadDaemonCliConfig, mergeConfigFile, DaemonCli.refuses,
    DaemonCli.mergedConfig, updateConfig, loadCall, bind, modify, ret, get.
  cbn [config calls].
  destruct (String.eqb configFile "") eqn:Hfile;
    cbn [negb andb config calls].
  - split; [discriminate|]. intros _. cbn.
    destruct (IsValueSet c0 tlsVerifyKey) eqn:Hset; cbn;
      (eexists; split; [reflexivity|]);
      (split; [cbn; first [reflexivity|congruence]|]);
      (split; [reflexivity|]);
      (split; [reflexivity|split; reflexivity]).
  - destruct (r_Merge env (copyCommonFlags commonConfig c0) configFile)
      as [[c|] [err|]]; cbn [fst snd].
    + destruct (flag_IsSet env || negb (IsNotExist env err)); cbn.
      * split; [|discriminate]. intros _.
        split; [eexists; reflexivity|reflexivity].
      * split; [discriminate|]. intros _.
        destruct (IsValueSet c tlsVerifyKey) eqn:Hset; cbn;
          (eexists; split; [reflexivity|]);
          (split; [cbn; first [reflexivity|congruence]|]);
          rewrite <- ?app_assoc; (split; [reflexivity|]);
          split; reflexivity.
    + cbn. split; [discriminate|]. intros _.
      destruct (IsValueSet c tlsVerifyKey) eqn:Hset; cbn;
        (eexists; split; [reflexivity|]);
        (split; [cbn; first [reflexivity|congruence]|]);
        rewrite <- ?app_assoc; (split; [reflexivity|]);
        split; reflexivity.
    + destruct (flag_IsSet env || negb (IsNotExist env err)); cbn.
      * split; [|discriminate]. intros _.
        split; [eexists; reflexivity|reflexivity].
      * split; [discriminate|]. intros _.
        destruct (IsValueSet c0 tlsVerifyKey) eqn:Hset; cbn;
          (eexists; split; [reflexivity|]);
          (split; [cbn; first [reflexivity|congruence]|]);
          rewrite <- ?app_assoc; (split; [reflexivity|]);
          (split; [reflexivity|split; reflexivity]).
    + cbn. split; [discriminate|]. intros _.
      destruct (IsValueSet c0 tlsVerifyKey) eqn:Hset; cbn;
        (eexists; split; [reflexivity|]);
        (split; [cbn; first [reflexivity|congruence]|]);
        rewrite <- ?app_assoc; (split; [reflexivity|]);
        (split; [reflexivity|split; reflexivity]).
Qed.

End WithKey.

(** A key owned by the user whose copy fails: the new key file is removed,
    the old one is kept, and both files are closed first. *)
Example migrateKey_copy_fails :
  migrateKey "/home/u/.docker/key.json" "/etc/docker/key.json" "/etc/docker"
    (fun s => s)
    (mkFsEnv true true None None None (Some (Errorf "disk full"))
       (fun _ => None)) [] =
  (Some (Errorf "error copying key: disk full"),
   [Stat "/etc/docker/key.json";
    currentUserIsOwner "/home/u/.docker/key.json";
    MkdirAll "/etc/docker"; OpenFile "/etc/docker/key.json";
    Open "/home/u/.docker/key.json"; Copy;
    Close "/home/u/.docker/key.json"; Close "/etc/docker/key.json";
    Warnf "Key migration failed, key file not removed at /home/u/.docker/key.json";
    Remove "/etc/docker/key.json"]).
Proof. reflexivity. Qed.

(** A configuration file that does not exist and was not asked for: the
    flags stay, and TLS is switched on because the verification value is
    set. *)
Example loadDaemonCliConfig_missing_file :
  fst (loadDaemonCliConfig "tlsverify"
         (mkLoadEnv (fun _ _ => (None, Some (Errorf "no such file")))
            false (fun _ => true))
         (mkCommonFlags true ["unix:///var/run/docker.sock"] "debug" false
            false None)
         "/etc/docker/daemon.json"
         (mkLoadWorld
            (mkConfig false [] "info" false false (mkTLSOptions "a" "b" "c")
               "/var/run/docker.pid" (String.eqb "tlsverify"))
            [])) =
  Ok (mkConfig true ["unix:///var/run/docker.sock"] "debug" true false
        (mkTLSOptions "" "" "") "/var/run/docker.pid"
        (String.eqb "tlsverify")).
Proof. reflexivity. Qed.

End DaemonCliFacts.
